(** * Yoldagilar backend: progress aggregation, leaderboards and achievements

    A shallow embedding of the leaderboard and task-submission code of the
    Yoldagilar challenge backend:

    - [services/supabaseService.js]: [BaseService.executeQuery],
      [DailyProgressService.getUserAllTimeStats], [submitDailyProgress],
      [getLeaderboardData], [getDateFilter];
    - [controllers/leaderboardController.js]: [getLeaderboard],
      [getUserLeaderboardPosition], [getAchievementLeaderboard],
      [getSurroundingUsers], [calculateLeaderboardStats],
      [calculateUserAchievements], [calculateAchievementScore];
    - [controllers/tasksController.js]: [submitDailyProgress],
      [validateSubmissionData], [checkForAchievements].

    JavaScript integers are modelled by [Z]. The other numbers are IEEE 754
    doubles: a finite double is held as the rational it denotes, in [Q], and
    every addition, subtraction, multiplication and division of doubles is
    rounded to the nearest double, ties to even ([to_double]). [NaN] of
    [parseInt] has a constructor of its own, [undefined]/[null] columns are
    [option]s. *)

From Stdlib Require Import ZArith QArith Qround Qpower Qreduction Qminmax Lia Lqa
  Ascii String Sorted.
From stdpp Require Import base option list strings sorting.

#[local] Set Warnings "-register-all".
Local Open Scope Z_scope.

(* ===================================================================== *)
(** ** The JavaScript platform functions the code relies on              *)
(* ===================================================================== *)

Module Js.

(** A number that is an integer or [NaN] (the result of [parseInt]). *)
Inductive JsInt : Type :=
| NaN
| Int (z : Z).

(** [ToIntegerOrInfinity]: [NaN] becomes [0]. *)
Definition ToIntegerOrInfinity (n : JsInt) : Z :=
  match n with NaN => 0 | Int z => z end.

(** [n * k] for an integer constant [k]. *)
Definition mul (n : JsInt) (k : Z) : JsInt :=
  match n with NaN => NaN | Int z => Int (z * k) end.

(** [x || 0] on a numeric column that may be [null]: a missing value and
    the value [0] both give [0]. *)
Definition or_zero (o : option Z) : Z :=
  match o with Some z => z | None => 0 end.

(** The same on a column that is not an integer. *)
Definition or_zeroQ (o : option Q) : Q :=
  match o with Some q => q | None => 0%Q end.

(** *** IEEE 754 doubles

    A finite double is [m * 2^k] for integers [|m| < 2^53] and
    [-1074 <= k <= 971]. [to_double q] is the double nearest to the
    rational [q], the one with the even [m] when two are as near: the
    rounding of every operation below. A result beyond the largest double
    ([Infinity] in JavaScript), the sign of a zero and [NaN] are outside of
    this model: the numbers of the code are totals of validated distances,
    quotients by a length that is not zero, and products by 100. *)

(** [2^k] for any integer [k]. *)
Definition pow2 (k : Z) : Q := (2 ^ k)%Q.

(** The integer nearest to [q], the even one of two as near. *)
Definition round_half_even (q : Q) : Z :=
  let f := Qfloor q in
  match (q - inject_Z f ?= 1 # 2)%Q with
  | Lt => f
  | Gt => f + 1
  | Eq => if Z.even f then f else f + 1
  end.

(** The exponent [e] with [2^e <= q < 2^(e+1)], for [q > 0]. *)
Definition binade (q : Q) : Z :=
  let e := Z.log2 (Qnum q) - Z.log2 (Zpos (Qden q)) in
  if Qle_bool (pow2 e) q then e else e - 1.

(** The exponent of the spacing of the doubles around [q > 0]: 53
    significant bits, and [2^-1074] for the subnormal numbers. *)
Definition ulp_exponent (q : Q) : Z := Z.max (binade q - 52) (-1074).

(** [q] rounded to a multiple of [2^k]. *)
Definition round_on (k : Z) (q : Q) : Q :=
  (inject_Z (round_half_even (q * pow2 (- k))) * pow2 k)%Q.

(** The double nearest to [q], as a fraction in lowest terms. *)
Definition to_double (q : Q) : Q :=
  Qred match Qnum q with
       | 0 => 0%Q
       | Zpos _ => round_on (ulp_exponent q) q
       | Zneg _ => (- round_on (ulp_exponent (- q)) (- q))%Q
       end.

(** [a + b], [a - b], [a * b] and [a / b] on doubles. An operand that is
    not a double stands for the double nearest to it, as a decimal
    literal does; [b] is not zero where the code divides. *)
Definition fadd (a b : Q) : Q := to_double (to_double a + to_double b).
Definition fsub (a b : Q) : Q := to_double (to_double a - to_double b).
Definition fmul (a b : Q) : Q := to_double (to_double a * to_double b).
Definition fdiv (a b : Q) : Q := to_double (to_double a / to_double b).

(** [Math.round]: the nearest integer, halves rounded towards [+∞]. *)
Definition Math_round (q : Q) : Z := Qfloor (q + (1 # 2))%Q.

(** [Math.floor]. *)
Definition Math_floor (q : Q) : Z := Qfloor q.

(** [Math.max(...l)]; [None] stands for [-Infinity], the value on no
    argument. *)
Definition Math_max (l : list Q) : option Q :=
  match l with
  | [] => None
  | x :: r => Some (fold_left Qmax r x)
  end.

(** [Array.prototype.slice(start, end)] on integer arguments: negative
    positions count from the end, both are clamped to the array. *)
Definition relative_index (len i : Z) : Z :=
  if i <? 0 then Z.max (len + i) 0 else Z.min i len.

(** [l.slice(start, stop)]. *)
Definition Array_slice {A} (l : list A) (start stop : Z) : list A :=
  let len := Z.of_nat (length l) in
  let k := relative_index len start in
  let final := relative_index len stop in
  take (Z.to_nat (Z.max (final - k) 0)) (drop (Z.to_nat k) l).

(** [Array.prototype.sort(cmp)]. The language fixes the result for a
    consistent comparator: a stable sort, [a] before [b] when
    [cmp a b < 0], the input order kept when [cmp a b = 0]. It is
    written here as a stable insertion sort. *)
Section Sort.
Context {A : Type} (cmp : A -> A -> Q).

(** [x] is put before the first element that it does not have to
    follow. *)
Fixpoint sort_insert (x : A) (l : list A) : list A :=
  match l with
  | [] => [x]
  | y :: r =>
      if Qle_bool (cmp x y) 0 then x :: y :: r
      else y :: sort_insert x r
  end.

(** [l.sort(cmp)]. *)
Definition Array_sort (l : list A) : list A :=
  foldr sort_insert [] l.
End Sort.

(** [Array.prototype.join] on an array of strings. *)
Definition Array_join (separator : string) (l : list string) : string :=
  String.concat separator l.

(** [Array.prototype.findIndex]; [None] stands for [-1]. *)
Fixpoint Array_findIndex {A} (f : A -> bool) (l : list A) : option nat :=
  match l with
  | [] => None
  | x :: r => if f x then Some O else S <$> Array_findIndex f r
  end.

(** [Array.prototype.find]. *)
Fixpoint Array_find {A} (f : A -> bool) (l : list A) : option A :=
  match l with
  | [] => None
  | x :: r => if f x then Some x else Array_find f r
  end.

(** *** Values of a decoded JSON request *)

(** A request body or query parameter as the code receives it. [JNum]
    holds a finite number. *)
Inductive JsValue : Type :=
| JUndefined
| JNull
| JBool (b : bool)
| JNum (q : Q)
| JStr (s : string)
| JObj (fields : list (string * JsValue)).

(** [Boolean(v)], the truthiness used by [filter(Boolean)], [||] and [!]. *)
Definition truthy (v : JsValue) : bool :=
  match v with
  | JUndefined | JNull => false
  | JBool b => b
  | JNum q => negb (Qeq_bool q 0)
  | JStr s => negb (String.eqb s EmptyString)
  | JObj _ => true
  end.

(** [typeof v]. *)
Definition typeof (v : JsValue) : string :=
  match v with
  | JUndefined => "undefined"
  | JNull | JObj _ => "object"
  | JBool _ => "boolean"
  | JNum _ => "number"
  | JStr _ => "string"
  end.

(** [o[k]] on the fields of an object: [undefined] when [k] is absent. *)
Fixpoint get_field (fields : list (string * JsValue)) (k : string) : JsValue :=
  match fields with
  | [] => JUndefined
  | (k', v) :: r => if String.eqb k k' then v else get_field r k
  end.

(** [Object.values(o)]. *)
Definition Object_values (fields : list (string * JsValue)) : list JsValue :=
  map snd fields.

(** *** [parseInt] and [parseFloat] *)

(** White space among the ASCII characters: space, tab, line feed,
    vertical tab, form feed, carriage return. *)
Definition is_white_space (c : ascii) : bool :=
  let n := nat_of_ascii c in
  (Nat.eqb n 32 || (Nat.leb 9 n && Nat.leb n 13))%bool.

(** [s] without its leading white space. *)
Fixpoint trim_start (s : string) : string :=
  match s with
  | String c r => if is_white_space c then trim_start r else s
  | EmptyString => s
  end.

(** The value of [c] as a digit in [radix] (10 or 16). *)
Definition digit_value (radix : Z) (c : ascii) : option Z :=
  let n := Z.of_nat (nat_of_ascii c) in
  if (48 <=? n) && (n <=? 57) then Some (n - 48)
  else if (radix =? 16) && (97 <=? n) && (n <=? 102) then Some (n - 87)
  else if (radix =? 16) && (65 <=? n) && (n <=? 70) then Some (n - 55)
  else None.

(** The longest prefix of digits of [s]: its value, how many digits it has,
    and what follows it. *)
Fixpoint read_digits (radix : Z) (s : string) (acc : Z) (count : nat)
  : Z * nat * string :=
  match s with
  | String c r =>
      match digit_value radix c with
      | Some d => read_digits radix r (acc * radix + d) (S count)
      | None => (acc, count, s)
      end
  | EmptyString => (acc, count, s)
  end.

(** A leading sign: [(negative, rest)]. *)
Definition read_sign (s : string) : bool * string :=
  match s with
  | String "-"%char r => (true, r)
  | String "+"%char r => (false, r)
  | _ => (false, s)
  end.

(** [parseInt(s)] on a string, radix not given: leading white space, an
    optional sign, an optional [0x] for base 16, then the longest prefix
    of digits; [NaN] when there is no digit. *)
Definition parseInt_string (s : string) : JsInt :=
  let '(neg, s1) := read_sign (trim_start s) in
  let '(radix, s2) :=
    match s1 with
    | String "0"%char (String "x"%char r) | String "0"%char (String "X"%char r) => (16, r)
    | _ => (10, s1)
    end in
  let '(v, count, _) := read_digits radix s2 0 O in
  match count with
  | O => NaN
  | S _ => Int (if neg then - v else v)
  end.

(** The integer part of [q], rounded towards zero. *)
Definition Qtruncate (q : Q) : Z := Z.quot (Qnum q) (Z.pos (Qden q)).

(** [parseInt(v)]: the argument is first converted to a string. A number
    prints in decimal notation when it is [0] or [1e-6 <= |q| < 1e21], and
    parsing that string gives its integer part; the numbers that print
    with an exponent are outside this model. *)
Definition parseInt (v : JsValue) : JsInt :=
  match v with
  | JNum q => Int (Qtruncate q)
  | JStr s => parseInt_string s
  | JUndefined | JNull | JBool _ | JObj _ => NaN
  end.

(** [10 ^ e] as a rational, for any integer [e]. *)
Definition pow10 (e : Z) : Q :=
  if e <? 0 then (1 # Pos.pow 10 (Z.to_pos (- e)))%Q
  else inject_Z (10 ^ e).

(** [parseFloat(s)] on a string: leading white space, an optional sign,
    digits with an optional fraction and an optional exponent, read as
    the double nearest to the decimal number; [None] is [NaN]. The
    literal [Infinity] is read as [None]: the code below only compares
    the result with finite bounds and rejects both. *)
Definition parseFloat_string (s : string) : option Q :=
  let '(neg, s1) := read_sign (trim_start s) in
  let '(ip, icount, s2) := read_digits 10 s1 0 O in
  let '(fp, fcount, s3) :=
    match s2 with
    | String "."%char r => read_digits 10 r 0 O
    | _ => (0, O, s2)
    end in
  match icount, fcount with
  | O, O => None
  | _, _ =>
      let mant := (inject_Z ip + inject_Z fp * pow10 (- Z.of_nat fcount))%Q in
      let e :=
        match s3 with
        | String "e"%char r | String "E"%char r =>
            let '(eneg, r1) := read_sign r in
            let '(ev, ecount, _) := read_digits 10 r1 0 O in
            match ecount with
            | O => 0
            | S _ => if eneg then - ev else ev
            end
        | _ => 0
        end in
      let v := (mant * pow10 e)%Q in
      Some (to_double (if neg then (- v)%Q else v))
  end.

(** [parseFloat(v)]: a finite number prints and parses back to itself. *)
Definition parseFloat (v : JsValue) : option Q :=
  match v with
  | JNum q => Some q
  | JStr s => parseFloat_string s
  | JUndefined | JNull | JBool _ | JObj _ => None
  end.

(** [parseInt(x) || 0] and [parseFloat(x) || 0]. *)
Definition int_or_zero (n : JsInt) : Z :=
  match n with NaN => 0 | Int z => z end.

Definition float_or_zero (n : option Q) : Q :=
  match n with None => 0%Q | Some q => q end.

End Js.

Import Js.

(* ===================================================================== *)
(** ** Errors and the result of a request                                *)
(* ===================================================================== *)

(** The operational errors of [middleware/errorHandler.js] that the code
    below raises with [throw createError.*]. *)
Inductive AppError : Type :=
| BadRequest (message : string)
| NotFound (resource : string)
| Forbidden (message : string)
| DatabaseError (operation : string).

(** A computation that returns a value or throws. *)
Inductive Result (A : Type) : Type :=
| Ok (a : A)
| Err (e : AppError).
Arguments Ok {A} a.
Arguments Err {A} e.

#[global] Instance Result_ret : MRet Result := @Ok.
#[global] Instance Result_bind : MBind Result :=
  λ A B f m, match m with Ok a => f a | Err e => Err e end.

(** [if (c) throw e]. *)
Definition throw_if (c : bool) (e : AppError) : Result unit :=
  if c then Err e else Ok tt.

(* ===================================================================== *)
(** ** Data model: the two tables and the application constants          *)
(* ===================================================================== *)

(** [APP_CONSTANTS] of [config/config.js]. *)
Module APP_CONSTANTS.
Definition USER_STATUS_APPROVED : string := "approved".
Definition TOTAL_DAILY_TASKS : Z := 10.
Definition MIN_PAGES_READ : Z := 0.
Definition MAX_PAGES_READ : Z := 1000.
Definition MIN_DISTANCE : Z := 0.
Definition MAX_DISTANCE : Z := 100.
Definition LEADERBOARD_TYPES : list string :=
  ["overall"; "reading"; "distance"; "consistency"].
Definition TIME_PERIODS : list string :=
  ["daily"; "weekly"; "monthly"; "all"].
Definition ACHIEVEMENTS_CONSISTENT : string := "consistent".
Definition ACHIEVEMENTS_PERFECTIONIST : string := "perfectionist".
Definition ACHIEVEMENTS_NEWCOMER : string := "newcomer".
End APP_CONSTANTS.

(** A row of the [users] table. *)
Module User.
Record t : Type := mk {
  tg_id : Z;
  name : string;
  photo_url : option string;
  is_premium : bool;
  status : string
}.
End User.

(** A row of the [daily_progress] table, unique per [(tg_id, date)]. A
    date [YYYY-MM-DD] is held as its day number (days since 1970-01-01,
    UTC), which orders dates as the strings do; a time as milliseconds
    since then. The numeric columns may be [null]. *)
Module Progress.
Record t : Type := mk {
  tg_id : Z;
  date : Z;
  tasks : list (string * JsValue);
  task_inputs : list (string * JsValue);
  pages_read : option Z;
  distance_km : option Q;
  completed_count : option Z;
  submission_time : Z
}.
End Progress.

(** The record store, the clock ([Date.now()]) and the operations of
    [executeQuery] on which the database answers with an error. *)
Record Store : Type := mkStore {
  users : list User.t;
  daily_progress : list Progress.t;
  clock : Z;
  failing : string -> bool
}.

Definition MS_PER_DAY : Z := 24 * 60 * 60 * 1000.

(** [new Date(ms).toISOString().split('T')[0]] as a day number. *)
Definition iso_date (ms : Z) : Z := ms / MS_PER_DAY.

(* ===================================================================== *)
(** ** services/supabaseService.js                                       *)
(* ===================================================================== *)

(** [BaseService.executeQuery(queryFn, operation)]: the rows of the query
    when the database answers, [createError.database] when the answer
    carries an error ([None]) or the operation fails. *)
Definition executeQuery {A} (st : Store) (query : option A)
    (operation : string) : Result A :=
  if failing st operation then Err (DatabaseError operation)
  else match query with
       | Some data => Ok data
       | None => Err (DatabaseError operation)
       end.

(** [.single()]: an error unless exactly one row is selected. *)
Definition single {A} (rows : list A) : option A :=
  match rows with
  | [row] => Some row
  | _ => None
  end.

(** [UserService.getUserByTelegramId]. *)
Definition getUserByTelegramId (st : Store) (tgId : Z)
  : Result (option User.t) :=
  result ← executeQuery st
    (single (filter (λ u, User.tg_id u = tgId) (users st)))
    "SELECT_USER";
  mret (Some result).

(** The totals returned by [getUserAllTimeStats]. *)
Module AllTimeStats.
Record t : Type := mk {
  total_points : Z;
  total_pages : Z;
  total_distance : Q;
  total_days : Z
}.
End AllTimeStats.

(** [DailyProgressService.getUserAllTimeStats]; [reduce] is a left fold. *)
Definition getUserAllTimeStats (st : Store) (tgId : Z)
  : Result AllTimeStats.t :=
  data ← executeQuery st
    (Some (filter (λ day, Progress.tg_id day = tgId) (daily_progress st)))
    "SELECT_USER_ALL_STATS";
  mret {|
    AllTimeStats.total_points :=
      fold_left (λ sum day, sum + or_zero (Progress.completed_count day)) data 0;
    AllTimeStats.total_pages :=
      fold_left (λ sum day, sum + or_zero (Progress.pages_read day)) data 0;
    AllTimeStats.total_distance :=
      fold_left (λ sum day, fadd sum (or_zeroQ (Progress.distance_km day)))
                data 0%Q;
    AllTimeStats.total_days := Z.of_nat (length data)
  |}.

(** The payload [progressData] built by the controller. *)
Module ProgressData.
Record t : Type := mk {
  tg_id : Z;
  date : option Z;
  tasks : list (string * JsValue);
  task_inputs : list (string * JsValue);
  pages_read : Z;
  distance_km : Q;
  completed_count : Z;
  submission_time : Z
}.
End ProgressData.

(** [.upsert(row, { onConflict: ['tg_id', 'date'] })]: the row with the
    same key is replaced, otherwise the row is added. *)
Fixpoint upsert (row : Progress.t) (rows : list Progress.t) : list Progress.t :=
  match rows with
  | [] => [row]
  | r :: rest =>
      if (Progress.tg_id r =? Progress.tg_id row)
         && (Progress.date r =? Progress.date row)
      then row :: rest
      else r :: upsert row rest
  end.

(** [DailyProgressService.submitDailyProgress]: returns the saved row and
    the store after the write. *)
Definition submitDailyProgress_service (st : Store)
    (progressData : ProgressData.t) : Result (Progress.t * Store) :=
  let dataToInsert := {|
    Progress.tg_id := ProgressData.tg_id progressData;
    Progress.date := default (iso_date (clock st)) (ProgressData.date progressData);
    Progress.tasks := ProgressData.tasks progressData;
    Progress.task_inputs := ProgressData.task_inputs progressData;
    Progress.pages_read := Some (ProgressData.pages_read progressData);
    Progress.distance_km := Some (ProgressData.distance_km progressData);
    Progress.completed_count := Some (ProgressData.completed_count progressData);
    Progress.submission_time := clock st
  |} in
  result ← executeQuery st (Some dataToInsert) "UPSERT_DAILY_PROGRESS";
  mret (result,
        mkStore (users st) (upsert dataToInsert (daily_progress st))
                (clock st) (failing st)).

(** [DailyProgressService.getDateFilter]; [None] is [null]. *)
Definition getDateFilter (st : Store) (period : string) : option Z :=
  let now := clock st in
  if String.eqb period "daily" then Some (iso_date now)
  else if String.eqb period "weekly" then
    Some (iso_date (now - 7 * 24 * 60 * 60 * 1000))
  else if String.eqb period "monthly" then
    Some (iso_date (now - 30 * 24 * 60 * 60 * 1000))
  else None.

(** The per-user accumulator of [getLeaderboardData]. *)
Module UserStats.
Record t : Type := mk {
  total_points : Z;
  total_pages : Z;
  total_distance : Q;
  days_count : Z
}.
Definition zero : t := mk 0 0 0%Q 0.
End UserStats.

(** A JavaScript object whose keys are the decimal strings of integers,
    here [userStats], keyed by [tg_id]: the properties in creation
    order. *)
Abbreviation JsObject V := (list (Z * V)).

(** [o[k]]. *)
Fixpoint obj_get {V} (o : JsObject V) (k : Z) : option V :=
  match o with
  | [] => None
  | (k', v) :: r => if k' =? k then Some v else obj_get r k
  end.

(** [o[k] = v]: an existing property keeps its place, a new one is
    created last. *)
Fixpoint obj_set {V} (o : JsObject V) (k : Z) (v : V) : JsObject V :=
  match o with
  | [] => [(k, v)]
  | (k', v') :: r =>
      if k' =? k then (k', v) :: r else (k', v') :: obj_set r k v
  end.

(** A key is an array index when it is the decimal string of an integer
    in [0, 2^32 - 2]. *)
Definition is_array_index (k : Z) : bool :=
  (0 <=? k) && (k <? 2 ^ 32 - 1).

(** [Object.entries(o)]: the array-index keys in ascending order, then
    the other keys in creation order. *)
Definition Object_entries {V} (o : JsObject V) : list (Z * V) :=
  Array_sort (λ a b, inject_Z (a.1 - b.1))
             (filter (λ kv, is_array_index kv.1 = true) o)
  ++ filter (λ kv, is_array_index kv.1 = false) o.

(** The body of [progressData.forEach(progress => ...)]. *)
Definition accumulate (userStats : JsObject UserStats.t)
    (progress : Progress.t) : JsObject UserStats.t :=
  let userId := Progress.tg_id progress in
  let s := default UserStats.zero (obj_get userStats userId) in
  obj_set userStats userId {|
    UserStats.total_points :=
      UserStats.total_points s + or_zero (Progress.completed_count progress);
    UserStats.total_pages :=
      UserStats.total_pages s + or_zero (Progress.pages_read progress);
    UserStats.total_distance :=
      fadd (UserStats.total_distance s)
           (or_zeroQ (Progress.distance_km progress));
    UserStats.days_count := UserStats.days_count s + 1
  |}.

(** An achievement badge. *)
Module Achievement.
Record t : Type := mk {
  id : string;
  name : string;
  description : string;
  category : string;
  rarity : string
}.
End Achievement.

(** A user joined with the aggregated statistics ([...stats]). *)
Module Participant.
Record t : Type := mk {
  tg_id : Z;
  name : string;
  photo_url : option string;
  is_premium : bool;
  total_points : Z;
  total_pages : Z;
  total_distance : Q;
  days_count : Z
}.

(** [user[sortKey]] for the numeric properties. *)
Definition get (user : t) (key : string) : Q :=
  if String.eqb key "total_points" then inject_Z (total_points user)
  else if String.eqb key "total_pages" then inject_Z (total_pages user)
  else if String.eqb key "total_distance" then total_distance user
  else if String.eqb key "days_count" then inject_Z (days_count user)
  else 0%Q.
End Participant.

(** An entry of the returned leaderboard: [{...user, rank, score,
    achievements}]. *)
Module Entry.
Record t : Type := mk {
  user : Participant.t;
  rank : Z;
  score : Q;
  achievements : list Achievement.t
}.
Definition tg_id (e : t) : Z := Participant.tg_id (user e).
End Entry.

(** The [options] argument of [getLeaderboardData]; [None] is a property
    that is absent. *)
Module Options.
Record t : Type := mk {
  period : option string;
  type : option string;
  limit : option JsInt;
  offset : option JsInt
}.
End Options.

(** [type === 'reading' ? 'total_pages' : type === 'distance' ?
    'total_distance' : 'total_points']. *)
Definition sortKey_of (type : string) : string :=
  if String.eqb type "reading" then "total_pages"
  else if String.eqb type "distance" then "total_distance"
  else "total_points".

(** The rows selected by [getLeaderboardData] for a period. *)
Definition select_progress (st : Store) (period : string) : list Progress.t :=
  if negb (String.eqb period "all") then
    match getDateFilter st period with
    | Some dateFilter =>
        filter (λ p, dateFilter <= Progress.date p) (daily_progress st)
    | None => daily_progress st
    end
  else daily_progress st.

(** [[...new Set(progressData.map(p => p.tg_id))]]. *)
Definition unique_ids (progressData : list Progress.t) : list Z :=
  remove_dups (map Progress.tg_id progressData).

(** The sorted, unsliced array [leaderboard] of [getLeaderboardData]. *)
Definition sorted_leaderboard (users : list User.t)
    (progressData : list Progress.t) (sortKey : string) : list Participant.t :=
  let userStats := fold_left accumulate progressData [] in
  let leaderboard :=
    omap (λ '(userId, stats),
            user ← Array_find (λ u, User.tg_id u =? userId) users;
            Some {|
              Participant.tg_id := userId;
              Participant.name := User.name user;
              Participant.photo_url := User.photo_url user;
              Participant.is_premium := User.is_premium user;
              Participant.total_points := UserStats.total_points stats;
              Participant.total_pages := UserStats.total_pages stats;
              Participant.total_distance := UserStats.total_distance stats;
              Participant.days_count := UserStats.days_count stats
            |})
         (Object_entries userStats) in
  Array_sort (λ a b, (Participant.get b sortKey - Participant.get a sortKey)%Q)
             leaderboard.

(** [DailyProgressService.getLeaderboardData]. *)
Definition getLeaderboardData (st : Store) (options : Options.t)
  : Result (list Entry.t) :=
  let period := default "all" (Options.period options) in
  let type := default "overall" (Options.type options) in
  let limit := default (Int 100) (Options.limit options) in
  progressData ← executeQuery st (Some (select_progress st period))
    "SELECT_LEADERBOARD_DATA";
  let userIds := unique_ids progressData in
  users ← executeQuery st
    (Some (filter (λ u, User.tg_id u ∈ userIds
                        ∧ User.status u = APP_CONSTANTS.USER_STATUS_APPROVED)
                  (users st)))
    "SELECT_LEADERBOARD_USERS";
  let sortKey := sortKey_of type in
  let leaderboard := sorted_leaderboard users progressData sortKey in
  mret (imap (λ index user, {|
                Entry.user := user;
                Entry.rank := Z.of_nat index + 1;
                Entry.score := Participant.get user sortKey;
                Entry.achievements := []
              |})
             (Array_slice leaderboard 0 (ToIntegerOrInfinity limit))).

(* ===================================================================== *)
(** ** controllers/leaderboardController.js                              *)
(* ===================================================================== *)

(** [req.query] of the leaderboard routes; [None] is a parameter that was
    not sent. *)
Module Query.
Record t : Type := mk {
  period : option string;
  type : option string;
  limit : option JsValue;
  offset : option JsValue
}.
End Query.

(** [LeaderboardController.validateLeaderboardParams]. *)
Definition validateLeaderboardParams (period type : string)
    (limit offset : JsValue) : Result unit :=
  let validPeriods := APP_CONSTANTS.TIME_PERIODS in
  _ ← throw_if (negb (bool_decide (period ∈ validPeriods)))
        (BadRequest ("Invalid period. Must be one of: "
                     +:+ Array_join ", " validPeriods));
  let validTypes := APP_CONSTANTS.LEADERBOARD_TYPES in
  _ ← throw_if (negb (bool_decide (type ∈ validTypes)))
        (BadRequest ("Invalid type. Must be one of: "
                     +:+ Array_join ", " validTypes));
  let limitNum := parseInt limit in
  _ ← throw_if (match limitNum with
                | NaN => true
                | Int n => (n <? 1) || (1000 <? n)
                end)
        (BadRequest "Limit must be between 1 and 1000");
  let offsetNum := parseInt offset in
  throw_if (match offsetNum with
            | NaN => true
            | Int n => n <? 0
            end)
    (BadRequest "Offset must be >= 0").

(** [responseService.formatLeaderboardParticipant]. *)
Module Formatted.
Record t : Type := mk {
  tg_id : Z;
  name : string;
  rank : Z;
  score : Q;
  total_points : Z;
  total_pages : Z;
  total_distance : Q;
  photo_url : option string;
  achievements : list Achievement.t;
  is_premium : bool
}.
End Formatted.

Definition formatLeaderboardParticipant (participant : Entry.t) (rank : Z)
  : Formatted.t :=
  let user := Entry.user participant in {|
    Formatted.tg_id := Participant.tg_id user;
    Formatted.name := Participant.name user;
    Formatted.rank := rank;
    Formatted.score := Entry.score participant;
    Formatted.total_points := Participant.total_points user;
    Formatted.total_pages := Participant.total_pages user;
    Formatted.total_distance := Participant.total_distance user;
    Formatted.photo_url := Participant.photo_url user;
    Formatted.achievements := Entry.achievements participant;
    Formatted.is_premium := Participant.is_premium user
  |}.

(** [LeaderboardController.getTotalParticipants]: an error is caught and
    answered with [0]. *)
Definition getTotalParticipants (st : Store) (period : string) : Z :=
  match getLeaderboardData st
          (Options.mk (Some period) (Some "overall") (Some (Int 10000)) None) with
  | Ok allData => Z.of_nat (length allData)
  | Err _ => 0
  end.

(** The body of [responseService.leaderboard]. *)
Module LeaderboardResponse.
Record t : Type := mk {
  total_participants : Z;
  leaderboard : list Formatted.t
}.
End LeaderboardResponse.

(** [LeaderboardController.getLeaderboard]. *)
Definition getLeaderboard (st : Store) (query : Query.t)
  : Result LeaderboardResponse.t :=
  let period := default "all" (Query.period query) in
  let type := default "overall" (Query.type query) in
  let limit := default (JNum 100) (Query.limit query) in
  let offset := default (JNum 0) (Query.offset query) in
  _ ← validateLeaderboardParams period type limit offset;
  leaderboardData ← getLeaderboardData st
    (Options.mk (Some period) (Some type)
                (Some (parseInt limit)) (Some (parseInt offset)));
  let formattedLeaderboard :=
    map (λ participant,
           formatLeaderboardParticipant participant (Entry.rank participant))
        leaderboardData in
  let totalParticipants := getTotalParticipants st period in
  mret (LeaderboardResponse.mk totalParticipants formattedLeaderboard).

(** An element of [surrounding_users]. *)
Module Surrounding.
Record t : Type := mk {
  rank : Z;
  tg_id : Z;
  name : string;
  score : Q;
  photo_url : option string;
  is_current_user : bool
}.
End Surrounding.

(** [LeaderboardController.getSurroundingUsers]. *)
Definition getSurroundingUsers (leaderboard : list Entry.t)
    (userPosition : Z) : list Surrounding.t :=
  let surroundingCount := 3 in
  let start := Z.max 0 (userPosition - surroundingCount) in
  let stop := Z.min (Z.of_nat (length leaderboard))
                    (userPosition + surroundingCount + 1) in
  imap (λ index user, {|
          Surrounding.rank := start + Z.of_nat index + 1;
          Surrounding.tg_id := Entry.tg_id user;
          Surrounding.name := Participant.name (Entry.user user);
          Surrounding.score := Entry.score user;
          Surrounding.photo_url := Participant.photo_url (Entry.user user);
          Surrounding.is_current_user := start + Z.of_nat index =? userPosition
        |})
       (Array_slice leaderboard start stop).

(** [user_position] in the answer of [getUserLeaderboardPosition]. *)
Module Position.
Record t : Type := mk {
  rank : Z;
  score : Q;
  total_points : Z;
  total_pages : Z;
  total_distance : Q;
  percentile : Z
}.
End Position.

(** The two answers of [getUserLeaderboardPosition]. *)
Inductive PositionResponse : Type :=
| NotInLeaderboard (total_participants : Z)
| Located (user_position : Position.t)
          (surrounding_users : list Surrounding.t)
          (total_participants : Z)
          (leaderboard_type time_period : string).

(** [Math.round((1 - userPosition / fullLeaderboard.length) * 100)]. *)
Definition percentile_of (userPosition length : Z) : Z :=
  Math_round (fmul (fsub 1 (fdiv (inject_Z userPosition) (inject_Z length)))
                   100).

(** Lines 88-120 of [getUserLeaderboardPosition]: the answer computed from
    the full leaderboard. *)
Definition locate_user (fullLeaderboard : list Entry.t) (telegramId : Z)
    (type period : string) : PositionResponse :=
  match Array_findIndex (λ participant, Entry.tg_id participant =? telegramId)
                        fullLeaderboard with
  | None => NotInLeaderboard (Z.of_nat (length fullLeaderboard))
  | Some userPosition =>
      match fullLeaderboard !! userPosition with
      | None => (* not reached: the index found is in the array *)
          NotInLeaderboard (Z.of_nat (length fullLeaderboard))
      | Some userStats =>
          let userRank := Z.of_nat userPosition + 1 in
          let surroundingUsers :=
            getSurroundingUsers fullLeaderboard (Z.of_nat userPosition) in
          Located {|
              Position.rank := userRank;
              Position.score := Entry.score userStats;
              Position.total_points := Participant.total_points (Entry.user userStats);
              Position.total_pages := Participant.total_pages (Entry.user userStats);
              Position.total_distance := Participant.total_distance (Entry.user userStats);
              Position.percentile :=
                percentile_of (Z.of_nat userPosition)
                              (Z.of_nat (length fullLeaderboard))
            |}
            surroundingUsers
            (Z.of_nat (length fullLeaderboard))
            type period
      end
  end.

(** [LeaderboardController.getUserLeaderboardPosition]. *)
Definition getUserLeaderboardPosition (st : Store) (tg_id : JsValue)
    (query : Query.t) : Result PositionResponse :=
  let period := default "all" (Query.period query) in
  let type := default "overall" (Query.type query) in
  let telegramId := parseInt tg_id in
  _ ← throw_if (match telegramId with NaN => true | Int n => n <=? 0 end)
        (BadRequest "Invalid Telegram ID format");
  let telegramId := ToIntegerOrInfinity telegramId in
  user ← getUserByTelegramId st telegramId;
  match user with
  | None => Err (NotFound "User")
  | Some user =>
      _ ← throw_if (negb (String.eqb (User.status user)
                                     APP_CONSTANTS.USER_STATUS_APPROVED))
            (Forbidden "User not approved yet");
      fullLeaderboard ← getLeaderboardData st
        (Options.mk (Some period) (Some type) (Some (Int 10000)) None);
      mret (locate_user fullLeaderboard telegramId type period)
  end.

(** An object with string keys and counters as values, in creation
    order: [completionRanges]. *)
Fixpoint increment (o : list (string * Z)) (k : string) : list (string * Z) :=
  match o with
  | [] => []
  | (k', n) :: r =>
      if String.eqb k' k then (k', n + 1) :: r else (k', n) :: increment r k
  end.

(** The [statistics] object; [None] in a field is [undefined] (an index
    outside of the array) or [-Infinity] ([Math.max] of nothing). *)
Module LeaderboardStats.
Record t : Type := mk {
  total_participants : Z;
  average_points : Q;
  median_points : option Q;
  top_10_percent_threshold : option Q;
  most_active_score : option Q;
  completion_distribution : list (string * Z)
}.
End LeaderboardStats.

(** The range a score is counted in. *)
Definition completion_range (score : Q) : string :=
  if Qle_bool score 10 then "0-10"
  else if Qle_bool score 50 then "11-50"
  else if Qle_bool score 100 then "51-100"
  else if Qle_bool score 200 then "101-200"
  else "200+".

(** [LeaderboardController.calculateLeaderboardStats]. The average is
    computed in doubles. The two indices are written with the exact
    quotient and product: the double quotient [n / 2] is exact, and the
    double product [n * 0.1] has the floor of the exact one (the proofs
    check it for every [n] up to 2000). *)
Definition calculateLeaderboardStats (leaderboardData : list Entry.t)
  : LeaderboardStats.t :=
  if (length leaderboardData =? 0)%nat then {|
    LeaderboardStats.total_participants := 0;
    LeaderboardStats.average_points := 0;
    LeaderboardStats.median_points := Some 0%Q;
    LeaderboardStats.top_10_percent_threshold := Some 0%Q;
    LeaderboardStats.most_active_score := Some 0%Q;
    LeaderboardStats.completion_distribution := []
  |}
  else
    let scores :=
      Array_sort (λ a b, (b - a)%Q) (map Entry.score leaderboardData) in
    let totalParticipants := Z.of_nat (length leaderboardData) in
    let averagePoints :=
      fdiv (fold_left (λ sum score, fadd sum score) scores 0%Q)
           (inject_Z totalParticipants) in
    let medianPoints :=
      scores !! Z.to_nat (Math_floor (inject_Z totalParticipants / 2)) in
    let top10PercentThreshold :=
      scores !! Z.to_nat (Math_floor (inject_Z totalParticipants * (1 # 10))) in
    let mostActiveScore := Math_max scores in
    let completionRanges :=
      [("0-10", 0); ("11-50", 0); ("51-100", 0); ("101-200", 0); ("200+", 0)] in
    let completionRanges :=
      fold_left (λ ranges score, increment ranges (completion_range score))
                scores completionRanges in
    {|
      LeaderboardStats.total_participants := totalParticipants;
      LeaderboardStats.average_points :=
        fdiv (inject_Z (Math_round (fmul averagePoints 100))) 100;
      LeaderboardStats.median_points := medianPoints;
      LeaderboardStats.top_10_percent_threshold := top10PercentThreshold;
      LeaderboardStats.most_active_score := mostActiveScore;
      LeaderboardStats.completion_distribution := completionRanges
    |}.

(** [LeaderboardController.getLeaderboardStats]. *)
Definition getLeaderboardStats (st : Store) (period : option string)
  : Result LeaderboardStats.t :=
  let period := default "all" period in
  leaderboardData ← getLeaderboardData st
    (Options.mk (Some period) (Some "overall") (Some (Int 10000)) None);
  mret (calculateLeaderboardStats leaderboardData).

(** [LeaderboardController.calculateUserAchievements]: the argument is the
    four totals of a leaderboard entry. *)
Definition calculateUserAchievements (stats : UserStats.t)
  : list Achievement.t :=
  let achievements := [] in
  let achievements :=
    if 500 <=? UserStats.total_points stats then
      achievements ++ [Achievement.mk "point_master" "Point Master"
                         "500+ total points" "points" "epic"]
    else if 100 <=? UserStats.total_points stats then
      achievements ++ [Achievement.mk "point_collector" "Point Collector"
                         "100+ total points" "points" "rare"]
    else achievements in
  let achievements :=
    if 1000 <=? UserStats.total_pages stats then
      achievements ++ [Achievement.mk "library_master" "Library Master"
                         "1000+ pages read" "reading" "legendary"]
    else if 500 <=? UserStats.total_pages stats then
      achievements ++ [Achievement.mk "book_lover" "Book Lover"
                         "500+ pages read" "reading" "epic"]
    else if 100 <=? UserStats.total_pages stats then
      achievements ++ [Achievement.mk "bookworm" "Bookworm"
                         "100+ pages read" "reading" "rare"]
    else achievements in
  let achievements :=
    if Qle_bool 500 (UserStats.total_distance stats) then
      achievements ++ [Achievement.mk "ultra_runner" "Ultra Runner"
                         "500+ km covered" "fitness" "legendary"]
    else if Qle_bool 200 (UserStats.total_distance stats) then
      achievements ++ [Achievement.mk "marathon_hero" "Marathon Hero"
                         "200+ km covered" "fitness" "epic"]
    else if Qle_bool 50 (UserStats.total_distance stats) then
      achievements ++ [Achievement.mk "runner" "Runner"
                         "50+ km covered" "fitness" "rare"]
    else achievements in
  let achievements :=
    if 100 <=? UserStats.days_count stats then
      achievements ++ [Achievement.mk "centurion" "Centurion"
                         "100+ days completed" "consistency" "legendary"]
    else if 30 <=? UserStats.days_count stats then
      achievements ++ [Achievement.mk "month_master" "Month Master"
                         "30+ days completed" "consistency" "epic"]
    else if 7 <=? UserStats.days_count stats then
      achievements ++ [Achievement.mk "week_warrior" "Week Warrior"
                         "7+ days completed" "consistency" "rare"]
    else achievements in
  achievements.

(** [rarityScores[rarity] || 10]. *)
Definition rarity_score (rarity : string) : Z :=
  if String.eqb rarity "common" then 10
  else if String.eqb rarity "rare" then 25
  else if String.eqb rarity "epic" then 50
  else if String.eqb rarity "legendary" then 100
  else 10.

(** [LeaderboardController.calculateAchievementScore]. *)
Definition calculateAchievementScore (achievements : list Achievement.t) : Z :=
  fold_left (λ total achievement,
               total + rarity_score (Achievement.rarity achievement))
            achievements 0.

(** An element of [usersWithAchievements]. *)
Module Achiever.
Record t : Type := mk {
  user : Entry.t;
  achievements : list Achievement.t;
  achievement_count : Z;
  achievement_score : Z
}.
End Achiever.

(** An element of [achievement_leaderboard]. *)
Module TopAchiever.
Record t : Type := mk {
  rank : Z;
  tg_id : Z;
  name : string;
  photo_url : option string;
  achievement_count : Z;
  achievement_score : Z;
  top_achievements : list Achievement.t;
  is_premium : bool
}.
End TopAchiever.

Module AchievementResponse.
Record t : Type := mk {
  achievement_leaderboard : list TopAchiever.t;
  total_participants : Z
}.
End AchievementResponse.

(** The statistics of an entry handed to [calculateUserAchievements]. *)
Definition stats_of (user : Entry.t) : UserStats.t := {|
  UserStats.total_points := Participant.total_points (Entry.user user);
  UserStats.total_pages := Participant.total_pages (Entry.user user);
  UserStats.total_distance := Participant.total_distance (Entry.user user);
  UserStats.days_count := Participant.days_count (Entry.user user)
|}.

(** [LeaderboardController.getAchievementLeaderboard]; [limit] is
    [req.query.limit]. *)
Definition getAchievementLeaderboard (st : Store) (limit : option JsValue)
  : Result AchievementResponse.t :=
  let limit := default (JNum 50) limit in
  allUsersData ← getLeaderboardData st
    (Options.mk (Some "all") (Some "overall")
                (Some (mul (parseInt limit) 2)) None);
  let usersWithAchievements :=
    map (λ user,
           let achievements := calculateUserAchievements (stats_of user) in
           {| Achiever.user := user;
              Achiever.achievements := achievements;
              Achiever.achievement_count := Z.of_nat (length achievements);
              Achiever.achievement_score := calculateAchievementScore achievements
           |})
        allUsersData in
  let usersWithAchievements :=
    Array_sort (λ a b, inject_Z (Achiever.achievement_score b
                                 - Achiever.achievement_score a))
               usersWithAchievements in
  let topAchievers :=
    imap (λ index user, {|
            TopAchiever.rank := Z.of_nat index + 1;
            TopAchiever.tg_id := Entry.tg_id (Achiever.user user);
            TopAchiever.name := Participant.name (Entry.user (Achiever.user user));
            TopAchiever.photo_url :=
              Participant.photo_url (Entry.user (Achiever.user user));
            TopAchiever.achievement_count := Achiever.achievement_count user;
            TopAchiever.achievement_score := Achiever.achievement_score user;
            TopAchiever.top_achievements :=
              Array_slice (Achiever.achievements user) 0 3;
            TopAchiever.is_premium :=
              Participant.is_premium (Entry.user (Achiever.user user))
          |})
         (Array_slice usersWithAchievements 0
                      (ToIntegerOrInfinity (parseInt limit))) in
  mret {|
    AchievementResponse.achievement_leaderboard := topAchievers;
    AchievementResponse.total_participants :=
      Z.of_nat (length usersWithAchievements)
  |}.

(* ===================================================================== *)
(** ** middleware/validation.js and controllers/tasksController.js       *)
(* ===================================================================== *)

(** [s] ends in [suffix]. *)
Fixpoint ends_with (suffix s : string) : bool :=
  String.eqb s suffix
  || match s with
     | String _ r => ends_with suffix r
     | EmptyString => false
     end.

(** The key pattern [/^[1-9]|10$/] of [dailyProgressSchema.tasks]: the
    alternation is between [^[1-9]] and [10$], so a key matches when it
    starts with a digit from 1 to 9 or ends in [10]. *)
Definition tasks_key_pattern (key : string) : bool :=
  match key with
  | String c _ =>
      let n := nat_of_ascii c in
      (Nat.leb 49 n && Nat.leb n 57) || ends_with "10" key
  | EmptyString => false
  end.

(** The rule for [tasks] in [dailyProgressSchema]: an object whose keys
    matching the pattern hold booleans. Only objects in which every key
    matches and every value is a boolean already are accepted here: the
    schema itself accepts those and more (convertible strings, keys that
    are stripped). *)
Definition dailyProgressSchema_tasks (tasks : JsValue) : bool :=
  match tasks with
  | JObj fields =>
      forallb (λ kv, tasks_key_pattern kv.1
                     && match kv.2 with JBool _ => true | _ => false end)
              fields
  | _ => false
  end.

(** [req.body] of [POST /api/tasks/submit]; a property that is absent is
    [JUndefined], [date] is [None] when it is absent or empty. *)
Module Body.
Record t : Type := mk {
  tg_id : JsValue;
  tasks : JsValue;
  task_inputs : JsValue;
  pages_read : JsValue;
  distance_km : JsValue;
  date : option Z
}.
End Body.

(** A default of a destructuring pattern: it replaces [undefined] only. *)
Definition default_to (d v : JsValue) : JsValue :=
  match v with JUndefined => d | _ => v end.

Definition is_object (v : JsValue) : bool :=
  match v with JObj _ => true | _ => false end.

Definition fields_of (v : JsValue) : list (string * JsValue) :=
  match v with JObj fields => fields | _ => [] end.

(** [TasksController.validateSubmissionData]; [booleanTasks] holds the
    property names of tasks 1-4 and 6-9. *)
Definition validateSubmissionData (tasks taskInputs pagesRead distanceKm : JsValue)
  : Result unit :=
  _ ← throw_if (negb (String.eqb (typeof tasks) "object")
                || match tasks with JNull => true | _ => false end)
        (BadRequest "Tasks must be an object");
  let booleanTasks := ["1"; "2"; "3"; "4"; "6"; "7"; "8"; "9"] in
  _ ← foldr (λ taskId rest,
               let v := get_field (fields_of tasks) taskId in
               _ ← throw_if (match v with JUndefined => false | _ => true end
                             && negb (String.eqb (typeof v) "boolean"))
                     (BadRequest ("Task " +:+ taskId +:+ " must be boolean"));
               rest)
            (Ok tt) booleanTasks;
  _ ← throw_if (negb (String.eqb (typeof taskInputs) "object")
                || match taskInputs with JNull => true | _ => false end)
        (BadRequest "Task inputs must be an object");
  _ ← match pagesRead with
      | JUndefined => Ok tt
      | _ =>
          let pages := parseInt pagesRead in
          throw_if (match pages with
                    | NaN => true
                    | Int n => (n <? 0) || (APP_CONSTANTS.MAX_PAGES_READ <? n)
                    end)
            (BadRequest "Pages read must be between 0 and 1000")
      end;
  match distanceKm with
  | JUndefined => Ok tt
  | _ =>
      let distance := parseFloat distanceKm in
      throw_if (match distance with
                | None => true
                | Some d =>
                    negb (Qle_bool 0 d)
                    || negb (Qle_bool d (inject_Z APP_CONSTANTS.MAX_DISTANCE))
                end)
        (BadRequest "Distance must be between 0 and 100 km")
  end.

(** The badge reported by [checkForAchievements]. *)
Module Unlocked.
Record t : Type := mk {
  id : string;
  name : string;
  description : string;
  type : string
}.
End Unlocked.

(** [TasksController.checkForAchievements]: [None] is [null]; an error
    thrown inside [try] is caught and answered with [null]. *)
Definition checkForAchievements (st : Store) (telegramId : Z)
    (progress : Progress.t) : option Unlocked.t :=
  match getUserAllTimeStats st telegramId with
  | Ok allTimeStats =>
      if AllTimeStats.total_days allTimeStats =? 1 then
        Some (Unlocked.mk "first_day" "First Step" "Complete your first day"
                APP_CONSTANTS.ACHIEVEMENTS_NEWCOMER)
      else if AllTimeStats.total_days allTimeStats =? 7 then
        Some (Unlocked.mk "week_warrior" "Week Warrior" "Complete 7 days"
                APP_CONSTANTS.ACHIEVEMENTS_CONSISTENT)
      else if bool_decide (Progress.completed_count progress
                           = Some APP_CONSTANTS.TOTAL_DAILY_TASKS) then
        Some (Unlocked.mk "perfect_day" "Perfect Day"
                "Complete all 10 tasks in a day"
                APP_CONSTANTS.ACHIEVEMENTS_PERFECTIONIST)
      else None
  | Err _ => None
  end.

(** [today_data] and the body of [responseService.taskSubmission]. *)
Module TodayData.
Record t : Type := mk {
  completed : Z;
  pages_read : Z;
  distance_km : Q
}.
End TodayData.

Module Submission.
Record t : Type := mk {
  total_points : Z;
  today_data : TodayData.t;
  achievement_unlocked : option Unlocked.t;
  submission_time : Z
}.
End Submission.

(** [TasksController.submitDailyProgress]: the answer and the store after
    the request; an error leaves the store as it was. *)
Definition submitDailyProgress (st : Store) (body : Body.t)
  : Result (Submission.t * Store) :=
  let tg_id := Body.tg_id body in
  let tasks := default_to (JObj []) (Body.tasks body) in
  let task_inputs := default_to (JObj []) (Body.task_inputs body) in
  let pages_read := default_to (JNum 0) (Body.pages_read body) in
  let distance_km := default_to (JNum 0) (Body.distance_km body) in
  let date := Body.date body in
  let telegramId := parseInt tg_id in
  _ ← throw_if (match telegramId with NaN => true | Int n => n <=? 0 end)
        (BadRequest "Invalid Telegram ID format");
  let telegramId := ToIntegerOrInfinity telegramId in
  user ← getUserByTelegramId st telegramId;
  match user with
  | None => Err (NotFound "User")
  | Some user =>
      _ ← throw_if (negb (String.eqb (User.status user)
                                     APP_CONSTANTS.USER_STATUS_APPROVED))
            (Forbidden "User not approved yet");
      _ ← validateSubmissionData tasks task_inputs pages_read distance_km;
      let targetDate := default (iso_date (clock st)) date in
      let completedCount :=
        Z.of_nat (length (filter (λ v, truthy v = true)
                                 (Object_values (fields_of tasks)))) in
      let progressData := {|
        ProgressData.tg_id := telegramId;
        ProgressData.date := Some targetDate;
        ProgressData.tasks := fields_of tasks;
        ProgressData.task_inputs := fields_of task_inputs;
        ProgressData.pages_read := int_or_zero (parseInt pages_read);
        ProgressData.distance_km := float_or_zero (parseFloat distance_km);
        ProgressData.completed_count := completedCount;
        ProgressData.submission_time := clock st
      |} in
      '(savedProgress, st') ← submitDailyProgress_service st progressData;
      let totalPoints := completedCount in
      let todayData := {|
        TodayData.completed := completedCount;
        TodayData.pages_read := ProgressData.pages_read progressData;
        TodayData.distance_km := ProgressData.distance_km progressData
      |} in
      let achievementUnlocked :=
        checkForAchievements st' telegramId savedProgress in
      mret ({|
              Submission.total_points := totalPoints;
              Submission.today_data := todayData;
              Submission.achievement_unlocked := achievementUnlocked;
              Submission.submission_time := Progress.submission_time savedProgress
            |}, st')
  end.


(* ===================================================================== *)
(** ** Reading a day back: services/supabaseService.js and
       controllers/tasksController.js                                    *)
(* ===================================================================== *)

(** [DailyProgressService.getDailyProgress]; [date] is [None] when it is
    not given. *)
Definition getDailyProgress (st : Store) (tgId : Z) (date : option Z)
  : Result (option Progress.t) :=
  let targetDate := default (iso_date (clock st)) date in
  result ← executeQuery st
    (single (filter (λ r, Progress.tg_id r = tgId
                          ∧ Progress.date r = targetDate)
                    (daily_progress st)))
    "SELECT_DAILY_PROGRESS";
  mret (Some result).

(** The [date] parameter of a query: absent, a date in the form
    [YYYY-MM-DD] (held as its day number), or a string that does not
    match [/^\d{4}-\d{2}-\d{2}$/]. A string that matches the pattern
    without being a calendar date is outside of this model. *)
Inductive DateParam : Type :=
| NoDate
| Date (day : Z)
| MalformedDate.

(** The body of [responseService.dailyTasks]. *)
Module DailyTasks.
Record t : Type := mk {
  date : Z;
  tasks : list (string * JsValue);
  task_inputs : list (string * JsValue);
  pages_read : Z;
  distance_km : Q;
  completed_count : Z;
  is_submitted_today : bool;
  submission_time : option Z
}.
End DailyTasks.

(** [TasksController.getDailyTasks]. *)
Definition getDailyTasks (st : Store) (tg_id : JsValue) (date : DateParam)
  : Result DailyTasks.t :=
  let telegramId := parseInt tg_id in
  _ ← throw_if (match telegramId with NaN => true | Int n => n <=? 0 end)
        (BadRequest "Invalid Telegram ID format");
  let telegramId := ToIntegerOrInfinity telegramId in
  user ← getUserByTelegramId st telegramId;
  match user with
  | None => Err (NotFound "User")
  | Some user =>
      _ ← throw_if (negb (String.eqb (User.status user)
                                     APP_CONSTANTS.USER_STATUS_APPROVED))
            (Forbidden "User not approved yet");
      targetDate ← match date with
                   | NoDate => Ok (iso_date (clock st))
                   | Date day => Ok day
                   | MalformedDate =>
                       Err (BadRequest "Invalid date format. Use YYYY-MM-DD")
                   end;
      progress ← getDailyProgress st telegramId (Some targetDate);
      let tasks := default [] (Progress.tasks <$> progress) in
      let taskInputs := default [] (Progress.task_inputs <$> progress) in
      let pagesRead := or_zero (progress ≫= Progress.pages_read) in
      let distanceKm := or_zeroQ (progress ≫= Progress.distance_km) in
      let completedCount := or_zero (progress ≫= Progress.completed_count) in
      let isSubmittedToday := bool_decide (is_Some progress) in
      let submissionTime := Progress.submission_time <$> progress in
      mret {|
        DailyTasks.date := targetDate;
        DailyTasks.tasks := tasks;
        DailyTasks.task_inputs := taskInputs;
        DailyTasks.pages_read := pagesRead;
        DailyTasks.distance_km := distanceKm;
        DailyTasks.completed_count := completedCount;
        DailyTasks.is_submitted_today := isSubmittedToday;
        DailyTasks.submission_time := submissionTime
      |}
  end.

(* ===================================================================== *)
(** ** controllers/userController.js                                     *)
(* ===================================================================== *)

(** [APP_CONSTANTS.ACHIEVEMENTS.READER] and [.ATHLETE] of
    config/config.js. *)
Module ACHIEVEMENTS.
Definition READER : string := "reader".
Definition ATHLETE : string := "athlete".
End ACHIEVEMENTS.

(** A badge of [UserController.calculateAchievements]; [unlocked_at] is
    [new Date()] at the time of the call. *)
Module UserAchievement.
Record t : Type := mk {
  id : string;
  name : string;
  description : string;
  type : string;
  unlocked_at : Z
}.
End UserAchievement.

(** [UserController.calculateAchievements]; [now] is the clock. *)
Definition calculateAchievements (now : Z) (stats : AllTimeStats.t)
  : list UserAchievement.t :=
  let achievements := [] in
  let achievements :=
    if 7 <=? AllTimeStats.total_days stats then
      achievements ++ [UserAchievement.mk "week_warrior" "Week Warrior"
                         "Complete 7 days"
                         APP_CONSTANTS.ACHIEVEMENTS_CONSISTENT now]
    else achievements in
  let achievements :=
    if 30 <=? AllTimeStats.total_days stats then
      achievements ++ [UserAchievement.mk "month_master" "Month Master"
                         "Complete 30 days"
                         APP_CONSTANTS.ACHIEVEMENTS_CONSISTENT now]
    else achievements in
  let achievements :=
    if 100 <=? AllTimeStats.total_pages stats then
      achievements ++ [UserAchievement.mk "bookworm" "Bookworm"
                         "Read 100+ pages" ACHIEVEMENTS.READER now]
    else achievements in
  let achievements :=
    if 1000 <=? AllTimeStats.total_pages stats then
      achievements ++ [UserAchievement.mk "library_master" "Library Master"
                         "Read 1000+ pages" ACHIEVEMENTS.READER now]
    else achievements in
  let achievements :=
    if Qle_bool 50 (AllTimeStats.total_distance stats) then
      achievements ++ [UserAchievement.mk "runner" "Runner"
                         "Cover 50+ km total" ACHIEVEMENTS.ATHLETE now]
    else achievements in
  let achievements :=
    if Qle_bool 200 (AllTimeStats.total_distance stats) then
      achievements ++ [UserAchievement.mk "marathon_hero" "Marathon Hero"
                         "Cover 200+ km total" ACHIEVEMENTS.ATHLETE now]
    else achievements in
  let achievements :=
    if 100 <=? AllTimeStats.total_points stats then
      achievements ++ [UserAchievement.mk "point_collector" "Point Collector"
                         "Earn 100+ total points"
                         APP_CONSTANTS.ACHIEVEMENTS_PERFECTIONIST now]
    else achievements in
  achievements.

(** The body of the answer of [getUserAchievements]. *)
Module UserAchievements.
Record t : Type := mk {
  achievements : list UserAchievement.t;
  total_achievements : Z;
  user_stats : AllTimeStats.t
}.
End UserAchievements.

(** [UserController.getUserAchievements]; [tg_id] is [req.params.tg_id]. *)
Definition getUserAchievements (st : Store) (tg_id : JsValue)
  : Result UserAchievements.t :=
  let telegramId := parseInt tg_id in
  _ ← throw_if (match telegramId with NaN => true | Int n => n <=? 0 end)
        (BadRequest "Invalid Telegram ID format");
  let telegramId := ToIntegerOrInfinity telegramId in
  user ← getUserByTelegramId st telegramId;
  match user with
  | None => Err (NotFound "User")
  | Some user =>
      _ ← throw_if (negb (String.eqb (User.status user)
                                     APP_CONSTANTS.USER_STATUS_APPROVED))
            (Forbidden "User not approved yet");
      allTimeStats ← getUserAllTimeStats st telegramId;
      let achievements := calculateAchievements (clock st) allTimeStats in
      mret {|
        UserAchievements.achievements := achievements;
        UserAchievements.total_achievements := Z.of_nat (length achievements);
        UserAchievements.user_stats := allTimeStats
      |}
  end.

(* ===================================================================== *)
(** ** The top performers: controllers of the leaderboard                *)
(* ===================================================================== *)

(** An element of the lists of [top_performers]. *)
Module Performer.
Record t : Type := mk {
  tg_id : Z;
  name : string;
  score : Q;
  photo_url : option string;
  rank : Z
}.
End Performer.

Module TopPerformers.
Record t : Type := mk {
  overall : list Performer.t;
  reading : list Performer.t;
  distance : list Performer.t
}.
End TopPerformers.

(** [LeaderboardController.getTopPerformers]; [period] and [limit] are
    read from [req.query] and not validated. The three queries of
    [Promise.all] fail on the same operations, so that the first error
    is the error of the first list. *)
Definition getTopPerformers (st : Store) (period : option string)
    (limit : option JsValue) : Result TopPerformers.t :=
  let period := default "all" period in
  let limit := default (JNum 10) limit in
  overallTop ← getLeaderboardData st
    (Options.mk (Some period) (Some "overall") (Some (parseInt limit)) None);
  readingTop ← getLeaderboardData st
    (Options.mk (Some period) (Some "reading") (Some (parseInt limit)) None);
  distanceTop ← getLeaderboardData st
    (Options.mk (Some period) (Some "distance") (Some (parseInt limit)) None);
  mret {|
    TopPerformers.overall :=
      map (λ user, {|
             Performer.tg_id := Entry.tg_id user;
             Performer.name := Participant.name (Entry.user user);
             Performer.score :=
               inject_Z (Participant.total_points (Entry.user user));
             Performer.photo_url := Participant.photo_url (Entry.user user);
             Performer.rank := Entry.rank user
           |}) overallTop;
    TopPerformers.reading :=
      map (λ user, {|
             Performer.tg_id := Entry.tg_id user;
             Performer.name := Participant.name (Entry.user user);
             Performer.score :=
               inject_Z (Participant.total_pages (Entry.user user));
             Performer.photo_url := Participant.photo_url (Entry.user user);
             Performer.rank := Entry.rank user
           |}) readingTop;
    TopPerformers.distance :=
      map (λ user, {|
             Performer.tg_id := Entry.tg_id user;
             Performer.name := Participant.name (Entry.user user);
             Performer.score := Participant.total_distance (Entry.user user);
             Performer.photo_url := Participant.photo_url (Entry.user user);
             Performer.rank := Entry.rank user
           |}) distanceTop
  |}.

(* ===================================================================== *)
(** ** middleware/validation.js: the rate limit                          *)
(* ===================================================================== *)

(** The value kept for a client in the [Map] of [validateRateLimit]. *)
Module ClientData.
Record t : Type := mk {
  count : Z;
  firstRequest : Z
}.
End ClientData.

(** A [Map] with string keys, in insertion order. *)
Abbreviation RequestMap := (list (string * ClientData.t)).

(** [requests.get(k)]; [None] is [undefined]. *)
Fixpoint Map_get (requests : RequestMap) (k : string) : option ClientData.t :=
  match requests with
  | [] => None
  | (k', v) :: rest => if String.eqb k' k then Some v else Map_get rest k
  end.

(** [requests.set(k, v)]; a write to the object held under [k] is a
    [set] of the changed object. *)
Fixpoint Map_set (requests : RequestMap) (k : string) (v : ClientData.t)
  : RequestMap :=
  match requests with
  | [] => [(k, v)]
  | (k', v') :: rest =>
      if String.eqb k' k then (k', v) :: rest
      else (k', v') :: Map_set rest k v
  end.

(** What the middleware does with a request: the three headers
    [X-RateLimit-Limit], [-Remaining], [-Reset] (the reset time in
    milliseconds), then [next()] or [throw createError.rateLimit()]. *)
Inductive RateLimitResult : Type :=
| RateNext (limit remaining reset : Z)
| RateLimitError (limit remaining reset : Z).

(** [req.ip || 'unknown']. *)
Definition clientId_of (ip : option string) : string :=
  match ip with
  | None | Some EmptyString => "unknown"
  | Some ip => ip
  end.

(** The middleware returned by [validateRateLimit(maxRequests,
    windowMs)], on the map [requests] of its closure, for a request of
    address [ip] at the time [now]; it returns the map it leaves. *)
Definition validateRateLimit (maxRequests windowMs : Z)
    (requests : RequestMap) (ip : option string) (now : Z)
  : RateLimitResult * RequestMap :=
  let clientId := clientId_of ip in
  let requests :=
    filter (λ entry, ¬ (now - ClientData.firstRequest entry.2 > windowMs))
           requests in
  let '(clientData, requests) :=
    match Map_get requests clientId with
    | Some clientData => (clientData, requests)
    | None =>
        let clientData := ClientData.mk 0 now in
        (clientData, Map_set requests clientId clientData)
    end in
  let '(clientData, requests) :=
    if bool_decide (now - ClientData.firstRequest clientData > windowMs) then
      let clientData := ClientData.mk 0 now in
      (clientData, Map_set requests clientId clientData)
    else (clientData, requests) in
  if bool_decide (ClientData.count clientData >= maxRequests) then
    (RateLimitError maxRequests 0
       (ClientData.firstRequest clientData + windowMs),
     requests)
  else
    let clientData :=
      ClientData.mk (ClientData.count clientData + 1)
                    (ClientData.firstRequest clientData) in
    (RateNext maxRequests (maxRequests - ClientData.count clientData)
       (ClientData.firstRequest clientData + windowMs),
     Map_set requests clientId clientData).
(* ===================================================================== *)
(** ** The quantities the specification speaks of                        *)
(* ===================================================================== *)

(** [Σ] over a list of integers, and over a list of doubles: the sum in
    double arithmetic, taken from the left and from [0], every partial
    sum rounded. *)
Fixpoint Zsum (l : list Z) : Z :=
  match l with
  | [] => 0
  | x :: r => x + Zsum r
  end.


(** The submission records of one user among [rows]. *)
Definition records_of (tgId : Z) (rows : list Progress.t) : list Progress.t :=
  filter (λ day, Progress.tg_id day = tgId) rows.



(** One step of the aggregation: the totals after one more record. *)
Definition add_progress (s : UserStats.t) (progress : Progress.t) : UserStats.t := {|
  UserStats.total_points :=
    UserStats.total_points s + or_zero (Progress.completed_count progress);
  UserStats.total_pages :=
    UserStats.total_pages s + or_zero (Progress.pages_read progress);
  UserStats.total_distance :=
    fadd (UserStats.total_distance s) (or_zeroQ (Progress.distance_km progress));
  UserStats.days_count := UserStats.days_count s + 1
|}.

(** The users the leaderboard query selects: approved, with a record. *)
Definition approved_users (st : Store) (progressData : list Progress.t)
  : list User.t :=
  filter (λ u, User.tg_id u ∈ unique_ids progressData
               ∧ User.status u = APP_CONSTANTS.USER_STATUS_APPROVED)
         (users st).

(** The full sorted set of a leaderboard, before any slicing. *)
Definition full_leaderboard (st : Store) (period type : string)
  : list Participant.t :=
  let progressData := select_progress st period in
  sorted_leaderboard (approved_users st progressData) progressData
                     (sortKey_of type).

(** A page of the sorted set with rank and score added. *)
Definition with_rank (sortKey : string) (page : list Participant.t)
  : list Entry.t :=
  imap (λ index user,
          Entry.mk user (Z.of_nat index + 1) (Participant.get user sortKey) [])
       page.

(** The join of an entry of [userStats] with its user, [null] when the
    user was not selected. *)
Definition join_user (users : list User.t) (kv : Z * UserStats.t)
  : option Participant.t :=
  let '(userId, stats) := kv in
  user ← Array_find (λ u, User.tg_id u =? userId) users;
  Some {|
    Participant.tg_id := userId;
    Participant.name := User.name user;
    Participant.photo_url := User.photo_url user;
    Participant.is_premium := User.is_premium user;
    Participant.total_points := UserStats.total_points stats;
    Participant.total_pages := UserStats.total_pages stats;
    Participant.total_distance := UserStats.total_distance stats;
    Participant.days_count := UserStats.days_count stats
  |}.

(** The statistics carried by a participant. *)
Definition participant_stats (p : Participant.t) : UserStats.t := {|
  UserStats.total_points := Participant.total_points p;
  UserStats.total_pages := Participant.total_pages p;
  UserStats.total_distance := Participant.total_distance p;
  UserStats.days_count := Participant.days_count p
|}.

(** Descending order of a key. *)
Definition descending {A} (key : A → Q) (l : list A) : Prop :=
  StronglySorted (λ a b, (key b <= key a)%Q) l.

(** *** Example stores *)

Definition approved (tg_id : Z) (name : string) : User.t :=
  User.mk tg_id name None false "approved".

Definition record (tg_id date completed pages : Z) : Progress.t :=
  Progress.mk tg_id date [] [] (Some pages) (Some 0%Q) (Some completed) 0.

(** Two approved users: user 1 with one day of 10 tasks, user 2 with two
    days of 2 tasks; every query is answered. *)
Definition two_users_store : Store := {|
  users := [approved 1 "Ali"; approved 2 "Vali"];
  daily_progress := [record 1 19723 10 0; record 2 19723 2 0; record 2 19724 2 0];
  clock := 19724 * MS_PER_DAY;
  failing := λ _, false
|}.


(** The fields of an entry that order, rank and score are about. *)
Definition entry_view (e : Entry.t) : Z * Z * Q * Z * Z :=
  (Entry.tg_id e, Entry.rank e, Entry.score e,
   Participant.total_points (Entry.user e),
   Participant.days_count (Entry.user e)).

Definition formatted_view (e : Formatted.t) : Z * Z * Q :=
  (Formatted.tg_id e, Formatted.rank e, Formatted.score e).

(** A store with a third approved user who has not submitted yet. *)
Definition three_users_store : Store := {|
  users := [approved 1 "Ali"; approved 2 "Vali"; approved 3 "Sami"];
  daily_progress := daily_progress two_users_store;
  clock := 19724 * MS_PER_DAY;
  failing := λ _, false
|}.

(** A submission of user 1 whose task map has eleven entries, all true. *)
Definition eleven_tasks : JsValue :=
  JObj [("1", JBool true); ("2", JBool true); ("3", JBool true);
        ("4", JBool true); ("5", JBool true); ("6", JBool true);
        ("7", JBool true); ("8", JBool true); ("9", JBool true);
        ("10", JBool true); ("11", JBool true)].

Definition eleven_tasks_body : Body.t := {|
  Body.tg_id := JNum 1;
  Body.tasks := eleven_tasks;
  Body.task_inputs := JObj [];
  Body.pages_read := JNum 0;
  Body.distance_km := JNum 0;
  Body.date := None
|}.

(** A first submission of user 3: two tasks done. *)
Definition first_day_body : Body.t := {|
  Body.tg_id := JNum 3;
  Body.tasks := JObj [("1", JBool true); ("2", JBool true); ("3", JBool false)];
  Body.task_inputs := JObj [];
  Body.pages_read := JNum 12;
  Body.distance_km := JUndefined;
  Body.date := None
|}.

(** The number of entries of a task map that count as completed. *)
Definition true_entries (tasks : JsValue) : Z :=
  Z.of_nat (length (filter (λ v, truthy v = true)
                           (Object_values (fields_of tasks)))).

(** The store in which the statistics query of the unlock check fails. *)
Definition break_stats_query (st : Store) : Store :=
  mkStore (users st) (daily_progress st) (clock st)
          (λ operation,
             String.eqb operation "SELECT_USER_ALL_STATS" || failing st operation).

(** The rules of the post-submission unlock check in their priority
    order, as the specification lists them: the condition, and the id
    and type of the badge. *)
Definition unlock_rules (total_days : Z) (completed_count : option Z)
  : list (bool * (string * string)) :=
  [ (total_days =? 1, ("first_day", "newcomer"));
    (total_days =? 7, ("week_warrior", "consistent"));
    (bool_decide (completed_count = Some 10), ("perfect_day", "perfectionist")) ].

(** The badge of the first rule whose condition holds, if any. *)
Definition first_match {B} (rules : list (bool * B)) : option B :=
  snd <$> Array_find fst rules.

Definition badge_of (a : Unlocked.t) : string * string :=
  (Unlocked.id a, Unlocked.type a).

(** An answer to a submission with no achievement reported. *)
Definition without_achievement (r : Submission.t) : Submission.t :=
  Submission.mk (Submission.total_points r) (Submission.today_data r) None
                (Submission.submission_time r).

(** *** Tiered achievements as the specification words them *)

(** The four categories. *)
Definition categories : list string :=
  ["points"; "reading"; "fitness"; "consistency"].

(** The statistic a category is awarded on. *)
Definition metric (category : string) (stats : UserStats.t) : Q :=
  if String.eqb category "points" then inject_Z (UserStats.total_points stats)
  else if String.eqb category "reading" then inject_Z (UserStats.total_pages stats)
  else if String.eqb category "fitness" then UserStats.total_distance stats
  else inject_Z (UserStats.days_count stats).

(** The tiers of a category from the highest threshold to the lowest:
    threshold, badge id, rarity. *)
Definition tiers (category : string) : list (Z * string * string) :=
  if String.eqb category "points" then
    [(500, "point_master", "epic"); (100, "point_collector", "rare")]
  else if String.eqb category "reading" then
    [(1000, "library_master", "legendary"); (500, "book_lover", "epic");
     (100, "bookworm", "rare")]
  else if String.eqb category "fitness" then
    [(500, "ultra_runner", "legendary"); (200, "marathon_hero", "epic");
     (50, "runner", "rare")]
  else
    [(100, "centurion", "legendary"); (30, "month_master", "epic");
     (7, "week_warrior", "rare")].

(** The single highest tier of a category whose threshold is met: its
    badge id and rarity. *)
Definition highest_tier_met (category : string) (stats : UserStats.t)
  : option (string * string) :=
  (λ tier, (tier.1.2, tier.2))
  <$> Array_find (λ tier, Qle_bool (inject_Z tier.1.1) (metric category stats))
                 (tiers category).

(** The badges of a category in a list of achievements: id and rarity. *)
Definition badges_in (category : string) (achievements : list Achievement.t)
  : list (string * string) :=
  (λ a, (Achievement.id a, Achievement.rarity a))
  <$> filter (λ a, Achievement.category a = category) achievements.

Definition stats_with_points (points : Z) : UserStats.t :=
  UserStats.mk points 0 0%Q 0.

(** The badge a category contributes in [calculateUserAchievements]. *)
Definition points_badges (stats : UserStats.t) : list Achievement.t :=
  if 500 <=? UserStats.total_points stats then
    [Achievement.mk "point_master" "Point Master"
       "500+ total points" "points" "epic"]
  else if 100 <=? UserStats.total_points stats then
    [Achievement.mk "point_collector" "Point Collector"
       "100+ total points" "points" "rare"]
  else [].

Definition reading_badges (stats : UserStats.t) : list Achievement.t :=
  if 1000 <=? UserStats.total_pages stats then
    [Achievement.mk "library_master" "Library Master"
       "1000+ pages read" "reading" "legendary"]
  else if 500 <=? UserStats.total_pages stats then
    [Achievement.mk "book_lover" "Book Lover"
       "500+ pages read" "reading" "epic"]
  else if 100 <=? UserStats.total_pages stats then
    [Achievement.mk "bookworm" "Bookworm"
       "100+ pages read" "reading" "rare"]
  else [].

Definition fitness_badges (stats : UserStats.t) : list Achievement.t :=
  if Qle_bool 500 (UserStats.total_distance stats) then
    [Achievement.mk "ultra_runner" "Ultra Runner"
       "500+ km covered" "fitness" "legendary"]
  else if Qle_bool 200 (UserStats.total_distance stats) then
    [Achievement.mk "marathon_hero" "Marathon Hero"
       "200+ km covered" "fitness" "epic"]
  else if Qle_bool 50 (UserStats.total_distance stats) then
    [Achievement.mk "runner" "Runner"
       "50+ km covered" "fitness" "rare"]
  else [].

Definition consistency_badges (stats : UserStats.t) : list Achievement.t :=
  if 100 <=? UserStats.days_count stats then
    [Achievement.mk "centurion" "Centurion"
       "100+ days completed" "consistency" "legendary"]
  else if 30 <=? UserStats.days_count stats then
    [Achievement.mk "month_master" "Month Master"
       "30+ days completed" "consistency" "epic"]
  else if 7 <=? UserStats.days_count stats then
    [Achievement.mk "week_warrior" "Week Warrior"
       "7+ days completed" "consistency" "rare"]
  else [].

(** *** Statistics of a leaderboard *)

(** The statistics of an empty leaderboard. *)
Definition empty_stats : LeaderboardStats.t := {|
  LeaderboardStats.total_participants := 0;
  LeaderboardStats.average_points := 0;
  LeaderboardStats.median_points := Some 0%Q;
  LeaderboardStats.top_10_percent_threshold := Some 0%Q;
  LeaderboardStats.most_active_score := Some 0%Q;
  LeaderboardStats.completion_distribution := []
|}.

(** A store without any submission record. *)
Definition no_records_store : Store := {|
  users := [approved 1 "Ali"];
  daily_progress := [];
  clock := 19724 * MS_PER_DAY;
  failing := λ _, false
|}.

(** The upper bounds of the first four ranges, in ascending order, and
    the names of the five ranges. *)
Definition range_bounds : list Q := [10; 50; 100; 200]%Q.


(** The range a score falls in: the first one, in ascending order, whose
    upper bound is not below the score; the last one when there is
    none. *)
Definition range_index (score : Q) : nat :=
  default 4%nat (Array_findIndex (λ bound, Qle_bool score bound) range_bounds).





(** [m] is the greatest element of [l]. *)
Definition is_max (m : Q) (l : list Q) : Prop :=
  m ∈ l ∧ Forall (λ x, (x <= m)%Q) l.

(** A leaderboard with the given scores, in this order. *)
Definition leaderboard_of_scores (scores : list Z) : list Entry.t :=
  imap (λ i s,
          Entry.mk (Participant.mk (Z.of_nat i + 1) EmptyString None false s 0 0%Q 1)
                   (Z.of_nat i + 1) (inject_Z s) [])
       scores.

(** *** The achievement leaderboard *)

(** The candidates of the achievement leaderboard for a limit [L]: the
    first [2 L] entries of the all-time leaderboard by total points. *)
Definition candidate_pool (st : Store) (L : Z) : list Participant.t :=
  take (Z.to_nat (2 * L)) (full_leaderboard st "all" "overall").

(** Four approved users with one day each, of 10, 8, 5 and 1 tasks. *)
Definition four_users_store : Store := {|
  users := [approved 1 "Ali"; approved 2 "Vali"; approved 3 "Sami";
            approved 4 "Olim"];
  daily_progress :=
    [record 1 19723 10 0; record 2 19723 8 0; record 3 19723 5 0;
     record 4 19723 1 0];
  clock := 19724 * MS_PER_DAY;
  failing := λ _, false
|}.

(** Three approved users: users 1 and 2 lead by points, user 3 has one
    point and 1000 pages read. *)
Definition reader_store : Store := {|
  users := [approved 1 "Ali"; approved 2 "Vali"; approved 3 "Sami"];
  daily_progress :=
    [record 1 19723 10 0; record 2 19723 8 0; record 3 19723 1 1000];
  clock := 19724 * MS_PER_DAY;
  failing := λ _, false
|}.

(* ===================================================================== *)
(** ** Further quantities                                                *)
(* ===================================================================== *)

(** The parameters that [getLeaderboard] accepts, with the defaults of
    the parameters that are not sent. *)
Definition valid_leaderboard_query (query : Query.t) : Prop :=
  default "all" (Query.period query) ∈ APP_CONSTANTS.TIME_PERIODS
  ∧ default "overall" (Query.type query) ∈ APP_CONSTANTS.LEADERBOARD_TYPES
  ∧ (∃ limit, parseInt (default (JNum 100) (Query.limit query)) = Int limit
              ∧ 1 ≤ limit ≤ 1000)
  ∧ (∃ offset, parseInt (default (JNum 0) (Query.offset query)) = Int offset
               ∧ 0 ≤ offset).

(** The number of users of a period's leaderboard. *)
Definition participants (st : Store) (period : string) : nat :=
  length (full_leaderboard st period "overall").

(** The store of the two users while the database fails every query. *)
Definition offline_store : Store := {|
  users := users two_users_store;
  daily_progress := daily_progress two_users_store;
  clock := clock two_users_store;
  failing := λ _, true
|}.

(** The key of a submission record. *)
Definition row_key (r : Progress.t) : Z * Z :=
  (Progress.tg_id r, Progress.date r).

(** The record store holds one record per user and day. *)
Definition unique_keys (st : Store) : Prop :=
  NoDup (row_key <$> daily_progress st).

(** The record that a submission of [body] by [telegramId] saves. *)
Definition saved_record (st : Store) (body : Body.t) (telegramId : Z)
  : Progress.t :=
  let tasks := default_to (JObj []) (Body.tasks body) in {|
    Progress.tg_id := telegramId;
    Progress.date := default (iso_date (clock st)) (Body.date body);
    Progress.tasks := fields_of tasks;
    Progress.task_inputs :=
      fields_of (default_to (JObj []) (Body.task_inputs body));
    Progress.pages_read :=
      Some (int_or_zero (parseInt (default_to (JNum 0) (Body.pages_read body))));
    Progress.distance_km :=
      Some (float_or_zero
              (parseFloat (default_to (JNum 0) (Body.distance_km body))));
    Progress.completed_count := Some (true_entries tasks);
    Progress.submission_time := clock st
  |}.

(** A record as submissions save it: pages between 0 and 1000, distance
    between 0 and 100, the count of completed tasks equal to the number
    of truthy entries of the stored task map, a positive user id. *)
Definition well_formed_record (r : Progress.t) : Prop :=
  (∃ pages, Progress.pages_read r = Some pages ∧ 0 ≤ pages ≤ 1000)
  ∧ (∃ distance, Progress.distance_km r = Some distance
                 ∧ (0 <= distance)%Q ∧ (distance <= 100)%Q)
  ∧ Progress.completed_count r = Some (true_entries (JObj (Progress.tasks r)))
  ∧ 0 < Progress.tg_id r.

(** The answer to the submission of [body] by [telegramId], apart from
    the achievement. *)
Definition submission_answer (st : Store) (body : Body.t)
    (achievement : option Unlocked.t) : Submission.t :=
  let tasks := default_to (JObj []) (Body.tasks body) in {|
    Submission.total_points := true_entries tasks;
    Submission.today_data := {|
      TodayData.completed := true_entries tasks;
      TodayData.pages_read :=
        int_or_zero (parseInt (default_to (JNum 0) (Body.pages_read body)));
      TodayData.distance_km :=
        float_or_zero (parseFloat (default_to (JNum 0) (Body.distance_km body)))
    |};
    Submission.achievement_unlocked := achievement;
    Submission.submission_time := clock st
  |}.

(** A submission of user 1 for the day 19723 that is in the store
    already: one task done. *)
Definition resubmission_body : Body.t := {|
  Body.tg_id := JStr "1";
  Body.tasks := JObj [("1", JBool true); ("2", JBool false)];
  Body.task_inputs := JUndefined;
  Body.pages_read := JNum 30;
  Body.distance_km := JStr "2.5";
  Body.date := Some 19723
|}.

(** A store whose records are as submissions save them. *)
Definition diary_store : Store := {|
  users := [approved 1 "Ali"; approved 2 "Vali"];
  daily_progress :=
    [Progress.mk 1 19723 [("1", JBool true)] [] (Some 10) (Some 0%Q) (Some 1) 0;
     Progress.mk 2 19723 [("1", JBool true); ("2", JBool true)] []
                 (Some 0) (Some 3%Q) (Some 2) 0];
  clock := 19724 * MS_PER_DAY;
  failing := λ _, false
|}.



(** The day a submission is saved under. *)
Definition submission_day (st : Store) (body : Body.t) : Z :=
  default (iso_date (clock st)) (Body.date body).

(** [stats'] is at least [stats] in each of the four totals. *)
Definition no_less_active (stats stats' : UserStats.t) : Prop :=
  UserStats.total_points stats ≤ UserStats.total_points stats'
  ∧ UserStats.total_pages stats ≤ UserStats.total_pages stats'
  ∧ (UserStats.total_distance stats <= UserStats.total_distance stats')%Q
  ∧ UserStats.days_count stats ≤ UserStats.days_count stats'.

(** The number of badges and the achievement score of a user. *)
Definition badge_count (stats : UserStats.t) : Z :=
  Z.of_nat (length (calculateUserAchievements stats)).

Definition badge_score (stats : UserStats.t) : Z :=
  calculateAchievementScore (calculateUserAchievements stats).

(** *** The badges of a profile *)

(** The names of the badges of [calculateAchievements], in the order of
    the list. *)
Definition profile_badges (now : Z) (stats : AllTimeStats.t) : list string :=
  UserAchievement.id <$> calculateAchievements now stats.

(** The totals of a user as the tiered calculator takes them. *)
Definition as_user_stats (stats : AllTimeStats.t) : UserStats.t := {|
  UserStats.total_points := AllTimeStats.total_points stats;
  UserStats.total_pages := AllTimeStats.total_pages stats;
  UserStats.total_distance := AllTimeStats.total_distance stats;
  UserStats.days_count := AllTimeStats.total_days stats
|}.

(** [stats'] is at least [stats] in each of the four totals. *)
Definition totals_no_less (stats stats' : AllTimeStats.t) : Prop :=
  AllTimeStats.total_points stats ≤ AllTimeStats.total_points stats'
  ∧ AllTimeStats.total_pages stats ≤ AllTimeStats.total_pages stats'
  ∧ (AllTimeStats.total_distance stats <= AllTimeStats.total_distance stats')%Q
  ∧ AllTimeStats.total_days stats ≤ AllTimeStats.total_days stats'.

(** One step of the list: the badge when its threshold is met. *)
Definition badge_if (met : bool) (id : string) : list string :=
  if met then [id] else [].

(** A list of performers in non-increasing order of score, with the
    ranks 1, 2, 3, ... *)
Definition well_ranked (l : list Performer.t) : Prop :=
  descending Performer.score l
  ∧ ∀ i e, l !! i = Some e → Performer.rank e = Z.of_nat i + 1.

(** *** The rate limit *)

(** The middleware on the requests of one address at the given times,
    one after the other. *)
Fixpoint rate_limit_requests (maxRequests windowMs : Z)
    (requests : RequestMap) (ip : option string) (times : list Z)
  : list RateLimitResult * RequestMap :=
  match times with
  | [] => ([], requests)
  | now :: times =>
      let '(result, requests) :=
        validateRateLimit maxRequests windowMs requests ip now in
      let '(results, requests) :=
        rate_limit_requests maxRequests windowMs requests ip times in
      (result :: results, requests)
  end.

(** The window a request at [now] falls in: the one recorded for the
    client when it has not expired, a new one otherwise. *)
Definition window_at (windowMs : Z) (requests : RequestMap)
    (clientId : string) (now : Z) : ClientData.t :=
  match Map_get requests clientId with
  | Some data =>
      if bool_decide (now - ClientData.firstRequest data > windowMs)
      then ClientData.mk 0 now else data
  | None => ClientData.mk 0 now
  end.

(** The answer to the request number [served] (from 0) of a window
    that started at [start]. *)
Definition answer_in_window (maxRequests windowMs start served : Z)
  : RateLimitResult :=
  if bool_decide (served < maxRequests)
  then RateNext maxRequests (maxRequests - served - 1) (start + windowMs)
  else RateLimitError maxRequests 0 (start + windowMs).

(** The map holds one entry per client, each with a count between 0 and
    [maxRequests]. *)
Definition counts_bounded (maxRequests : Z) (requests : RequestMap) : Prop :=
  NoDup requests.*1
  ∧ Forall (λ entry, 0 ≤ ClientData.count entry.2 ≤ maxRequests) requests.

(* ===================================================================== *)
(** * Properties                                                         *)
(* ===================================================================== *)

(** ** [parseInt] and [parseFloat] on strings *)

Example parseInt_examples :
  parseInt_string "  42abc" = Int 42
  ∧ parseInt_string "-0x1F" = Int (-31)
  ∧ parseInt_string "abc" = NaN
  ∧ parseInt (JNum (-7 # 2)) = Int (-3)
  ∧ parseInt (JStr "1") = Int 1.
Proof. repeat split. Qed.

Example parseFloat_examples :
  (float_or_zero (parseFloat_string "12.50e1") == 125)%Q
  ∧ (float_or_zero (parseFloat_string "-.5") == - (1 # 2))%Q
  ∧ parseFloat_string "x" = None.
Proof. repeat split. Qed.

(** ** IEEE doubles *)

(** The indices [Math.floor(n / 2)] and [Math.floor(n * 0.1)] in
    doubles and in exact arithmetic, for [n] from 1 to 2000. *)
Example index_in_doubles :
  Forall (λ n, Math_floor (fdiv (inject_Z n) 2) = Math_floor (inject_Z n / 2)
               ∧ Math_floor (fmul (inject_Z n) (1 # 10))
                 = Math_floor (inject_Z n * (1 # 10)))
         (seqZ 1 2000).
Proof. apply (bool_decide_unpack _). vm_compute. exact I. Qed.

(** The operations on known cases: [0.1], [0.1 + 0.2 =
    0.30000000000000004], [0.1 + 0.2 + 0.3 = 0.6000000000000001],
    [(1 - 17 / 40) * 100 = 57.49999999999999], [41 / 40 * 100 =
    102.49999999999999], the smallest subnormal number halved (a tie,
    rounded to the even 0) and [parseFloat("4.02")]. *)
Example double_examples :
  to_double (1 # 10) = (3602879701896397 # 36028797018963968)%Q
  ∧ fadd (1 # 10) (2 # 10) = (1351079888211149 # 4503599627370496)%Q
  ∧ fadd (fadd (1 # 10) (2 # 10)) (3 # 10)
    = (1351079888211149 # 2251799813685248)%Q
  ∧ fmul (fsub 1 (fdiv 17 40)) 100 = (8092405580431359 # 140737488355328)%Q
  ∧ Math_round (fmul (fsub 1 (fdiv 17 40)) 100) = 57
  ∧ fmul (fdiv 41 40) 100 = (7212796278210559 # 70368744177664)%Q
  ∧ fdiv (pow2 (-1074)) 2 = 0%Q
  ∧ fmul (pow2 (-1074)) (3 # 2) = to_double (pow2 (-1073))
  ∧ parseFloat_string "4.02" = Some (1131529406376837 # 281474976710656)%Q.
Proof. vm_compute. repeat split. Qed.

(** *** Rounding is monotone *)

Section Doubles.
Local Open Scope Q_scope.

Lemma pow2_pos k : 0 < pow2 k.
Proof. apply Qpower_0_lt. reflexivity. Qed.

Lemma pow2_add a b : pow2 (a + b) == pow2 a * pow2 b.
Proof. apply Qpower_plus. discriminate. Qed.

Lemma pow2_opp k : pow2 (- k) * pow2 k == 1.
Proof. rewrite <- pow2_add. replace (- k + k)%Z with 0%Z by lia. reflexivity. Qed.

Lemma pow2_Z k : (0 <= k)%Z -> pow2 k == inject_Z (2 ^ k).
Proof. intros H. unfold pow2. rewrite Zpower_Qpower by exact H. reflexivity. Qed.

Lemma pow2_le a b : (a <= b)%Z -> pow2 a <= pow2 b.
Proof. intros H. apply Qpower_le_compat_l; [exact H | discriminate]. Qed.

Lemma pow2_lt a b : (a < b)%Z -> pow2 a < pow2 b.
Proof. intros H. apply Qpower_lt_compat_l; [exact H | reflexivity]. Qed.

(** *** Rounding to an integer *)

Lemma round_half_even_bounds q :
  (Qfloor q <= round_half_even q <= Qfloor q + 1)%Z.
Proof.
  unfold round_half_even. cbv zeta.
  destruct (q - inject_Z (Qfloor q) ?= 1 # 2); [destruct (Z.even _)|..]; lia.
Qed.

Lemma round_half_even_mono x y : x <= y -> (round_half_even x <= round_half_even y)%Z.
Proof.
  intros Hxy. pose proof (Qfloor_resp_le x y Hxy) as Hf.
  destruct (Z.eq_dec (Qfloor x) (Qfloor y)) as [E|E].
  - unfold round_half_even. cbv zeta. rewrite <- E.
    destruct (Qcompare_spec (x - inject_Z (Qfloor x)) (1 # 2)),
      (Qcompare_spec (y - inject_Z (Qfloor x)) (1 # 2));
      try (destruct (Z.even (Qfloor x))); try lia; exfalso; lra.
  - pose proof (round_half_even_bounds x). pose proof (round_half_even_bounds y).
    lia.
Qed.

Lemma round_half_even_Z z : round_half_even (inject_Z z) = z.
Proof.
  unfold round_half_even. cbv zeta. rewrite Qfloor_Z.
  destruct (Qcompare_spec (inject_Z z - inject_Z z) (1 # 2));
    [| reflexivity |]; exfalso; lra.
Qed.

Lemma round_half_even_eq x z : x == inject_Z z -> round_half_even x = z.
Proof.
  intros H. apply Z.le_antisymm.
  - rewrite <- (round_half_even_Z z). apply round_half_even_mono. rewrite H. apply Qle_refl.
  - rewrite <- (round_half_even_Z z) at 1. apply round_half_even_mono. rewrite H. apply Qle_refl.
Qed.

(** *** Rounding on a grid *)

Lemma round_on_mono k x y : x <= y -> round_on k x <= round_on k y.
Proof.
  intros H. unfold round_on.
  apply Qmult_le_compat_r; [|apply Qlt_le_weak, pow2_pos].
  rewrite <- Zle_Qle. apply round_half_even_mono.
  apply Qmult_le_compat_r; [exact H | apply Qlt_le_weak, pow2_pos].
Qed.

Lemma round_on_pow2 k j : (k <= j)%Z -> round_on k (pow2 j) == pow2 j.
Proof.
  intros H. unfold round_on.
  rewrite (round_half_even_eq _ (2 ^ (j - k))).
  - rewrite <- pow2_Z by lia. rewrite <- pow2_add.
    replace (j - k + k)%Z with j by lia. reflexivity.
  - rewrite <- pow2_Z by lia. rewrite <- pow2_add.
    replace (j + - k)%Z with (j - k)%Z by lia. reflexivity.
Qed.

Lemma round_on_nonneg k x : 0 <= x -> 0 <= round_on k x.
Proof.
  intros H. unfold round_on. apply Qmult_le_0_compat; [|apply Qlt_le_weak, pow2_pos].
  change 0 with (inject_Z 0). rewrite <- Zle_Qle.
  rewrite <- (round_half_even_Z 0) at 1. apply round_half_even_mono.
  apply Qmult_le_0_compat; [exact H | apply Qlt_le_weak, pow2_pos].
Qed.

(** *** The binade of a positive number *)

Lemma Qnum_pos q : 0 < q -> (0 < Qnum q)%Z.
Proof. destruct q as [n d]. unfold Qlt. simpl. lia. Qed.

Lemma binade_spec q : 0 < q -> pow2 (binade q) <= q /\ q < pow2 (binade q + 1).
Proof.
  intros Hq. pose proof (Qnum_pos q Hq) as Hn.
  set (ln := Z.log2 (Qnum q)). set (ld := Z.log2 (Zpos (Qden q))).
  destruct (Z.log2_spec (Qnum q) Hn) as [Hn1 Hn2]. fold ln in Hn1, Hn2.
  destruct (Z.log2_spec (Zpos (Qden q)) eq_refl) as [Hd1 Hd2].
  fold ld in Hd1, Hd2.
  assert (0 <= ln)%Z as Hln by apply Z.log2_nonneg.
  assert (0 <= ld)%Z as Hld by apply Z.log2_nonneg.
  assert (HN1 : pow2 ln <= inject_Z (Qnum q)) by (rewrite pow2_Z by lia; now rewrite <- Zle_Qle).
  assert (HN2 : inject_Z (Qnum q) < 2 * pow2 ln).
  { change 2 with (pow2 1). rewrite <- pow2_add, pow2_Z by lia.
    rewrite <- Zlt_Qlt. now replace (1 + ln)%Z with (Z.succ ln) by lia. }
  assert (HD1 : pow2 ld <= inject_Z (Zpos (Qden q))) by (rewrite pow2_Z by lia; now rewrite <- Zle_Qle).
  assert (HD2 : inject_Z (Zpos (Qden q)) < 2 * pow2 ld).
  { change 2 with (pow2 1). rewrite <- pow2_add, pow2_Z by lia.
    rewrite <- Zlt_Qlt. now replace (1 + ld)%Z with (Z.succ ld) by lia. }
  assert (HqD : q * inject_Z (Zpos (Qden q)) == inject_Z (Qnum q)).
  { destruct q as [n d]. unfold Qeq. simpl. lia. }
  pose proof (pow2_pos ln) as Pn. pose proof (pow2_pos ld) as Pd.
  set (N := inject_Z (Qnum q)) in *. set (D := inject_Z (Zpos (Qden q))) in *.
  assert (Hup : q < pow2 (ln - ld + 1)).
  { assert (E : pow2 (ln - ld + 1) * pow2 ld == 2 * pow2 ln).
    { rewrite <- pow2_add. change 2 with (pow2 1). rewrite <- pow2_add.
      now replace (ln - ld + 1 + ld)%Z with (1 + ln)%Z by lia. }
    pose proof (pow2_pos (ln - ld + 1)).
    apply Qnot_le_lt. intros Hc.
    assert (pow2 (ln - ld + 1) * pow2 ld <= q * D).
    { apply Qle_trans with (q * pow2 ld).
      - apply Qmult_le_compat_r; [exact Hc | lra].
      - rewrite !(Qmult_comm q). apply Qmult_le_compat_r; lra. }
    lra. }
  assert (Hlow : pow2 (ln - ld - 1) <= q).
  { assert (E : pow2 (ln - ld - 1) * (2 * pow2 ld) == pow2 ln).
    { change 2 with (pow2 1). rewrite <- !pow2_add.
      now replace (ln - ld - 1 + (1 + ld))%Z with ln by lia. }
    pose proof (pow2_pos (ln - ld - 1)).
    apply Qnot_lt_le. intros Hc.
    assert (q * D < pow2 (ln - ld - 1) * (2 * pow2 ld)).
    { apply Qle_lt_trans with (q * (2 * pow2 ld)).
      - rewrite !(Qmult_comm q). apply Qmult_le_compat_r; lra.
      - apply Qmult_lt_compat_r; lra. }
    lra. }
  unfold binade. fold ln ld. cbv zeta.
  destruct (Qle_bool (pow2 (ln - ld)) q) eqn:E.
  - apply Qle_bool_iff in E. split; assumption.
  - split; [exact Hlow|].
    replace (ln - ld - 1 + 1)%Z with (ln - ld)%Z by lia.
    apply Qnot_le_lt. intros Hc. apply Qle_bool_iff in Hc. congruence.
Qed.

Lemma binade_mono x y : 0 < x -> x <= y -> (binade x <= binade y)%Z.
Proof.
  intros Hx Hxy. assert (0 < y) as Hy by lra.
  destruct (binade_spec x Hx) as [Hx1 _]. destruct (binade_spec y Hy) as [_ Hy2].
  destruct (Z_le_gt_dec (binade x) (binade y)) as [|Hgt]; [assumption|].
  exfalso. pose proof (pow2_le (binade y + 1) (binade x) ltac:(lia)). lra.
Qed.

(** *** Rounding to the nearest double *)

Lemma round_positive_mono x y :
  0 < x -> x <= y ->
  round_on (ulp_exponent x) x <= round_on (ulp_exponent y) y.
Proof.
  intros Hx Hxy. assert (0 < y) as Hy by lra.
  pose proof (binade_mono x y Hx Hxy) as He.
  destruct (Z.eq_dec (ulp_exponent x) (ulp_exponent y)) as [E|E].
  - rewrite E. now apply round_on_mono.
  - unfold ulp_exponent in *.
    destruct (binade_spec x Hx) as [_ Hx2]. destruct (binade_spec y Hy) as [Hy1 _].
    pose proof (pow2_le (binade x + 1) (binade y) ltac:(lia)) as Hb.
    apply Qle_trans with (round_on (Z.max (binade x - 52) (-1074)) (pow2 (binade y))).
    + apply round_on_mono. lra.
    + rewrite round_on_pow2 by lia.
      rewrite <- (round_on_pow2 (Z.max (binade y - 52) (-1074)) (binade y)) by lia.
      now apply round_on_mono.
Qed.

Lemma Qnum_sign q :
  match Qnum q with
  | 0%Z => q == 0
  | Zpos _ => 0 < q
  | Zneg _ => q < 0
  end.
Proof. destruct q as [[|n|n] d]; unfold Qeq, Qlt; simpl; lia. Qed.

Lemma to_double_sign q :
  (0 <= q -> 0 <= to_double q) /\ (q <= 0 -> to_double q <= 0).
Proof.
  unfold to_double. rewrite Qred_correct.
  pose proof (Qnum_sign q) as Hs.
  destruct (Qnum q).
  - split; intros _; apply Qle_refl.
  - split; intros H; [apply round_on_nonneg; lra | lra].
  - split; intros H; [lra|].
    assert (0 <= round_on (ulp_exponent (- q)) (- q)) by (apply round_on_nonneg; lra).
    lra.
Qed.

Lemma to_double_mono x y : x <= y -> to_double x <= to_double y.
Proof.
  intros Hxy.
  destruct (Qlt_le_dec 0 x) as [Hx|Hx].
  - (* both positive *)
    assert (0 < y) as Hy by lra.
    unfold to_double. rewrite !Qred_correct.
    pose proof (Qnum_sign x) as Sx. pose proof (Qnum_sign y) as Sy.
    destruct (Qnum x); [lra| |lra]. destruct (Qnum y); [lra| |lra].
    now apply round_positive_mono.
  - destruct (Qlt_le_dec y 0) as [Hy|Hy].
    + (* both negative *)
      assert (x < 0) as Hx' by lra.
      unfold to_double. rewrite !Qred_correct.
      pose proof (Qnum_sign x) as Sx. pose proof (Qnum_sign y) as Sy.
      destruct (Qnum x); [lra|lra|]. destruct (Qnum y); [lra|lra|].
      apply Qopp_le_compat. apply round_positive_mono; lra.
    + apply Qle_trans with 0.
      * now apply to_double_sign.
      * now apply to_double_sign.
Qed.

Lemma to_double_eq x y : x == y -> to_double x == to_double y.
Proof. intros H. apply Qle_antisym; apply to_double_mono; rewrite H; apply Qle_refl. Qed.

(** A double is a bound of the roundings of what it bounds. *)
Lemma to_double_between a b x :
  to_double a == a -> to_double b == b ->
  a <= x <= b -> a <= to_double x <= b.
Proof.
  intros Ha Hb [H1 H2]. split.
  - rewrite <- Ha. now apply to_double_mono.
  - rewrite <- Hb. now apply to_double_mono.
Qed.

Lemma to_double_0_1 x : 0 <= x <= 1 -> 0 <= to_double x <= 1.
Proof. now apply to_double_between. Qed.

Lemma to_double_nonneg x : 0 <= x -> 0 <= to_double x.
Proof. apply to_double_sign. Qed.

Lemma fadd_nonneg a b : 0 <= a -> 0 <= b -> 0 <= fadd a b.
Proof.
  intros Ha Hb. unfold fadd. apply to_double_nonneg.
  pose proof (to_double_nonneg a Ha). pose proof (to_double_nonneg b Hb). lra.
Qed.

(** Adding a distance that is not negative to a total that has reached
    a double keeps the total there. *)
Lemma fadd_reaches bound a b :
  to_double bound == bound -> bound <= a -> 0 <= b -> bound <= fadd a b.
Proof.
  intros Hbound Ha Hb. unfold fadd. rewrite <- Hbound at 1.
  apply to_double_mono.
  assert (bound <= to_double a)
    by (rewrite <- Hbound; now apply to_double_mono).
  pose proof (to_double_nonneg b Hb). lra.
Qed.

End Doubles.

(** ** [Array.prototype.sort] *)

Section SortFacts.
Context {A : Type} (cmp : A -> A -> Q).

Lemma sort_insert_perm x l : sort_insert cmp x l ≡ₚ x :: l.
Proof.
  induction l as [|y r IH]; simpl; [done|].
  destruct (Qle_bool (cmp x y) 0); [done|].
  rewrite IH. apply Permutation_swap.
Qed.

Lemma Array_sort_perm l : Array_sort cmp l ≡ₚ l.
Proof.
  induction l as [|x l IH]; simpl; [done|].
  by rewrite sort_insert_perm, IH.
Qed.

Lemma Array_sort_length l : length (Array_sort cmp l) = length l.
Proof. by rewrite Array_sort_perm. Qed.

Lemma Array_sort_elem x l : x ∈ Array_sort cmp l ↔ x ∈ l.
Proof. by rewrite Array_sort_perm. Qed.

(** The order the comparator stands for: [R a b] when [a] may come
    before [b]. *)
Context (R : A -> A -> Prop).
Context (R_le : ∀ x y, Qle_bool (cmp x y) 0 = true → R x y).
Context (R_gt : ∀ x y, Qle_bool (cmp x y) 0 = false → R y x).
Context (R_trans : ∀ x y z, R x y → R y z → R x z).

Lemma sort_insert_sorted x l :
  StronglySorted R l → StronglySorted R (sort_insert cmp x l).
Proof.
  induction 1 as [|y r Hr IH Hy]; simpl.
  - repeat constructor.
  - destruct (Qle_bool (cmp x y) 0) eqn:E.
    + constructor; [by constructor|].
      constructor; [by apply R_le|].
      eapply Forall_impl; [exact Hy|]. intros z Hz.
      eapply R_trans; [apply R_le|]; eauto.
    + constructor; [done|].
      rewrite sort_insert_perm. constructor; [by apply R_gt | done].
Qed.

Lemma Array_sort_sorted l : StronglySorted R (Array_sort cmp l).
Proof.
  induction l as [|x l IH]; simpl; [constructor|].
  by apply sort_insert_sorted.
Qed.


End SortFacts.

(** ** Objects keyed by user id *)

Section ObjectFacts.
Context {V : Type}.
Implicit Types (o : JsObject V) (k : Z) (v : V).

Lemma obj_get_set_eq o k v : obj_get (obj_set o k v) k = Some v.
Proof.
  induction o as [|[k' v'] r IH]; simpl.
  - by rewrite Z.eqb_refl.
  - destruct (k' =? k) eqn:E; simpl; rewrite E; auto.
Qed.

Lemma obj_get_set_ne o k k' v :
  k ≠ k' → obj_get (obj_set o k v) k' = obj_get o k'.
Proof.
  intros Hne. induction o as [|[k1 v1] r IH]; simpl.
  - destruct (k =? k') eqn:E; [lia | done].
  - destruct (k1 =? k) eqn:E; simpl.
    + destruct (k1 =? k') eqn:E'; [lia | done].
    + by rewrite IH.
Qed.

Lemma obj_set_keys o k v :
  fst <$> obj_set o k v = fst <$> o ∨
  (k ∉ fst <$> o) ∧ fst <$> obj_set o k v = (fst <$> o) ++ [k].
Proof.
  induction o as [|[k' v'] r IH]; cbn [obj_set].
  - right. split; [apply not_elem_of_nil | done].
  - destruct (k' =? k) eqn:E; rewrite !fmap_cons; cbn [fst]; [by left|].
    destruct IH as [-> | [Hk ->]]; [by left|].
    right. split; [|done].
    rewrite not_elem_of_cons. split; [lia | done].
Qed.

Lemma obj_set_NoDup o k v : NoDup (fst <$> o) → NoDup (fst <$> obj_set o k v).
Proof.
  intros Hnd. destruct (obj_set_keys o k v) as [-> | [Hk ->]]; [done|].
  apply NoDup_app. split_and!; [done | | apply NoDup_singleton].
  intros x Hx ->%list_elem_of_singleton. done.
Qed.

Lemma obj_get_elem o k v : NoDup (fst <$> o) → (k, v) ∈ o → obj_get o k = Some v.
Proof.
  induction o as [|[k' v'] r IH]; simpl; intros Hnd Hin.
  - by apply elem_of_nil in Hin.
  - apply NoDup_cons in Hnd as [Hk' Hnd].
    apply elem_of_cons in Hin as [[= <- <-] | Hin].
    + by rewrite Z.eqb_refl.
    + destruct (k' =? k) eqn:E; [|by apply IH].
      apply Z.eqb_eq in E as ->. destruct Hk'.
      apply list_elem_of_fmap. by exists (k, v).
Qed.

Lemma Object_entries_perm o : Object_entries o ≡ₚ o.
Proof.
  unfold Object_entries. rewrite Array_sort_perm.
  induction o as [|[k v] r IH]; [done|].
  rewrite !filter_cons. simpl.
  destruct (is_array_index k) eqn:E.
  - rewrite decide_True, decide_False by done. simpl. by rewrite IH.
  - rewrite decide_False, decide_True by done.
    rewrite <- Permutation_middle. by rewrite IH.
Qed.

End ObjectFacts.

(** ** Sums and the per-user aggregation *)

Lemma fold_left_Zsum {A} (f : A → Z) (l : list A) (a : Z) :
  fold_left (λ sum x, sum + f x) l a = a + Zsum (map f l).
Proof.
  revert a. induction l as [|x l IH]; intros a; simpl; [lia|].
  rewrite IH. lia.
Qed.


Lemma accumulate_eq o progress :
  accumulate o progress =
  obj_set o (Progress.tg_id progress)
    (add_progress (default UserStats.zero (obj_get o (Progress.tg_id progress)))
                  progress).
Proof. reflexivity. Qed.

Lemma fold_accumulate_NoDup rows o :
  NoDup (fst <$> o) → NoDup (fst <$> fold_left accumulate rows o).
Proof.
  revert o. induction rows as [|p rows IH]; intros o Hnd; simpl; [done|].
  apply IH. rewrite accumulate_eq. by apply obj_set_NoDup.
Qed.

(** What [userStats] holds for a user after the loop: nothing new when
    the user has no record, else the totals of the user's records. *)
Lemma fold_accumulate_get rows o k :
  obj_get (fold_left accumulate rows o) k =
  match records_of k rows with
  | [] => obj_get o k
  | rs => Some (fold_left add_progress rs (default UserStats.zero (obj_get o k)))
  end.
Proof.
  revert o. induction rows as [|p rows IH]; intros o; [done|].
  cbn [fold_left]. rewrite IH, accumulate_eq. unfold records_of.
  rewrite filter_cons. destruct (decide (Progress.tg_id p = k)) as [<-|Hne].
  - rewrite obj_get_set_eq. cbn [default fold_left].
    by destruct (filter _ rows).
  - by rewrite obj_get_set_ne.
Qed.


(** ** The leaderboard of [getLeaderboardData] *)

Lemma descending_sort {A} (key : A → Q) (l : list A) :
  descending key (Array_sort (λ a b, (key b - key a)%Q) l).
Proof.
  apply Array_sort_sorted.
  - intros x y H. apply Qle_bool_iff in H. lra.
  - intros x y H. apply not_true_iff_false in H.
    rewrite Qle_bool_iff in H. lra.
  - intros x y z ??. lra.
Qed.


Lemma sorted_leaderboard_eq users rows key :
  sorted_leaderboard users rows key =
  Array_sort (λ a b, (Participant.get b key - Participant.get a key)%Q)
    (omap (join_user users) (Object_entries (fold_left accumulate rows []))).
Proof. reflexivity. Qed.

Lemma sorted_leaderboard_descending users rows key :
  descending (λ p, Participant.get p key) (sorted_leaderboard users rows key).
Proof. rewrite sorted_leaderboard_eq. apply descending_sort. Qed.

Lemma join_user_Some users kv p :
  join_user users kv = Some p →
  Participant.tg_id p = kv.1 ∧ participant_stats p = kv.2
  ∧ ∃ u, u ∈ users ∧ User.tg_id u = kv.1.
Proof.
  destruct kv as [k s]. unfold join_user.
  destruct (Array_find _ users) as [u|] eqn:E; [|done].
  intros [= <-]. split_and!; [done | by destruct s |].
  exists u. clear -E. induction users as [|u' us IH]; [done|].
  simpl in E. destruct (User.tg_id u' =? k) eqn:Ek.
  - injection E as ->. apply Z.eqb_eq in Ek. split; [left | done].
  - destruct (IH E) as [? ?]. split; [by right | done].
Qed.

Lemma omap_join_NoDup users (l : list (Z * UserStats.t)) :
  NoDup (fst <$> l) → NoDup (Participant.tg_id <$> omap (join_user users) l).
Proof.
  induction l as [|kv l IH]; simpl; [constructor|].
  intros [Hk Hnd]%NoDup_cons. specialize (IH Hnd).
  destruct (join_user users kv) as [p|] eqn:E; [|done].
  rewrite fmap_cons. apply NoDup_cons. split; [|done].
  intros Hin. apply Hk.
  apply list_elem_of_fmap in Hin as (q & Hq & Hin).
  apply list_elem_of_omap in Hin as (kv' & Hin & E').
  apply join_user_Some in E as [E _], E' as [E' _].
  apply list_elem_of_fmap. exists kv'. split; [congruence | done].
Qed.

(** The entries of a leaderboard are pairwise distinct users. *)
Lemma sorted_leaderboard_NoDup users rows key :
  NoDup (Participant.tg_id <$> sorted_leaderboard users rows key).
Proof.
  rewrite sorted_leaderboard_eq, Array_sort_perm.
  apply omap_join_NoDup. rewrite Object_entries_perm.
  apply fold_accumulate_NoDup. constructor.
Qed.

(** Each entry carries the totals of the records of its user, and comes
    from a selected user. *)
Lemma sorted_leaderboard_elem users rows key p :
  p ∈ sorted_leaderboard users rows key →
  records_of (Participant.tg_id p) rows ≠ []
  ∧ participant_stats p
    = fold_left add_progress (records_of (Participant.tg_id p) rows) UserStats.zero
  ∧ ∃ u, u ∈ users ∧ User.tg_id u = Participant.tg_id p.
Proof.
  rewrite sorted_leaderboard_eq, Array_sort_elem.
  intros ([k s] & Hin & (Hk & Hs & Hu)%join_user_Some)%list_elem_of_omap.
  simpl in Hk, Hs, Hu. rewrite Hk, Hs. clear Hk Hs.
  rewrite Object_entries_perm in Hin.
  apply obj_get_elem in Hin; [|apply fold_accumulate_NoDup; constructor].
  rewrite fold_accumulate_get in Hin.
  destruct (records_of k rows) eqn:E; [done|].
  injection Hin as <-. done.
Qed.

Lemma obj_get_Some_elem {V} (o : JsObject V) k v :
  obj_get o k = Some v → (k, v) ∈ o.
Proof.
  induction o as [|[k' v'] r IH]; simpl; [done|].
  destruct (Z.eqb_spec k' k) as [->|_].
  - intros [= ->]. left.
  - intros H. right. by apply IH.
Qed.

Lemma Array_find_exists {A} (f : A → bool) (l : list A) x :
  x ∈ l → f x = true → is_Some (Array_find f l).
Proof.
  induction l as [|y l IH]; simpl; [by intros ?%elem_of_nil|].
  intros [->|Hin]%elem_of_cons Hf.
  - rewrite Hf. eauto.
  - destruct (f y); eauto.
Qed.



(** ** Slices and ranks *)

Lemma Array_slice_0 {A} (l : list A) (stop : Z) :
  Array_slice l 0 stop
  = take (Z.to_nat (relative_index (Z.of_nat (length l)) stop)) l.
Proof.
  unfold Array_slice. cbn zeta.
  assert (relative_index (Z.of_nat (length l)) 0 = 0) as ->.
  { unfold relative_index. simpl. lia. }
  rewrite Z.sub_0_r. simpl. f_equal. unfold relative_index.
  destruct (stop <? 0); lia.
Qed.

Lemma Array_slice_0_nonneg {A} (l : list A) (stop : Z) :
  0 ≤ stop → Array_slice l 0 stop = take (Z.to_nat stop) l.
Proof.
  intros H. rewrite Array_slice_0. unfold relative_index.
  destruct (stop <? 0) eqn:E; [lia|].
  destruct (decide (stop ≤ Z.of_nat (length l))).
  - by rewrite Z.min_l.
  - rewrite Z.min_r, Nat2Z.id by lia.
    rewrite !take_ge; [done | lia | lia].
Qed.

Lemma with_rank_lookup key page i :
  with_rank key page !! i
  = (λ p, Entry.mk p (Z.of_nat i + 1) (Participant.get p key) []) <$> page !! i.
Proof. unfold with_rank. by rewrite list_lookup_imap. Qed.

Lemma with_rank_length key page : length (with_rank key page) = length page.
Proof. apply length_imap. Qed.

Lemma with_rank_users key page : Entry.user <$> with_rank key page = page.
Proof.
  apply list_eq. intros i. rewrite list_lookup_fmap, with_rank_lookup.
  by destruct (page !! i).
Qed.

Lemma with_rank_elem key page e :
  e ∈ with_rank key page →
  Entry.user e ∈ page ∧ Entry.score e = Participant.get (Entry.user e) key.
Proof.
  intros [i Hi]%list_elem_of_lookup. rewrite with_rank_lookup in Hi.
  destruct (page !! i) as [p|] eqn:E; [|done]. injection Hi as <-.
  split; [|done]. simpl. by eapply list_elem_of_lookup_2.
Qed.

(** [getLeaderboardData] answers unless one of its two queries fails, and
    then with the first entries of the full sorted set; the [offset]
    option is not read. *)
Lemma getLeaderboardData_eq st options :
  getLeaderboardData st options =
  let period := default "all" (Options.period options) in
  let type := default "overall" (Options.type options) in
  let limit := default (Int 100) (Options.limit options) in
  if failing st "SELECT_LEADERBOARD_DATA"
  then Err (DatabaseError "SELECT_LEADERBOARD_DATA")
  else if failing st "SELECT_LEADERBOARD_USERS"
  then Err (DatabaseError "SELECT_LEADERBOARD_USERS")
  else Ok (with_rank (sortKey_of type)
             (Array_slice (full_leaderboard st period type) 0
                          (ToIntegerOrInfinity limit))).
Proof.
  unfold getLeaderboardData, executeQuery. cbn zeta.
  destruct (failing st "SELECT_LEADERBOARD_DATA"); [done|].
  destruct (failing st "SELECT_LEADERBOARD_USERS"); done.
Qed.

Lemma getLeaderboardData_Ok st options lb :
  getLeaderboardData st options = Ok lb →
  ∃ n, lb = with_rank (sortKey_of (default "overall" (Options.type options)))
              (take n (full_leaderboard st
                         (default "all" (Options.period options))
                         (default "overall" (Options.type options)))).
Proof.
  rewrite getLeaderboardData_eq. cbn zeta.
  destruct (failing st "SELECT_LEADERBOARD_DATA"); [done|].
  destruct (failing st "SELECT_LEADERBOARD_USERS"); [done|].
  intros [= <-]. rewrite Array_slice_0. eauto.
Qed.


(** ** Stats aggregation *)



(** ** Order, score and rank of a built leaderboard *)

Lemma with_rank_descending key l n :
  descending (λ p, Participant.get p key) l →
  descending Entry.score (with_rank key (take n l)).
Proof.
  unfold descending. intros Hl.
  assert (StronglySorted (λ a b, (Participant.get b key <= Participant.get a key)%Q)
            (take n l)) as Ht.
  { rewrite <- (take_drop n l) in Hl. by apply StronglySorted_app_1_l in Hl. }
  clear Hl. unfold with_rank.
  change (StronglySorted (λ a b, (Entry.score b <= Entry.score a)%Q)
            (imap (λ index user,
                     Entry.mk user ((λ i, Z.of_nat i + 1) index)
                              (Participant.get user key) [])
                  (take n l))).
  generalize (λ i, Z.of_nat i + 1) as g.
  induction Ht as [|x r Hr IH Hx]; intros g; simpl; constructor.
  - apply (IH (g ∘ S)).
  - clear -Hx. revert g. induction Hx as [|y r Hy Hr IH]; intros g; simpl;
      constructor; [done|]. apply (IH (g ∘ S)).
Qed.

(** Every built leaderboard is in non-increasing order of [score], and
    [score] is the value of the key that [sortKey_of] selects. *)
Lemma getLeaderboardData_sorted st options leaderboard :
  getLeaderboardData st options = Ok leaderboard →
  descending Entry.score leaderboard
  ∧ ∀ e, e ∈ leaderboard →
      Entry.score e
      = Participant.get (Entry.user e)
          (sortKey_of (default "overall" (Options.type options))).
Proof.
  intros [n ->]%getLeaderboardData_Ok. split.
  - apply with_rank_descending, sorted_leaderboard_descending.
  - intros e He. by apply with_rank_elem in He as [_ ?].
Qed.

(** The key selected by each leaderboard type. *)
Lemma sortKey_of_types :
  sortKey_of "reading" = "total_pages"
  ∧ sortKey_of "distance" = "total_distance"
  ∧ sortKey_of "overall" = "total_points"
  ∧ sortKey_of "consistency" = "total_points".
Proof. by repeat split. Qed.

(** The rank of an entry is its 1-based place in the full sorted set,
    and the [offset] option changes nothing. *)
Lemma getLeaderboardData_rank st options leaderboard i e :
  getLeaderboardData st options = Ok leaderboard →
  leaderboard !! i = Some e →
  Entry.rank e = Z.of_nat i + 1
  ∧ full_leaderboard st (default "all" (Options.period options))
      (default "overall" (Options.type options)) !! i = Some (Entry.user e).
Proof.
  intros [n ->]%getLeaderboardData_Ok. rewrite with_rank_lookup.
  destruct (take n _ !! i) as [p|] eqn:E; [|done]. intros [= <-].
  split; [done|]. by apply lookup_take_Some in E as [-> _].
Qed.

Lemma getLeaderboardData_ignores_offset st period type limit offset offset' :
  getLeaderboardData st (Options.mk period type limit offset)
  = getLeaderboardData st (Options.mk period type limit offset').
Proof. reflexivity. Qed.

(** C1. Specified: every built leaderboard is sorted in non-increasing
    order of the key selected by [type] (reading: [total_pages],
    distance: [total_distance], consistency: [days_count], overall:
    [total_points]) and [score] is the value of that key. The code has
    no case for [consistency]: the type passes
    [validateLeaderboardParams], and the leaderboard is sorted by
    [total_points] with [score = total_points]. With user 1 (1 day, 10
    points) and user 2 (2 days, 4 points) the answer lists user 1 first
    with score 10: it is not in non-increasing order of [days_count] and
    no score is the value of [days_count]. *)
Theorem consistency_leaderboard_sorted_by_points :
  validateLeaderboardParams "all" "consistency" (JNum 100) (JNum 0) = Ok tt
  ∧ ∃ leaderboard,
      getLeaderboardData two_users_store
        (Options.mk (Some "all") (Some "consistency") (Some (Int 100)) (Some (Int 0)))
      = Ok leaderboard
      ∧ entry_view <$> leaderboard = [(1, 1, 10%Q, 10, 1); (2, 2, 4%Q, 4, 2)]
      ∧ ¬ descending (λ e, inject_Z (Participant.days_count (Entry.user e)))
            leaderboard
      ∧ Forall (λ e, ¬ (Entry.score e
                        == inject_Z (Participant.days_count (Entry.user e)))%Q)
               leaderboard.
Proof.
  split; [reflexivity|]. eexists. split; [vm_compute; reflexivity|].
  split; [reflexivity|]. split.
  - intros H. apply StronglySorted_inv in H as [_ H].
    apply Forall_inv in H. vm_compute in H. by apply H.
  - repeat constructor; intros H; vm_compute in H; discriminate.
Qed.

(** C2. Specified: the entries at the sorted positions [[offset, offset
    + limit)] are returned, each with its place in the full sorted set as
    rank. [getLeaderboardData] does not read [offset]: with [limit = 1]
    and [offset = 1] on the two users (sorted order: user 1, user 2) it
    returns user 1 with rank 1, the page at position 0, and not user 2
    with rank 2; [getLeaderboard], which validates [offset] and passes
    it on, answers the same. *)
Theorem leaderboard_page_ignores_offset :
  Participant.tg_id <$> full_leaderboard two_users_store "all" "overall" = [1; 2]
  ∧ (∃ page,
       getLeaderboardData two_users_store
         (Options.mk (Some "all") (Some "overall") (Some (Int 1)) (Some (Int 1)))
       = Ok page
       ∧ entry_view <$> page = [(1, 1, 10%Q, 10, 1)])
  ∧ (∃ response,
       getLeaderboard two_users_store
         (Query.mk (Some "all") (Some "overall") (Some (JStr "1")) (Some (JStr "1")))
       = Ok response
       ∧ formatted_view <$> LeaderboardResponse.leaderboard response
         = [(1, 1, 10%Q)]
       ∧ LeaderboardResponse.total_participants response = 2).
Proof.
  split; [reflexivity|]. split.
  - eexists. split; [vm_compute; reflexivity | reflexivity].
  - eexists. split; [vm_compute; reflexivity|]. split; reflexivity.
Qed.

(** ** Task submission *)

(** A guard [throw_if c e] at the head of a computation that succeeded
    did not throw. *)
Ltac step_throw :=
  match goal with
  | |- context [throw_if ?c _] =>
      destruct c; cbn [throw_if mbind Result_bind]; [done|]
  end.

(** The steps of [submitDailyProgress] up to the write, read back from a
    successful answer. *)
Lemma submitDailyProgress_Ok st body response st' :
  submitDailyProgress st body = Ok (response, st') →
  ∃ telegramId saved,
    parseInt (Body.tg_id body) = Int telegramId
    ∧ validateSubmissionData
        (default_to (JObj []) (Body.tasks body))
        (default_to (JObj []) (Body.task_inputs body))
        (default_to (JNum 0) (Body.pages_read body))
        (default_to (JNum 0) (Body.distance_km body)) = Ok tt
    ∧ Progress.tg_id saved = telegramId
    ∧ Progress.date saved = default (iso_date (clock st)) (Body.date body)
    ∧ Progress.completed_count saved
      = Some (true_entries (default_to (JObj []) (Body.tasks body)))
    ∧ st' = mkStore (users st) (upsert saved (daily_progress st))
                    (clock st) (failing st)
    ∧ response = {|
        Submission.total_points :=
          true_entries (default_to (JObj []) (Body.tasks body));
        Submission.today_data := {|
          TodayData.completed :=
            true_entries (default_to (JObj []) (Body.tasks body));
          TodayData.pages_read :=
            int_or_zero (parseInt (default_to (JNum 0) (Body.pages_read body)));
          TodayData.distance_km :=
            float_or_zero (parseFloat (default_to (JNum 0) (Body.distance_km body)))
        |};
        Submission.achievement_unlocked :=
          checkForAchievements st' telegramId saved;
        Submission.submission_time := clock st
      |}.
Proof.
  unfold submitDailyProgress. cbn zeta.
  destruct (parseInt (Body.tg_id body)) as [|telegramId]; [done|].
  step_throw.
  destruct (getUserByTelegramId st _) as [[user|]|];
    cbn [mbind Result_bind]; [|done..].
  step_throw.
  destruct (validateSubmissionData _ _ _ _) as [[]|]; [|done].
  unfold submitDailyProgress_service, executeQuery.
  destruct (failing st "UPSERT_DAILY_PROGRESS"); [done|].
  cbn. intros [= <- <-]. eexists telegramId, _. split_and!.
  6: reflexivity. all: reflexivity.
Qed.

(** The saved [completed_count] is the number of truthy entries of the
    submitted task map; it lies between 0 and the number of entries. *)
Lemma true_entries_bounds tasks :
  0 ≤ true_entries tasks ≤ Z.of_nat (length (fields_of tasks)).
Proof.
  unfold true_entries, Object_values. split; [lia|].
  apply inj_le. etrans; [apply length_filter|]. by rewrite length_map.
Qed.

(** C3. Specified: the saved [completed_count] is recomputed from the
    submitted task map and satisfies [0 <= completed_count <= 10]. It is
    recomputed ([submitDailyProgress_Ok]), but nothing bounds the number
    of entries of the map: a map with the eleven keys 1..11, all [true],
    passes the key pattern of [dailyProgressSchema] and
    [validateSubmissionData], and the record is saved with
    [completed_count = 11]. *)
Theorem completed_count_eleven :
  dailyProgressSchema_tasks eleven_tasks = true
  ∧ validateSubmissionData eleven_tasks (JObj []) (JNum 0) (JNum 0) = Ok tt
  ∧ ∃ response st',
      submitDailyProgress two_users_store eleven_tasks_body = Ok (response, st')
      ∧ Submission.total_points response = 11
      ∧ Progress.completed_count
          <$> filter (λ r, Progress.tg_id r = 1 ∧ Progress.date r = 19724)
                     (daily_progress st')
        = [Some 11].
Proof.
  split; [reflexivity|]. split; [reflexivity|].
  eexists _, _. split; [vm_compute; reflexivity|]. split; reflexivity.
Qed.

(** ** The post-submission unlock check *)

Lemma getUserByTelegramId_break st tgId :
  getUserByTelegramId (break_stats_query st) tgId = getUserByTelegramId st tgId.
Proof. reflexivity. Qed.

Lemma submitDailyProgress_service_break st progressData :
  submitDailyProgress_service (break_stats_query st) progressData
  = match submitDailyProgress_service st progressData with
    | Ok (saved, st') => Ok (saved, break_stats_query st')
    | Err e => Err e
    end.
Proof.
  unfold submitDailyProgress_service, executeQuery. cbn.
  by destruct (failing st "UPSERT_DAILY_PROGRESS").
Qed.

Lemma checkForAchievements_break st telegramId progress :
  checkForAchievements (break_stats_query st) telegramId progress = None.
Proof. reflexivity. Qed.

(** C5. The unlock check returns at most one badge, that of the first
    rule that holds in the order (1) first ever day, (2) exactly the 7th
    day, (3) [completed_count] equal to 10, where the number of days is
    the number of records of the user; when its query throws it returns
    no badge, and a submission that succeeds still succeeds then, with
    the same data saved and no achievement reported. *)
Theorem unlock_check_first_match_and_degrades (st : Store) :
  (∀ telegramId progress,
     if failing st "SELECT_USER_ALL_STATS"
     then checkForAchievements st telegramId progress = None
     else badge_of <$> checkForAchievements st telegramId progress
          = first_match
              (unlock_rules
                 (Z.of_nat (length (records_of telegramId (daily_progress st))))
                 (Progress.completed_count progress)))
  ∧ (∀ body response st',
       submitDailyProgress st body = Ok (response, st') →
       submitDailyProgress (break_stats_query st) body
       = Ok (without_achievement response, break_stats_query st')).
Proof.
  split.
  - intros telegramId progress.
    unfold checkForAchievements, getUserAllTimeStats, executeQuery.
    destruct (failing st "SELECT_USER_ALL_STATS"); [done|].
    cbn. unfold first_match, unlock_rules, records_of. cbn.
    destruct (_ =? 1); [done|]. destruct (_ =? 7); [done|].
    unfold APP_CONSTANTS.TOTAL_DAILY_TASKS.
    by destruct (bool_decide _).
  - intros body response st' H.
    unfold submitDailyProgress in *. cbn zeta in *.
    destruct (parseInt (Body.tg_id body)) as [|telegramId]; [done|].
    revert H. step_throw. rewrite getUserByTelegramId_break.
    destruct (getUserByTelegramId st _) as [[user|]|];
      cbn [mbind Result_bind]; [|done..].
    step_throw.
    destruct (validateSubmissionData _ _ _ _) as [[]|];
      cbn [mbind Result_bind]; [|done].
    rewrite submitDailyProgress_service_break.
    destruct (submitDailyProgress_service st _) as [[saved st1]|];
      cbn [mbind Result_bind]; [|done].
    intros [= <- <-]. by rewrite checkForAchievements_break.
Qed.

(** The theorem on the example stores: a tenth task on the second day
    of user 2 unlocks [perfect_day]; the first submission of user 3
    unlocks [first_day], and with the statistics query failing it is
    answered all the same, without a badge. *)
Lemma unlock_check_first_match_and_degrades_witness :
  (badge_of <$> checkForAchievements two_users_store 2 (record 2 19724 10 0)
   = Some ("perfect_day", "perfectionist"))
  ∧ ∃ response st',
      submitDailyProgress three_users_store first_day_body = Ok (response, st')
      ∧ badge_of <$> Submission.achievement_unlocked response
        = Some ("first_day", "newcomer")
      ∧ submitDailyProgress (break_stats_query three_users_store) first_day_body
        = Ok (without_achievement response, break_stats_query st').
Proof.
  split.
  - exact (proj1 (unlock_check_first_match_and_degrades two_users_store)
             2 (record 2 19724 10 0)).
  - eexists _, _. split; [vm_compute; reflexivity|]. split; [reflexivity|].
    apply (proj2 (unlock_check_first_match_and_degrades three_users_store)).
    vm_compute. reflexivity.
Defined.

(** ** Tiered achievements *)

Lemma Qle_bool_inject_Z a b : Qle_bool (inject_Z a) (inject_Z b) = (a <=? b).
Proof. unfold Qle_bool. simpl. by rewrite !Z.mul_1_r. Qed.

Lemma push_if2 {A} (c1 c2 : bool) (a : list A) x1 x2 :
  (if c1 then a ++ [x1] else if c2 then a ++ [x2] else a)
  = a ++ (if c1 then [x1] else if c2 then [x2] else []).
Proof. destruct c1, c2; by rewrite ?app_nil_r. Qed.

Lemma push_if3 {A} (c1 c2 c3 : bool) (a : list A) x1 x2 x3 :
  (if c1 then a ++ [x1] else if c2 then a ++ [x2]
   else if c3 then a ++ [x3] else a)
  = a ++ (if c1 then [x1] else if c2 then [x2] else if c3 then [x3] else []).
Proof. destruct c1, c2, c3; by rewrite ?app_nil_r. Qed.

(** The four categories are awarded one after the other, each on its
    own statistic. *)
Lemma calculateUserAchievements_eq stats :
  calculateUserAchievements stats
  = points_badges stats ++ reading_badges stats
    ++ fitness_badges stats ++ consistency_badges stats.
Proof.
  unfold calculateUserAchievements. cbn zeta.
  rewrite push_if2, !push_if3, app_nil_l, <- !app_assoc. done.
Qed.

Lemma badges_in_app category l1 l2 :
  badges_in category (l1 ++ l2)
  = badges_in category l1 ++ badges_in category l2.
Proof. unfold badges_in. by rewrite filter_app, fmap_app. Qed.

Lemma badges_in_same category l :
  Forall (λ a, Achievement.category a = category) l →
  badges_in category l = (λ a, (Achievement.id a, Achievement.rarity a)) <$> l.
Proof.
  intros H. unfold badges_in. f_equal.
  induction H as [|a l Ha Hl IH]; [done|].
  by rewrite filter_cons_True, IH.
Qed.

Lemma badges_in_other category category' l :
  Forall (λ a, Achievement.category a = category') l →
  category' ≠ category →
  badges_in category l = [].
Proof.
  intros H Hne. unfold badges_in.
  induction H as [|a l Ha Hl IH]; [done|].
  rewrite filter_cons_False by congruence. done.
Qed.

Lemma points_badges_category stats :
  Forall (λ a, Achievement.category a = "points") (points_badges stats).
Proof.
  unfold points_badges.
  destruct (500 <=? UserStats.total_points stats),
    (100 <=? UserStats.total_points stats); by repeat constructor.
Qed.

Lemma reading_badges_category stats :
  Forall (λ a, Achievement.category a = "reading") (reading_badges stats).
Proof.
  unfold reading_badges.
  destruct (1000 <=? UserStats.total_pages stats),
    (500 <=? UserStats.total_pages stats),
    (100 <=? UserStats.total_pages stats); by repeat constructor.
Qed.

Lemma fitness_badges_category stats :
  Forall (λ a, Achievement.category a = "fitness") (fitness_badges stats).
Proof.
  unfold fitness_badges.
  destruct (Qle_bool 500 (UserStats.total_distance stats)),
    (Qle_bool 200 (UserStats.total_distance stats)),
    (Qle_bool 50 (UserStats.total_distance stats)); by repeat constructor.
Qed.

Lemma consistency_badges_category stats :
  Forall (λ a, Achievement.category a = "consistency") (consistency_badges stats).
Proof.
  unfold consistency_badges.
  destruct (100 <=? UserStats.days_count stats),
    (30 <=? UserStats.days_count stats),
    (7 <=? UserStats.days_count stats); by repeat constructor.
Qed.

(** The badges of one category are those of the step of that category:
    the first threshold met, from the highest down. *)
Lemma badges_in_category stats category :
  category ∈ categories →
  badges_in category (calculateUserAchievements stats)
  = option_list (highest_tier_met category stats).
Proof.
  intros Hc. rewrite calculateUserAchievements_eq, !badges_in_app.
  pose proof (points_badges_category stats) as Hp.
  pose proof (reading_badges_category stats) as Hr.
  pose proof (fitness_badges_category stats) as Hf.
  pose proof (consistency_badges_category stats) as Hd.
  unfold highest_tier_met, categories in *.
  repeat (apply elem_of_cons in Hc as [-> | Hc]);
    [..|by apply elem_of_nil in Hc];
    cbn [tiers metric String.eqb Ascii.eqb Bool.eqb Array_find fst snd];
    rewrite ?Qle_bool_inject_Z.
  - rewrite (badges_in_same _ _ Hp), (badges_in_other "points" _ _ Hr ltac:(done)),
      (badges_in_other "points" _ _ Hf ltac:(done)),
      (badges_in_other "points" _ _ Hd ltac:(done)), !app_nil_r.
    unfold points_badges.
    by destruct (500 <=? UserStats.total_points stats),
      (100 <=? UserStats.total_points stats).
  - rewrite (badges_in_same _ _ Hr), (badges_in_other "reading" _ _ Hp ltac:(done)),
      (badges_in_other "reading" _ _ Hf ltac:(done)),
      (badges_in_other "reading" _ _ Hd ltac:(done)), !app_nil_r, app_nil_l.
    unfold reading_badges.
    by destruct (1000 <=? UserStats.total_pages stats),
      (500 <=? UserStats.total_pages stats),
      (100 <=? UserStats.total_pages stats).
  - rewrite (badges_in_same _ _ Hf), (badges_in_other "fitness" _ _ Hp ltac:(done)),
      (badges_in_other "fitness" _ _ Hr ltac:(done)),
      (badges_in_other "fitness" _ _ Hd ltac:(done)), !app_nil_r, !app_nil_l.
    unfold fitness_badges.
    change (inject_Z 500) with 500%Q. change (inject_Z 200) with 200%Q.
    change (inject_Z 50) with 50%Q.
    by destruct (Qle_bool 500 (UserStats.total_distance stats)),
      (Qle_bool 200 (UserStats.total_distance stats)),
      (Qle_bool 50 (UserStats.total_distance stats)).
  - rewrite (badges_in_same _ _ Hd), (badges_in_other "consistency" _ _ Hp ltac:(done)),
      (badges_in_other "consistency" _ _ Hr ltac:(done)),
      (badges_in_other "consistency" _ _ Hf ltac:(done)), !app_nil_l.
    unfold consistency_badges.
    by destruct (100 <=? UserStats.days_count stats),
      (30 <=? UserStats.days_count stats),
      (7 <=? UserStats.days_count stats).
Qed.

(** C4. In tiered mode [calculateUserAchievements] awards, for each of
    the categories points, reading, fitness and consistency, at most one
    badge: the one of the highest tier whose threshold is met (points
    500/100, pages 1000/500/100, distance 500/200/50, days 100/30/7),
    and no badge of another category. With 600 points the points badge
    is [point_master] alone; from 1000 pages on the reading badge is the
    legendary [library_master] alone. *)
Theorem tiered_awards_highest_tier_only (stats : UserStats.t) :
  (∀ category, category ∈ categories →
     badges_in category (calculateUserAchievements stats)
     = option_list (highest_tier_met category stats)
     ∧ (length (badges_in category (calculateUserAchievements stats)) ≤ 1)%nat)
  ∧ Forall (λ a, Achievement.category a ∈ categories)
           (calculateUserAchievements stats)
  ∧ badges_in "points" (calculateUserAchievements (stats_with_points 600))
    = [("point_master", "epic")]
  ∧ (1000 ≤ UserStats.total_pages stats →
     badges_in "reading" (calculateUserAchievements stats)
     = [("library_master", "legendary")]).
Proof.
  split_and!.
  - intros category Hc. split; [by apply badges_in_category|].
    rewrite badges_in_category by done.
    destruct (highest_tier_met category stats); simpl; lia.
  - rewrite calculateUserAchievements_eq, !Forall_app. unfold categories.
    split_and!; (eapply Forall_impl;
      [first [apply points_badges_category | apply reading_badges_category
             | apply fitness_badges_category | apply consistency_badges_category]
      | intros a ->; repeat constructor]).
  - reflexivity.
  - intros H. rewrite badges_in_category by (unfold categories; repeat constructor).
    unfold highest_tier_met.
    cbn [tiers metric String.eqb Ascii.eqb Bool.eqb Array_find fst snd].
    rewrite Qle_bool_inject_Z.
    by destruct (Z.leb_spec 1000 (UserStats.total_pages stats)); [|lia].
Qed.

(** The last part of the theorem at 1200 pages. *)
Lemma tiered_awards_highest_tier_only_witness :
  badges_in "reading"
    (calculateUserAchievements (UserStats.mk 0 1200 0%Q 0))
  = [("library_master", "legendary")].
Proof.
  apply (tiered_awards_highest_tier_only (UserStats.mk 0 1200 0%Q 0)).
  simpl. lia.
Defined.

(** ** The position locator *)

Lemma Array_findIndex_Some {A} (f : A → bool) (l : list A) i :
  Array_findIndex f l = Some i →
  ∃ x, l !! i = Some x ∧ f x = true ∧ ∀ j y, (j < i)%nat → l !! j = Some y → f y = false.
Proof.
  revert i. induction l as [|x l IH]; intros i; simpl; [done|].
  destruct (f x) eqn:E.
  - intros [= <-]. exists x. split_and!; [done..|]. intros; lia.
  - destruct (Array_findIndex f l) as [k|]; [|done]. intros [= <-].
    destruct (IH k eq_refl) as (y & Hy & Hfy & Hlt).
    exists y. split_and!; [done..|].
    intros [|j] z Hj; simpl; [by intros [= <-]|].
    apply Hlt. lia.
Qed.

Lemma Array_findIndex_None {A} (f : A → bool) (l : list A) :
  Array_findIndex f l = None → Forall (λ x, f x = false) l.
Proof.
  induction l as [|x l IH]; simpl; [constructor|].
  destruct (f x) eqn:E; [done|].
  destruct (Array_findIndex f l); [done|]. intros _. by constructor; auto.
Qed.



Lemma Math_round_range (q : Q) (a b : Z) :
  (inject_Z a <= q)%Q → (q <= inject_Z b)%Q → a ≤ Math_round q ≤ b.
Proof.
  intros Ha Hb. unfold Math_round. split.
  - rewrite <- (Qfloor_Z a). apply Qfloor_resp_le. lra.
  - assert (Qfloor (q + (1 # 2)) < b + 1); [|lia].
    rewrite Zlt_Qlt. eapply Qle_lt_trans; [apply Qfloor_le|].
    rewrite inject_Z_plus. change (inject_Z 1) with 1%Q. lra.
Qed.

(** The percentile of a position of the leaderboard lies between 0 and
    100, and is 100 at the first position. *)
Lemma percentile_of_range p n : 0 ≤ p < n → 0 ≤ percentile_of p n ≤ 100.
Proof.
  intros H. unfold percentile_of, fmul, fsub, fdiv.
  assert (0 <= to_double (inject_Z p))%Q as HP
    by (apply to_double_nonneg; change 0%Q with (inject_Z 0);
        rewrite <- Zle_Qle; lia).
  assert (to_double (inject_Z p) <= to_double (inject_Z n))%Q as HPN
    by (apply to_double_mono; rewrite <- Zle_Qle; lia).
  assert (1 <= to_double (inject_Z n))%Q as HN.
  { change 1%Q with (to_double 1). apply to_double_mono.
    change 1%Q with (inject_Z 1). rewrite <- Zle_Qle. lia. }
  set (P := to_double (inject_Z p)) in *. set (N := to_double (inject_Z n)) in *.
  clearbody P N.
  assert (0 <= P / N <= 1)%Q as Hq.
  { split.
    - apply Qle_shift_div_l; lra.
    - apply Qle_shift_div_r; lra. }
  apply to_double_0_1, to_double_0_1 in Hq.
  set (r1 := to_double (to_double (P / N))) in *. clearbody r1.
  assert (0 <= to_double 1 - r1 <= 1)%Q as Hr
    by (change (to_double 1) with 1%Q; split; lra).
  apply to_double_0_1, to_double_0_1 in Hr.
  set (r2 := to_double (to_double (to_double 1 - r1))) in *. clearbody r2.
  assert (0 <= r2 * to_double 100 <= 100)%Q as Hm
    by (change (to_double 100) with 100%Q; split; lra).
  apply (to_double_between 0 100) in Hm; [|done..].
  apply Math_round_range; [change (inject_Z 0) with 0%Q
                          |change (inject_Z 100) with 100%Q]; lra.
Qed.

Lemma percentile_of_leader n : 0 < n → percentile_of 0 n = 100.
Proof.
  intros Hn. unfold percentile_of, fmul, fsub, fdiv.
  change (to_double (inject_Z 0)) with 0%Q.
  set (N := to_double (inject_Z n)). clearbody N.
  assert (to_double (0 / N) == 0)%Q as E1.
  { transitivity (to_double 0); [|reflexivity].
    apply to_double_eq, Qmult_0_l. }
  apply to_double_eq in E1.
  set (r1 := to_double (to_double (0 / N))) in *. clearbody r1.
  change (to_double 0) with 0%Q in E1.
  assert (to_double (to_double 1 - r1) == 1)%Q as E2.
  { transitivity (to_double 1); [|reflexivity].
    apply to_double_eq. change (to_double 1) with 1%Q. lra. }
  apply to_double_eq in E2.
  set (r2 := to_double (to_double (to_double 1 - r1))) in *. clearbody r2.
  change (to_double 1) with 1%Q in E2.
  assert (to_double (r2 * to_double 100) == 100)%Q as E3.
  { transitivity (to_double 100); [|reflexivity].
    apply to_double_eq. change (to_double 100) with 100%Q.
    rewrite E2. reflexivity. }
  unfold Math_round. rewrite E3. reflexivity.
Qed.



(** [getUserLeaderboardPosition] answers with the position located in
    the leaderboard of up to 10000 entries. *)
Lemma getUserLeaderboardPosition_Ok st tg_id query response :
  getUserLeaderboardPosition st tg_id query = Ok response →
  ∃ telegramId fullLeaderboard,
    parseInt tg_id = Int telegramId
    ∧ getLeaderboardData st
        (Options.mk (Some (default "all" (Query.period query)))
                    (Some (default "overall" (Query.type query)))
                    (Some (Int 10000)) None) = Ok fullLeaderboard
    ∧ response = locate_user fullLeaderboard telegramId
                   (default "overall" (Query.type query))
                   (default "all" (Query.period query)).
Proof.
  unfold getUserLeaderboardPosition. cbn zeta.
  destruct (parseInt tg_id) as [|telegramId]; [done|].
  step_throw.
  destruct (getUserByTelegramId st _) as [[user|]|];
    cbn [mbind Result_bind]; [|done..].
  step_throw.
  destruct (getLeaderboardData st _) as [lb|] eqn:E;
    cbn [mbind Result_bind]; [|done].
  intros [= <-]. by eexists _, _.
Qed.

(** ** The distribution analyzer *)

(** C9. On an empty leaderboard the analyzer returns at once, before any
    division: every numeric field is 0 and the distribution is the empty
    object. So does [getLeaderboardStats] on a store without records
    whose queries are answered. *)
Theorem empty_leaderboard_stats (st : Store) (period : option string) :
  calculateLeaderboardStats [] = empty_stats
  ∧ (daily_progress st = [] →
     failing st "SELECT_LEADERBOARD_DATA" = false →
     failing st "SELECT_LEADERBOARD_USERS" = false →
     getLeaderboardStats st period = Ok empty_stats).
Proof.
  split; [reflexivity|]. intros Hrows H1 H2.
  unfold getLeaderboardStats. rewrite getLeaderboardData_eq. cbn zeta.
  rewrite H1, H2. cbn [mbind Result_bind Options.period Options.type default
    from_option id].
  unfold full_leaderboard, select_progress.
  assert (∀ rows, rows = [] →
            sorted_leaderboard (approved_users st rows) rows
              (sortKey_of "overall") = []) as Hempty.
  { by intros rows ->. }
  rewrite Hempty; [reflexivity|].
  destruct (negb _); [|done]. destruct (getDateFilter st _); [|done].
  by rewrite Hrows.
Qed.

(** The theorem on a store without records. *)
Lemma empty_leaderboard_stats_witness :
  getLeaderboardStats no_records_store (Some "weekly") = Ok empty_stats.
Proof.
  apply (empty_leaderboard_stats no_records_store (Some "weekly"));
    reflexivity.
Defined.

Lemma fold_Qmax_is_max l x : is_max (fold_left Qmax l x) (x :: l).
Proof.
  revert x. induction l as [|y l IH]; intros x; cbn [fold_left].
  - split; [left|]. constructor; [apply Qle_refl | constructor].
  - destruct (IH (Qmax x y)) as [Hin Hle].
    apply Forall_cons in Hle as [Hxy Hl].
    split.
    + apply elem_of_cons in Hin as [-> | Hin]; [|by do 2 right].
      unfold Qmax, GenericMinMax.gmax.
      destruct (x ?= y)%Q; [left | right; left | left].
    + constructor; [|constructor; [|done]].
      * eapply Qle_trans; [apply Q.le_max_l | exact Hxy].
      * eapply Qle_trans; [apply Q.le_max_r | exact Hxy].
Qed.





Lemma Math_floor_half n : Z.to_nat (Math_floor (inject_Z (Z.of_nat n) / 2)) = (n / 2)%nat.
Proof.
  unfold Math_floor. change 2%Q with (inject_Z 2).
  rewrite <- Zdiv_Qdiv. change 2 with (Z.of_nat 2).
  by rewrite <- Nat2Z.inj_div, Nat2Z.id.
Qed.

Lemma Math_floor_tenth n :
  Z.to_nat (Math_floor (inject_Z (Z.of_nat n) * (1 # 10))) = (n / 10)%nat.
Proof.
  unfold Math_floor.
  change (inject_Z (Z.of_nat n) * (1 # 10))%Q
    with (inject_Z (Z.of_nat n) / inject_Z 10)%Q.
  rewrite <- Zdiv_Qdiv. change 10 with (Z.of_nat 10).
  by rewrite <- Nat2Z.inj_div, Nat2Z.id.
Qed.

Lemma range_index_integer (z : Z) :
  (z ≤ 10 → range_index (inject_Z z) = 0%nat)
  ∧ (11 ≤ z ≤ 50 → range_index (inject_Z z) = 1%nat)
  ∧ (51 ≤ z ≤ 100 → range_index (inject_Z z) = 2%nat)
  ∧ (101 ≤ z ≤ 200 → range_index (inject_Z z) = 3%nat)
  ∧ (200 < z → range_index (inject_Z z) = 4%nat).
Proof.
  unfold range_index, range_bounds. cbn [Array_findIndex].
  change 10%Q with (inject_Z 10). change 50%Q with (inject_Z 50).
  change 100%Q with (inject_Z 100). change 200%Q with (inject_Z 200).
  rewrite !Qle_bool_inject_Z.
  destruct (Z.leb_spec z 10), (Z.leb_spec z 50), (Z.leb_spec z 100),
    (Z.leb_spec z 200); split_and!; intros; simpl; try done; lia.
Qed.





(** The average on one score of 2 and 39 scores of 1: the mean 1.025 is
    the double 1.02499999999999991, its product by 100 is
    102.49999999999999, and the average is the double 1.02. *)
Example average_points_example :
  LeaderboardStats.average_points
    (calculateLeaderboardStats (leaderboard_of_scores (2 :: replicate 39 1)))
  = (2296835809958953 # 2251799813685248)%Q
  ∧ to_double (102 # 100) = (2296835809958953 # 2251799813685248)%Q.
Proof. vm_compute. by split. Qed.

(** ** The achievement leaderboard *)

Lemma elem_of_Array_slice_0 {A} (l : list A) stop x :
  x ∈ Array_slice l 0 stop → x ∈ l.
Proof.
  rewrite Array_slice_0. intros (i & H & _)%elem_of_take.
  by eapply list_elem_of_lookup_2.
Qed.

(** C10. The achievement leaderboard for a limit [L] is computed over
    the first [2 L] entries of the all-time leaderboard by total points
    only: [total_participants] is the size of that pool, at most [2 L],
    every listed user is in the pool, and a user at a position from
    [2 L] on in the points order is not listed, whatever the
    achievements of that user. *)
Theorem achievement_leaderboard_pool (st : Store) (limit : option JsValue)
    (L : Z) :
  parseInt (default (JNum 50) limit) = Int L →
  0 ≤ L →
  match getAchievementLeaderboard st limit with
  | Ok response =>
      let full := full_leaderboard st "all" "overall" in
      let listed :=
        TopAchiever.tg_id
          <$> AchievementResponse.achievement_leaderboard response in
      AchievementResponse.total_participants response
      = Z.of_nat (length (candidate_pool st L))
      ∧ AchievementResponse.total_participants response
        = Z.min (2 * L) (Z.of_nat (length full))
      ∧ Forall (λ tg_id, tg_id ∈ Participant.tg_id <$> candidate_pool st L)
               listed
      ∧ ∀ i p, full !! i = Some p → 2 * L ≤ Z.of_nat i →
               Participant.tg_id p ∉ listed
  | Err _ =>
      failing st "SELECT_LEADERBOARD_DATA" = true
      ∨ failing st "SELECT_LEADERBOARD_USERS" = true
  end.
Proof.
  intros HL HL0. unfold getAchievementLeaderboard. cbn zeta.
  rewrite HL, getLeaderboardData_eq. cbn zeta.
  destruct (failing st "SELECT_LEADERBOARD_DATA"); [by left|].
  destruct (failing st "SELECT_LEADERBOARD_USERS"); [by right|].
  cbn [mbind Result_bind mret Result_ret Options.period Options.type
       Options.limit default from_option id mul ToIntegerOrInfinity
       AchievementResponse.total_participants
       AchievementResponse.achievement_leaderboard].
  rewrite (Array_slice_0_nonneg (full_leaderboard st "all" "overall")) by lia.
  replace (L * 2) with (2 * L) by lia. fold (candidate_pool st L).
  set (pool := candidate_pool st L).
  assert (Hlisted : ∀ tg_id,
    tg_id ∈ TopAchiever.tg_id <$>
      imap (λ index user,
              TopAchiever.mk (Z.of_nat index + 1)
                (Entry.tg_id (Achiever.user user))
                (Participant.name (Entry.user (Achiever.user user)))
                (Participant.photo_url (Entry.user (Achiever.user user)))
                (Achiever.achievement_count user)
                (Achiever.achievement_score user)
                (Array_slice (Achiever.achievements user) 0 3)
                (Participant.is_premium (Entry.user (Achiever.user user))))
           (Array_slice
              (Array_sort
                 (λ a b, inject_Z (Achiever.achievement_score b
                                   - Achiever.achievement_score a))
                 (map (λ user,
                         Achiever.mk user
                           (calculateUserAchievements (stats_of user))
                           (Z.of_nat (length (calculateUserAchievements (stats_of user))))
                           (calculateAchievementScore
                              (calculateUserAchievements (stats_of user))))
                      (with_rank (sortKey_of "overall") pool)))
              0 L) →
    tg_id ∈ Participant.tg_id <$> pool).
  { intros tg_id (a & -> & Ha)%list_elem_of_fmap.
    apply list_elem_of_lookup in Ha as [i Hi].
    rewrite list_lookup_imap in Hi.
    destruct (Array_slice _ 0 L !! i) as [u|] eqn:Hu; [|done].
    injection Hi as <-. cbn [TopAchiever.tg_id].
    apply list_elem_of_lookup_2, elem_of_Array_slice_0 in Hu.
    apply Array_sort_elem in Hu.
    apply list_elem_of_fmap in Hu as (e & -> & He). cbn [Achiever.user].
    apply with_rank_elem in He as [He _].
    apply list_elem_of_fmap. by exists (Entry.user e). }
  split_and!.
  - by rewrite Array_sort_length, length_map, with_rank_length.
  - rewrite Array_sort_length, length_map, with_rank_length.
    unfold pool, candidate_pool. rewrite length_take. lia.
  - apply Forall_forall. exact Hlisted.
  - intros i p Hi Hge Hin. apply Hlisted in Hin.
    apply list_elem_of_fmap in Hin as (q & Hq & Hin).
    apply elem_of_take in Hin as (j & Hj & Hlt).
    assert (i = j); [|lia].
    pose proof (sorted_leaderboard_NoDup
                  (approved_users st (select_progress st "all"))
                  (select_progress st "all") (sortKey_of "overall")) as Hnd.
    change (NoDup (Participant.tg_id <$> full_leaderboard st "all" "overall"))
      in Hnd.
    eapply NoDup_lookup; [exact Hnd|..].
    + by rewrite list_lookup_fmap, Hi.
    + rewrite list_lookup_fmap, Hj. simpl. by rewrite Hq.
Qed.

(** The theorem with limit 1 on three users: the pool is users 1 and 2,
    [total_participants] is 2, and user 3, the only one with a badge,
    is not listed. *)
Lemma achievement_leaderboard_pool_witness :
  Participant.tg_id <$> full_leaderboard reader_store "all" "overall" = [1; 2; 3]
  ∧ calculateAchievementScore
      (calculateUserAchievements (UserStats.mk 1 1000 0%Q 1)) = 100
  ∧ ∃ response,
      getAchievementLeaderboard reader_store (Some (JStr "1")) = Ok response
      ∧ AchievementResponse.total_participants response = 2
      ∧ 3 ∉ TopAchiever.tg_id
              <$> AchievementResponse.achievement_leaderboard response.
Proof.
  split; [reflexivity|]. split; [reflexivity|].
  pose proof (achievement_leaderboard_pool reader_store (Some (JStr "1")) 1
                eq_refl ltac:(lia)) as H.
  destruct (getAchievementLeaderboard reader_store (Some (JStr "1")))
    as [response|] eqn:E; [|vm_compute in E; discriminate].
  exists response. destruct H as (_ & H2 & _ & H4).
  split; [reflexivity|]. split; [exact H2|].
  exact (H4 2%nat (Participant.mk 3 "Sami" None false 1 1000 0%Q 1)
            eq_refl ltac:(lia)).
Defined.

(** A request may carry a negative limit, which the route does not
    refuse. For the limit -1 and four users, the pool is the all-time
    leaderboard without its last two entries and the listing is the
    pool without its last entry: [total_participants] is 2, which is
    not at most [2 L = -2], and user 1, at position 0 of the points
    order, is listed although [2 L ≤ 0]. *)
Lemma achievement_leaderboard_negative_limit :
  let limit := Some (JStr "-1") in
  let L := -1 in
  let full := full_leaderboard four_users_store "all" "overall" in
  parseInt (default (JNum 50) limit) = Int L
  ∧ Participant.tg_id <$> full = [1; 2; 3; 4]
  ∧ ∃ response,
      getAchievementLeaderboard four_users_store limit = Ok response
      ∧ AchievementResponse.total_participants response = 2
      ∧ TopAchiever.tg_id
          <$> AchievementResponse.achievement_leaderboard response = [1]
      ∧ ¬ (let listed :=
             TopAchiever.tg_id
               <$> AchievementResponse.achievement_leaderboard response in
           AchievementResponse.total_participants response
           = Z.of_nat (length (candidate_pool four_users_store L))
           ∧ AchievementResponse.total_participants response
             = Z.min (2 * L) (Z.of_nat (length full))
           ∧ Forall (λ tg_id,
                       tg_id ∈ Participant.tg_id
                                 <$> candidate_pool four_users_store L)
                    listed
           ∧ ∀ i p, full !! i = Some p → 2 * L ≤ Z.of_nat i →
                    Participant.tg_id p ∉ listed).
Proof.
  cbn zeta. split; [reflexivity|]. split; [reflexivity|].
  destruct (getAchievementLeaderboard four_users_store (Some (JStr "-1")))
    as [response|e] eqn:E; [|vm_compute in E; discriminate E].
  exists response. split; [reflexivity|].
  assert (Htotal : AchievementResponse.total_participants response = 2).
  { vm_compute in E. injection E as <-. reflexivity. }
  split; [exact Htotal|].
  split; [vm_compute in E; injection E as <-; reflexivity|].
  intros (Hpool & _). rewrite Htotal in Hpool. vm_compute in Hpool.
  discriminate Hpool.
Qed.

(* ===================================================================== *)
(** * Further properties of the code                                     *)
(* ===================================================================== *)

(** ** Slices *)

Lemma Array_slice_nat {A} (l : list A) (a b : nat) :
  Array_slice l (Z.of_nat a) (Z.of_nat b) = take (b - a) (drop a l).
Proof.
  unfold Array_slice, relative_index. cbn zeta.
  destruct (Z.ltb_spec (Z.of_nat a) 0); [lia|].
  destruct (Z.ltb_spec (Z.of_nat b) 0); [lia|].
  destruct (decide (length l ≤ a)%nat) as [Hge|Hlt].
  - replace (Z.to_nat (Z.min (Z.of_nat a) (Z.of_nat (length l))))
      with (length l) by lia.
    by rewrite drop_all, (drop_ge l a), !take_nil.
  - replace (Z.to_nat (Z.min (Z.of_nat a) (Z.of_nat (length l))))
      with a by lia.
    replace (Z.to_nat (Z.max (Z.min (Z.of_nat b) (Z.of_nat (length l))
                              - Z.min (Z.of_nat a) (Z.of_nat (length l))) 0))
      with (Nat.min b (length l) - a)%nat by lia.
    destruct (decide (b ≤ length l)%nat).
    + by rewrite Nat.min_l.
    + rewrite Nat.min_r by lia.
      rewrite !take_ge; [done | rewrite length_drop; lia..].
Qed.

Lemma lookup_take_drop {A} (l : list A) (a n k : nat) :
  take n (drop a l) !! k = if decide (k < n)%nat then l !! (a + k)%nat else None.
Proof.
  case_decide.
  - by rewrite lookup_take_lt, lookup_drop.
  - by rewrite lookup_take_ge by lia.
Qed.

(** ** The neighbourhood window of [getSurroundingUsers] *)

(** X1. The window around position [p] holds the entries at the positions
    from [max(0, p - 3)] to [min(n, p + 4) - 1], in order: at most 7,
    none outside of the leaderboard, each with its place in the whole
    leaderboard as rank, and [is_current_user] on the entry at position
    [p] only. *)
Theorem surrounding_users_window (leaderboard : list Entry.t) (p : nat) :
  (p < length leaderboard)%nat →
  let start := (p - 3)%nat in
  let window := getSurroundingUsers leaderboard (Z.of_nat p) in
  length window = (Nat.min (length leaderboard) (p + 4) - start)%nat
  ∧ (1 ≤ length window ≤ 7)%nat
  ∧ (∀ k, window !! k
          = (λ e, {| Surrounding.rank := Z.of_nat (start + k) + 1;
                     Surrounding.tg_id := Entry.tg_id e;
                     Surrounding.name := Participant.name (Entry.user e);
                     Surrounding.score := Entry.score e;
                     Surrounding.photo_url :=
                       Participant.photo_url (Entry.user e);
                     Surrounding.is_current_user :=
                       bool_decide (start + k = p)%nat |})
            <$> (if decide (start + k ≤ p + 3)%nat
                 then leaderboard !! (start + k)%nat else None)).
Proof.
  intros Hp start window.
  assert (window
          = imap (λ index user,
                    Surrounding.mk (Z.of_nat start + Z.of_nat index + 1)
                      (Entry.tg_id user) (Participant.name (Entry.user user))
                      (Entry.score user)
                      (Participant.photo_url (Entry.user user))
                      (Z.of_nat start + Z.of_nat index =? Z.of_nat p))
                 (take (Nat.min (length leaderboard) (p + 4) - start)
                       (drop start leaderboard))) as Hw.
  { subst window. unfold getSurroundingUsers. cbn zeta.
    replace (Z.max 0 (Z.of_nat p - 3)) with (Z.of_nat start) by (subst start; lia).
    replace (Z.min (Z.of_nat (length leaderboard)) (Z.of_nat p + 3 + 1))
      with (Z.of_nat (Nat.min (length leaderboard) (p + 4))) by lia.
    by rewrite Array_slice_nat. }
  assert (length window = (Nat.min (length leaderboard) (p + 4) - start)%nat)
    as Hlen.
  { rewrite Hw, length_imap, length_take, length_drop. subst start. lia. }
  split; [done|]. split; [subst start; lia|].
  intros k. rewrite Hw, list_lookup_imap, lookup_take_drop.
  destruct (decide (k < Nat.min (length leaderboard) (p + 4) - start)%nat)
    as [Hk|Hk].
  - rewrite decide_True by lia.
    destruct (leaderboard !! (start + k)%nat) as [e|]; [|done]. simpl.
    do 2 f_equal; [lia|].
    destruct (Z.eqb_spec (Z.of_nat start + Z.of_nat k) (Z.of_nat p)).
    + by rewrite bool_decide_eq_true_2 by lia.
    + by rewrite bool_decide_eq_false_2 by lia.
  - case_decide; [|done].
    rewrite lookup_ge_None_2 by lia. done.
Qed.

(** The window on four entries around position 1. *)
Lemma surrounding_users_window_witness :
  let window :=
    getSurroundingUsers (leaderboard_of_scores [250; 120; 60; 30]) 1 in
  length window = 4%nat
  ∧ Surrounding.is_current_user <$> window = [false; true; false; false].
Proof.
  destruct (surrounding_users_window
              (leaderboard_of_scores [250; 120; 60; 30]) 1 ltac:(simpl; lia))
    as (Hlen & _ & _).
  split; [exact Hlen | reflexivity].
Defined.

(** ** The position locator on any leaderboard *)

(** X2. [locate_user] answers "not in the leaderboard" exactly when no entry
    has the user's id. Otherwise it reports the first entry with that id:
    its rank is the place of that entry, between 1 and the number of
    participants, its score is the score of that entry, the percentile
    lies between 0 and 100 and is 100 for the leader, and the window is
    the one around that place. *)
Theorem locate_user_cases (leaderboard : list Entry.t) (telegramId : Z)
    (type period : string) :
  match locate_user leaderboard telegramId type period with
  | NotInLeaderboard total =>
      total = Z.of_nat (length leaderboard)
      ∧ (telegramId ∉ Entry.tg_id <$> leaderboard)
  | Located position surrounding total type' period' =>
      total = Z.of_nat (length leaderboard) ∧ type' = type ∧ period' = period
      ∧ ∃ p e,
          leaderboard !! p = Some e
          ∧ Entry.tg_id e = telegramId
          ∧ (telegramId ∉ Entry.tg_id <$> take p leaderboard)
          ∧ Position.rank position = Z.of_nat p + 1
          ∧ 1 ≤ Position.rank position ≤ total
          ∧ Position.score position = Entry.score e
          ∧ 0 ≤ Position.percentile position ≤ 100
          ∧ (p = 0%nat → Position.percentile position = 100)
          ∧ surrounding = getSurroundingUsers leaderboard (Z.of_nat p)
  end.
Proof.
  unfold locate_user.
  destruct (Array_findIndex _ leaderboard) as [p|] eqn:E.
  - apply Array_findIndex_Some in E as (e & Hp & He%Z.eqb_eq & Hfirst).
    rewrite Hp. split_and!; [done..|]. exists p, e.
    pose proof (lookup_lt_Some _ _ _ Hp) as Hlt.
    cbn [Position.rank Position.score Position.percentile].
    split_and!; try done; try lia.
    + intros (x & Hx & Hin)%list_elem_of_fmap.
      apply elem_of_take in Hin as (j & Hj & Hjp).
      specialize (Hfirst j x Hjp Hj). simpl in Hfirst.
      apply Z.eqb_neq in Hfirst. congruence.
    + apply percentile_of_range. lia.
    + apply percentile_of_range. lia.
    + intros ->. apply percentile_of_leader. lia.
  - split; [done|]. apply Array_findIndex_None in E.
    intros (x & Hx & Hin)%list_elem_of_fmap.
    rewrite Forall_forall in E. specialize (E x Hin). simpl in E.
    apply Z.eqb_neq in E. congruence.
Qed.

(** ** Who is on a leaderboard *)

(** X3. The users of a leaderboard (before slicing) are exactly the approved
    users who have a record in the period: a user who is not approved is
    left out whatever the records, and no approved user with a record is
    missing. Every user is there once. *)
Theorem leaderboard_members (st : Store) (period type : string) (tgId : Z) :
  (tgId ∈ Participant.tg_id <$> full_leaderboard st period type
   ↔ (∃ u, u ∈ users st ∧ User.tg_id u = tgId
           ∧ User.status u = "approved")
     ∧ ∃ r, r ∈ select_progress st period ∧ Progress.tg_id r = tgId)
  ∧ NoDup (Participant.tg_id <$> full_leaderboard st period type).
Proof.
  split; [|apply sorted_leaderboard_NoDup].
  unfold full_leaderboard. set (rows := select_progress st period). split.
  - intros (p & -> & Hp)%list_elem_of_fmap.
    apply sorted_leaderboard_elem in Hp as (Hrec & _ & u & Hu & Hid).
    unfold approved_users in Hu. apply list_elem_of_filter in Hu as [[_ Hs] Hu].
    split; [by exists u|].
    destruct (records_of (Participant.tg_id p) rows) as [|r rs] eqn:E; [done|].
    exists r. assert (r ∈ records_of (Participant.tg_id p) rows) as Hr
      by (rewrite E; left).
    unfold records_of in Hr. by apply list_elem_of_filter in Hr as [? ?].
  - intros [(u & Hu & Hid & Hs) (r & Hr & Hrid)].
    assert (records_of tgId rows ≠ []) as Hne.
    { intros Hnil. assert (r ∈ records_of tgId rows) as Hin.
      { unfold records_of. by apply list_elem_of_filter. }
      rewrite Hnil in Hin. by apply elem_of_nil in Hin. }
    pose proof (fold_accumulate_get rows [] tgId) as Hget.
    destruct (records_of tgId rows) as [|r0 rs] eqn:E; [done|].
    apply obj_get_Some_elem in Hget.
    rewrite <- (Object_entries_perm (fold_left accumulate rows [])) in Hget.
    assert (u ∈ approved_users st rows) as Hu'.
    { unfold approved_users. apply list_elem_of_filter. split; [|done].
      split; [|done]. unfold unique_ids. rewrite elem_of_remove_dups.
      apply list_elem_of_fmap. exists r. by rewrite Hid. }
    destruct (Array_find_exists (λ u, User.tg_id u =? tgId) _ u Hu')
      as [u0 Hu0]; [by apply Z.eqb_eq|].
    rewrite sorted_leaderboard_eq.
    apply list_elem_of_fmap. eexists. split; [|apply Array_sort_elem].
    2: { apply list_elem_of_omap. eexists. split; [exact Hget|].
         unfold join_user. rewrite Hu0. reflexivity. }
    done.
Qed.

(** ** [getLeaderboard]: parameters, page and total *)

Lemma validateLeaderboardParams_cases period type limit offset :
  (validateLeaderboardParams period type limit offset = Ok tt
   ∧ period ∈ APP_CONSTANTS.TIME_PERIODS
   ∧ type ∈ APP_CONSTANTS.LEADERBOARD_TYPES
   ∧ (∃ n, parseInt limit = Int n ∧ 1 ≤ n ≤ 1000)
   ∧ (∃ m, parseInt offset = Int m ∧ 0 ≤ m))
  ∨ ((∃ message,
        validateLeaderboardParams period type limit offset
        = Err (BadRequest message))
     ∧ ¬ (period ∈ APP_CONSTANTS.TIME_PERIODS
          ∧ type ∈ APP_CONSTANTS.LEADERBOARD_TYPES
          ∧ (∃ n, parseInt limit = Int n ∧ 1 ≤ n ≤ 1000)
          ∧ (∃ m, parseInt offset = Int m ∧ 0 ≤ m))).
Proof.
  unfold validateLeaderboardParams. cbn zeta.
  destruct (bool_decide_reflect (period ∈ APP_CONSTANTS.TIME_PERIODS));
    cbn [negb throw_if mbind Result_bind];
    [|right; split; [eauto | tauto]].
  destruct (bool_decide_reflect (type ∈ APP_CONSTANTS.LEADERBOARD_TYPES));
    cbn [negb throw_if mbind Result_bind];
    [|right; split; [eauto | tauto]].
  destruct (parseInt limit) as [|n];
    cbn [throw_if mbind Result_bind];
    [right; split; [eauto | by intros (_ & _ & (? & ? & _) & _)]|].
  destruct (Z.ltb_spec n 1); cbn [orb throw_if mbind Result_bind];
    [right; split; [eauto | intros (_ & _ & (? & [= <-] & ?) & _); lia]|].
  destruct (Z.ltb_spec 1000 n); cbn [orb throw_if mbind Result_bind];
    [right; split; [eauto | intros (_ & _ & (? & [= <-] & ?) & _); lia]|].
  destruct (parseInt offset) as [|m];
    cbn [throw_if];
    [right; split; [eauto | by intros (_ & _ & _ & (? & ? & _))]|].
  destruct (Z.ltb_spec m 0); cbn [throw_if];
    [right; split; [eauto | intros (_ & _ & _ & (? & [= <-] & ?)); lia]|].
  left. split_and!; eauto with lia.
Qed.

(** The message of a refused request names the first parameter that is
    not accepted, in the order period, type, limit, offset. *)
Lemma validateLeaderboardParams_message period type limit offset message :
  validateLeaderboardParams period type limit offset
  = Err (BadRequest message) →
  ((period ∉ APP_CONSTANTS.TIME_PERIODS)
   ∧ message = "Invalid period. Must be one of: daily, weekly, monthly, all")
  ∨ (period ∈ APP_CONSTANTS.TIME_PERIODS
     ∧ (type ∉ APP_CONSTANTS.LEADERBOARD_TYPES)
     ∧ message
       = "Invalid type. Must be one of: overall, reading, distance, consistency")
  ∨ (period ∈ APP_CONSTANTS.TIME_PERIODS
     ∧ type ∈ APP_CONSTANTS.LEADERBOARD_TYPES
     ∧ ¬ (∃ n, parseInt limit = Int n ∧ 1 ≤ n ≤ 1000)
     ∧ message = "Limit must be between 1 and 1000")
  ∨ (period ∈ APP_CONSTANTS.TIME_PERIODS
     ∧ type ∈ APP_CONSTANTS.LEADERBOARD_TYPES
     ∧ (∃ n, parseInt limit = Int n ∧ 1 ≤ n ≤ 1000)
     ∧ ¬ (∃ m, parseInt offset = Int m ∧ 0 ≤ m)
     ∧ message = "Offset must be >= 0").
Proof.
  unfold validateLeaderboardParams. cbn zeta.
  destruct (bool_decide_reflect (period ∈ APP_CONSTANTS.TIME_PERIODS));
    cbn [negb throw_if mbind Result_bind];
    [|intros [= <-]; left; by split].
  destruct (bool_decide_reflect (type ∈ APP_CONSTANTS.LEADERBOARD_TYPES));
    cbn [negb throw_if mbind Result_bind];
    [|intros [= <-]; right; left; by split_and!].
  destruct (parseInt limit) as [|n];
    cbn [throw_if mbind Result_bind].
  { intros [= <-]. right; right; left.
    split_and!; [done|done| |done]. by intros (? & ? & _). }
  destruct (Z.ltb_spec n 1); cbn [orb throw_if mbind Result_bind].
  { intros [= <-]. right; right; left.
    split_and!; [done|done| |done]. intros (? & [= <-] & ?); lia. }
  destruct (Z.ltb_spec 1000 n); cbn [orb throw_if mbind Result_bind].
  { intros [= <-]. right; right; left.
    split_and!; [done|done| |done]. intros (? & [= <-] & ?); lia. }
  destruct (parseInt offset) as [|m]; cbn [throw_if].
  { intros [= <-]. right; right; right.
    split_and!; [done|done|eauto with lia| |done]. by intros (? & ? & _). }
  destruct (Z.ltb_spec m 0); cbn [throw_if]; [|done].
  intros [= <-]. right; right; right.
  split_and!; [done|done|eauto with lia| |done].
  intros (? & [= <-] & ?); lia.
Qed.

(** X4. A request is answered with a bad request exactly when its period
    or its type is not one of the allowed values, or [parseInt] of its
    limit is not an integer from 1 to 1000, or [parseInt] of its offset
    is not an integer from 0 on (parameters that are not sent count as
    all, overall, 100 and 0); this is decided before any query is made,
    so whatever the state of the store. The message names the first
    parameter that is not accepted and, for the period and the type, the
    allowed values. Valid parameters can only fail on the database. *)
Theorem getLeaderboard_bad_request (st : Store) (query : Query.t) :
  let period := default "all" (Query.period query) in
  let type := default "overall" (Query.type query) in
  let limit := default (JNum 100) (Query.limit query) in
  let offset := default (JNum 0) (Query.offset query) in
  ((∃ message, getLeaderboard st query = Err (BadRequest message))
   ↔ ¬ valid_leaderboard_query query)
  ∧ (valid_leaderboard_query query →
     (∃ response, getLeaderboard st query = Ok response)
     ∨ ∃ operation, getLeaderboard st query = Err (DatabaseError operation)
                    ∧ failing st operation = true)
  ∧ ∀ message, getLeaderboard st query = Err (BadRequest message) →
      ((period ∉ APP_CONSTANTS.TIME_PERIODS)
       ∧ message
         = "Invalid period. Must be one of: daily, weekly, monthly, all")
      ∨ (period ∈ APP_CONSTANTS.TIME_PERIODS
         ∧ (type ∉ APP_CONSTANTS.LEADERBOARD_TYPES)
         ∧ message
           = "Invalid type. Must be one of: overall, reading, distance, consistency")
      ∨ (period ∈ APP_CONSTANTS.TIME_PERIODS
         ∧ type ∈ APP_CONSTANTS.LEADERBOARD_TYPES
         ∧ ¬ (∃ n, parseInt limit = Int n ∧ 1 ≤ n ≤ 1000)
         ∧ message = "Limit must be between 1 and 1000")
      ∨ (period ∈ APP_CONSTANTS.TIME_PERIODS
         ∧ type ∈ APP_CONSTANTS.LEADERBOARD_TYPES
         ∧ (∃ n, parseInt limit = Int n ∧ 1 ≤ n ≤ 1000)
         ∧ ¬ (∃ m, parseInt offset = Int m ∧ 0 ≤ m)
         ∧ message = "Offset must be >= 0").
Proof.
  cbn zeta. unfold getLeaderboard, valid_leaderboard_query. cbn zeta.
  pose proof (validateLeaderboardParams_message
                (default "all" (Query.period query))
                (default "overall" (Query.type query))
                (default (JNum 100) (Query.limit query))
                (default (JNum 0) (Query.offset query))) as Hmessage.
  destruct (validateLeaderboardParams_cases
              (default "all" (Query.period query))
              (default "overall" (Query.type query))
              (default (JNum 100) (Query.limit query))
              (default (JNum 0) (Query.offset query)))
    as [(Hok & Hvalid) | ((message & Hbad) & Hinvalid)];
    [rewrite Hok in * | rewrite Hbad in *]; cbn [mbind Result_bind].
  - rewrite getLeaderboardData_eq. cbn zeta.
    destruct (failing st "SELECT_LEADERBOARD_DATA") eqn:E1;
      cbn [mbind Result_bind].
    { split_and!; [split; [by intros [? ?] | tauto] | eauto | done]. }
    destruct (failing st "SELECT_LEADERBOARD_USERS") eqn:E2;
      cbn [mbind Result_bind].
    { split_and!; [split; [by intros [? ?] | tauto] | eauto | done]. }
    split_and!; [split; [by intros [? ?] | tauto] | eauto | done].
  - split_and!; [split; [done | eauto] | tauto |].
    intros message' [= <-]. by apply Hmessage.
Qed.

(** The theorem on a request with limit 0 while every query fails, and
    on the limits 7abc and 5.9, which [parseInt] reads as 7 and 5. *)
Lemma getLeaderboard_bad_request_witness :
  (∃ message,
     getLeaderboard offline_store (Query.mk None None (Some (JStr "0")) None)
     = Err (BadRequest message))
  ∧ getLeaderboard offline_store (Query.mk None None (Some (JStr "0")) None)
    = Err (BadRequest "Limit must be between 1 and 1000")
  ∧ getLeaderboard offline_store
      (Query.mk (Some "yearly") None (Some (JStr "0")) None)
    = Err (BadRequest
             "Invalid period. Must be one of: daily, weekly, monthly, all")
  ∧ valid_leaderboard_query (Query.mk None None (Some (JStr "7abc")) None)
  ∧ valid_leaderboard_query (Query.mk None None (Some (JStr "5.9")) None).
Proof.
  split; [|split; [reflexivity|split; [reflexivity|split]]].
  - apply (getLeaderboard_bad_request offline_store
             (Query.mk None None (Some (JStr "0")) None)).
    intros (_ & _ & (limit & Hl & Hr) & _). vm_compute in Hl.
    injection Hl as <-. lia.
  - split_and!; [by apply (bool_decide_unpack _)..| |].
    + exists 7. split; [reflexivity | lia].
    + exists 0. split; [reflexivity | lia].
  - split_and!; [by apply (bool_decide_unpack _)..| |].
    + exists 5. split; [reflexivity | lia].
    + exists 0. split; [reflexivity | lia].
Defined.

Lemma full_leaderboard_length st period type :
  length (full_leaderboard st period type) = participants st period.
Proof.
  unfold participants, full_leaderboard.
  by rewrite !sorted_leaderboard_eq, !Array_sort_length.
Qed.

(** X5. [getTotalParticipants] never throws: it answers 0 when a query of
    the leaderboard fails, and otherwise the number of approved users
    with a record in the period, capped at 10000. *)
Theorem getTotalParticipants_value (st : Store) (period : string) :
  getTotalParticipants st period
  = if failing st "SELECT_LEADERBOARD_DATA"
       || failing st "SELECT_LEADERBOARD_USERS"
    then 0
    else Z.min 10000 (Z.of_nat (participants st period)).
Proof.
  unfold getTotalParticipants. rewrite getLeaderboardData_eq. cbn zeta.
  destruct (failing st "SELECT_LEADERBOARD_DATA"); [done|].
  destruct (failing st "SELECT_LEADERBOARD_USERS"); [done|].
  cbn [orb Options.period Options.type Options.limit default from_option id
       ToIntegerOrInfinity].
  rewrite with_rank_length, Array_slice_0_nonneg, length_take by lia.
  unfold participants. lia.
Qed.

(** X6. A page of [getLeaderboard] holds the first [limit] users of the
    sorted set, or all of them when there are fewer: its length is
    [min(limit, total_participants)], the entry at index [i] is the user
    at place [i] of the sorted set with rank [i + 1], and
    [total_participants] does not depend on the type, limit or offset
    asked for. *)
Theorem getLeaderboard_page (st : Store) (query : Query.t)
    (response : LeaderboardResponse.t) :
  getLeaderboard st query = Ok response →
  let period := default "all" (Query.period query) in
  let type := default "overall" (Query.type query) in
  let page := LeaderboardResponse.leaderboard response in
  ∃ limit,
    parseInt (default (JNum 100) (Query.limit query)) = Int limit
    ∧ 1 ≤ limit ≤ 1000
    ∧ LeaderboardResponse.total_participants response
      = Z.min 10000 (Z.of_nat (participants st period))
    ∧ Z.of_nat (length page)
      = Z.min limit (LeaderboardResponse.total_participants response)
    ∧ ∀ i e, page !! i = Some e →
        Formatted.rank e = Z.of_nat i + 1
        ∧ ∃ p, full_leaderboard st period type !! i = Some p
               ∧ Formatted.tg_id e = Participant.tg_id p
               ∧ Formatted.score e = Participant.get p (sortKey_of type).
Proof.
  intros H period type page. subst page. revert H.
  unfold getLeaderboard. cbn zeta. fold period type.
  destruct (validateLeaderboardParams_cases period type
              (default (JNum 100) (Query.limit query))
              (default (JNum 0) (Query.offset query)))
    as [(-> & _ & _ & (limit & Hlimit & Hrange) & _) | ((message & ->) & _)];
    cbn [mbind Result_bind]; [|done].
  rewrite getTotalParticipants_value, getLeaderboardData_eq. cbn zeta.
  destruct (failing st "SELECT_LEADERBOARD_DATA"); [done|].
  destruct (failing st "SELECT_LEADERBOARD_USERS"); [done|].
  cbn [mbind Result_bind mret Result_ret orb Options.period Options.type
       Options.limit default from_option id].
  rewrite Hlimit. cbn [ToIntegerOrInfinity].
  rewrite Array_slice_0_nonneg by lia.
  intros [= <-]. exists limit.
  cbn [LeaderboardResponse.total_participants LeaderboardResponse.leaderboard].
  split_and!; [done | lia | lia | done | |].
  - rewrite length_map, with_rank_length, length_take,
      full_leaderboard_length. lia.
  - intros i e. rewrite list_lookup_fmap, with_rank_lookup.
    destruct (take _ _ !! i) as [p|] eqn:Hp; [|done].
    intros [= <-]. split; [done|]. exists p.
    apply lookup_take_Some in Hp as [Hp _]. done.
Qed.

(** The theorem on the two users with limit 1. *)
Lemma getLeaderboard_page_witness :
  ∃ response,
    getLeaderboard two_users_store
      (Query.mk None (Some "reading") (Some (JStr "1")) None) = Ok response
    ∧ LeaderboardResponse.total_participants response = 2
    ∧ length (LeaderboardResponse.leaderboard response) = 1%nat.
Proof.
  eexists. split; [vm_compute; reflexivity|].
  destruct (getLeaderboard_page two_users_store
              (Query.mk None (Some "reading") (Some (JStr "1")) None) _
              ltac:(vm_compute; reflexivity))
    as (limit & Hlimit & _ & Htotal & Hlen & _).
  split; [exact Htotal|]. reflexivity.
Defined.

(** ** The periods of a leaderboard *)

Lemma iso_date_days_ago ms days :
  iso_date (ms - days * 24 * 60 * 60 * 1000) = iso_date ms - days.
Proof.
  unfold iso_date, MS_PER_DAY.
  replace (ms - days * 24 * 60 * 60 * 1000)
    with (ms + (- days) * (24 * 60 * 60 * 1000)) by lia.
  rewrite Z.div_add by lia. lia.
Qed.

Lemma participants_mono st period period' :
  (∀ r, r ∈ select_progress st period → r ∈ select_progress st period') →
  (participants st period ≤ participants st period')%nat.
Proof.
  intros Hsub. unfold participants.
  rewrite <- (length_map Participant.tg_id (full_leaderboard st period "overall")),
    <- (length_map Participant.tg_id (full_leaderboard st period' "overall")).
  apply submseteq_length, NoDup_submseteq.
  - apply (leaderboard_members st period "overall" 0).
  - intros tgId Hin.
    apply (proj1 (leaderboard_members st period "overall" tgId)) in Hin
      as [Hu (r & Hr & Hid)].
    apply (proj1 (leaderboard_members st period' "overall" tgId)).
    split; [done|]. exists r. split; [by apply Hsub | done].
Qed.

(** X7. The records of a period: those dated today or later for [daily],
    from 7 days before today on for [weekly], from 30 days before today
    on for [monthly], and all records for [all]. The periods are
    nested, and so are their leaderboards: a shorter period never has
    more participants. *)
Theorem period_windows (st : Store) :
  let today := iso_date (clock st) in
  (∀ r, r ∈ select_progress st "daily"
        ↔ r ∈ daily_progress st ∧ today ≤ Progress.date r)
  ∧ (∀ r, r ∈ select_progress st "weekly"
          ↔ r ∈ daily_progress st ∧ today - 7 ≤ Progress.date r)
  ∧ (∀ r, r ∈ select_progress st "monthly"
          ↔ r ∈ daily_progress st ∧ today - 30 ≤ Progress.date r)
  ∧ select_progress st "all" = daily_progress st
  ∧ (participants st "daily" ≤ participants st "weekly")%nat
  ∧ (participants st "weekly" ≤ participants st "monthly")%nat
  ∧ (participants st "monthly" ≤ participants st "all")%nat.
Proof.
  intros today.
  assert (Hd : ∀ r, r ∈ select_progress st "daily"
                    ↔ r ∈ daily_progress st ∧ today ≤ Progress.date r).
  { intros r. unfold select_progress, getDateFilter. cbn.
    rewrite list_elem_of_filter. tauto. }
  assert (Hw : ∀ r, r ∈ select_progress st "weekly"
                    ↔ r ∈ daily_progress st ∧ today - 7 ≤ Progress.date r).
  { intros r. unfold select_progress, getDateFilter. cbn.
    rewrite list_elem_of_filter, (iso_date_days_ago (clock st) 7). tauto. }
  assert (Hm : ∀ r, r ∈ select_progress st "monthly"
                    ↔ r ∈ daily_progress st ∧ today - 30 ≤ Progress.date r).
  { intros r. unfold select_progress, getDateFilter. cbn.
    rewrite list_elem_of_filter, (iso_date_days_ago (clock st) 30). tauto. }
  split_and!; [done.. | | |].
  - apply participants_mono. intros r. rewrite Hd, Hw. intros []; split; [done | lia].
  - apply participants_mono. intros r. rewrite Hw, Hm. intros []; split; [done | lia].
  - apply participants_mono. intros r. rewrite Hm. by intros [].
Qed.

(** ** Submissions and the record store *)

Lemma upsert_cons row r rows :
  upsert row (r :: rows)
  = if bool_decide (row_key r = row_key row) then row :: rows
    else r :: upsert row rows.
Proof.
  cbn [upsert]. unfold row_key.
  destruct (Z.eqb_spec (Progress.tg_id r) (Progress.tg_id row)) as [Ht|Ht];
    [destruct (Z.eqb_spec (Progress.date r) (Progress.date row)) as [Hd|Hd]|];
    cbn [andb].
  - by rewrite bool_decide_eq_true_2 by congruence.
  - by rewrite bool_decide_eq_false_2 by congruence.
  - by rewrite bool_decide_eq_false_2 by congruence.
Qed.

Lemma upsert_keys row rows :
  row_key <$> upsert row rows
  = if bool_decide (row_key row ∈ row_key <$> rows)
    then row_key <$> rows
    else (row_key <$> rows) ++ [row_key row].
Proof.
  induction rows as [|r rows IH].
  - by rewrite bool_decide_eq_false_2 by apply not_elem_of_nil.
  - rewrite upsert_cons, !fmap_cons.
    destruct (bool_decide_reflect (row_key r = row_key row)) as [Hk|Hk].
    + rewrite bool_decide_eq_true_2 by (rewrite Hk; left).
      by rewrite fmap_cons, Hk.
    + rewrite fmap_cons, IH.
      destruct (bool_decide_reflect (row_key row ∈ row_key <$> rows)).
      * by rewrite bool_decide_eq_true_2 by by right.
      * rewrite bool_decide_eq_false_2; [done|].
        rewrite not_elem_of_cons. split; [congruence | done].
Qed.

Lemma upsert_NoDup row rows :
  NoDup (row_key <$> rows) → NoDup (row_key <$> upsert row rows).
Proof.
  intros Hnd. rewrite upsert_keys. case_bool_decide; [done|].
  apply NoDup_app. split_and!; [done | | apply NoDup_singleton].
  intros k Hk ->%list_elem_of_singleton. done.
Qed.

Lemma upsert_other row rows :
  filter (λ r, row_key r ≠ row_key row) (upsert row rows)
  = filter (λ r, row_key r ≠ row_key row) rows.
Proof.
  induction rows as [|r rows IH].
  - cbn [upsert]. by rewrite filter_cons_False by (intros H; by apply H).
  - rewrite upsert_cons.
    destruct (bool_decide_reflect (row_key r = row_key row)) as [Hk|Hk].
    + rewrite !filter_cons_False; [done | |]; intros H; by apply H.
    + by rewrite !(filter_cons_True _ r), IH.
Qed.

Lemma upsert_same row rows :
  NoDup (row_key <$> rows) →
  filter (λ r, row_key r = row_key row) (upsert row rows) = [row].
Proof.
  assert (Hnone : ∀ l : list Progress.t,
            row_key row ∉ row_key <$> l →
            filter (λ r, row_key r = row_key row) l = []).
  { induction l as [|r l IHl]; [done|].
    rewrite fmap_cons, not_elem_of_cons. intros [Hr Hl].
    rewrite filter_cons_False by congruence. by apply IHl. }
  induction rows as [|r rows IH].
  - intros _. cbn [upsert]. by rewrite filter_cons_True.
  - rewrite fmap_cons. intros [Hr Hnd]%NoDup_cons. rewrite upsert_cons.
    destruct (bool_decide_reflect (row_key r = row_key row)) as [Hk|Hk].
    + rewrite filter_cons_True by done. f_equal. apply Hnone. by rewrite <- Hk.
    + rewrite filter_cons_False by done. by apply IH.
Qed.

Lemma upsert_length row rows :
  length (upsert row rows)
  = if bool_decide (row_key row ∈ row_key <$> rows)
    then length rows else S (length rows).
Proof.
  rewrite <- (length_map row_key), upsert_keys.
  case_bool_decide; by rewrite ?length_app, length_map, ?Nat.add_1_r.
Qed.

Lemma JUndefined_dec (v : JsValue) : {v = JUndefined} + {v ≠ JUndefined}.
Proof. destruct v; (by left) || (by right). Qed.

(** What [validateSubmissionData] has checked when it returns. *)
Lemma validateSubmissionData_Ok tasks taskInputs pagesRead distanceKm :
  validateSubmissionData tasks taskInputs pagesRead distanceKm = Ok tt →
  is_object tasks = true
  ∧ is_object taskInputs = true
  ∧ (pagesRead = JUndefined
     ∨ ∃ pages, parseInt pagesRead = Int pages ∧ 0 ≤ pages ≤ 1000)
  ∧ (distanceKm = JUndefined
     ∨ ∃ distance, parseFloat distanceKm = Some distance
                   ∧ (0 <= distance)%Q ∧ (distance <= 100)%Q).
Proof.
  unfold validateSubmissionData. cbn zeta.
  destruct tasks; cbn [typeof String.eqb Ascii.eqb Bool.eqb negb orb throw_if
                       mbind Result_bind]; try done.
  cbn [foldr]. do 8 step_throw.
  destruct taskInputs; cbn [typeof String.eqb Ascii.eqb Bool.eqb negb orb
                            throw_if mbind Result_bind]; try done.
  intros H. split; [done|]. split; [done|].
  assert (Hp : pagesRead = JUndefined
               ∨ ∃ pages, parseInt pagesRead = Int pages ∧ 0 ≤ pages ≤ 1000).
  { destruct (JUndefined_dec pagesRead) as [|Hne]; [by left|]. right.
    destruct (parseInt pagesRead) as [|pages] eqn:E.
    - by destruct pagesRead.
    - exists pages. split; [done|].
      unfold APP_CONSTANTS.MAX_PAGES_READ in H.
      destruct (Z.ltb_spec pages 0), (Z.ltb_spec 1000 pages);
        try lia; by destruct pagesRead. }
  split; [done|].
  assert (Hrest : match distanceKm with
                  | JUndefined => Ok tt
                  | _ =>
                      throw_if
                        match parseFloat distanceKm with
                        | Some d =>
                            negb (Qle_bool 0 d)
                            || negb (Qle_bool d (inject_Z APP_CONSTANTS.MAX_DISTANCE))
                        | None => true
                        end (BadRequest "Distance must be between 0 and 100 km")
                  end = Ok tt).
  { revert H. destruct pagesRead; try done;
      match goal with
      | |- context [throw_if ?c _] =>
          destruct c; cbn [throw_if mbind Result_bind]; done
      end. }
  clear H. destruct (JUndefined_dec distanceKm) as [|Hne]; [by left|].
  right. destruct (parseFloat distanceKm) as [d|] eqn:E.
  - exists d. split; [done|].
    destruct (Qle_bool 0 d) eqn:E0, (Qle_bool d (inject_Z APP_CONSTANTS.MAX_DISTANCE)) eqn:E1;
      try (by destruct distanceKm).
    split; by apply Qle_bool_iff.
  - by destruct distanceKm.
Qed.

Lemma getUserByTelegramId_Ok st tgId user :
  getUserByTelegramId st tgId = Ok user →
  ∃ u, user = Some u ∧ User.tg_id u = tgId
       ∧ filter (λ u, User.tg_id u = tgId) (users st) = [u]
       ∧ failing st "SELECT_USER" = false.
Proof.
  unfold getUserByTelegramId, executeQuery.
  destruct (failing st "SELECT_USER"); [done|].
  destruct (filter _ (users st)) as [|u [|]] eqn:E; try done.
  cbn. intros [= <-]. exists u. split_and!; try done.
  assert (u ∈ filter (λ u, User.tg_id u = tgId) (users st)) as Hin
    by (rewrite E; left).
  by apply list_elem_of_filter in Hin as [? _].
Qed.

(** A successful submission, step by step. *)
Lemma submitDailyProgress_inv st body response st' :
  submitDailyProgress st body = Ok (response, st') →
  ∃ telegramId user,
    parseInt (Body.tg_id body) = Int telegramId
    ∧ 0 < telegramId
    ∧ getUserByTelegramId st telegramId = Ok (Some user)
    ∧ User.status user = "approved"
    ∧ validateSubmissionData
        (default_to (JObj []) (Body.tasks body))
        (default_to (JObj []) (Body.task_inputs body))
        (default_to (JNum 0) (Body.pages_read body))
        (default_to (JNum 0) (Body.distance_km body)) = Ok tt
    ∧ failing st "UPSERT_DAILY_PROGRESS" = false
    ∧ st' = mkStore (users st)
                    (upsert (saved_record st body telegramId) (daily_progress st))
                    (clock st) (failing st)
    ∧ response
      = submission_answer st body
          (checkForAchievements st' telegramId (saved_record st body telegramId)).
Proof.
  unfold submitDailyProgress. cbn zeta.
  destruct (parseInt (Body.tg_id body)) as [|telegramId]; [done|].
  destruct (Z.leb_spec telegramId 0); cbn [throw_if mbind Result_bind];
    [done|].
  destruct (getUserByTelegramId st _) as [[user|]|] eqn:Eu;
    cbn [mbind Result_bind]; [|done..].
  destruct (String.eqb_spec (User.status user) APP_CONSTANTS.USER_STATUS_APPROVED)
    as [Hs|]; cbn [negb throw_if mbind Result_bind]; [|done].
  destruct (validateSubmissionData _ _ _ _) as [[]|];
    cbn [mbind Result_bind]; [|done].
  unfold submitDailyProgress_service, executeQuery.
  destruct (failing st "UPSERT_DAILY_PROGRESS"); [done|].
  cbn. intros [= <- <-]. exists telegramId, user. split_and!; done.
Qed.

Lemma saved_record_well_formed st body telegramId :
  0 < telegramId →
  validateSubmissionData
    (default_to (JObj []) (Body.tasks body))
    (default_to (JObj []) (Body.task_inputs body))
    (default_to (JNum 0) (Body.pages_read body))
    (default_to (JNum 0) (Body.distance_km body)) = Ok tt →
  well_formed_record (saved_record st body telegramId).
Proof.
  intros Hpos (Htasks & _ & Hp & Hd)%validateSubmissionData_Ok.
  unfold well_formed_record, saved_record.
  cbn [Progress.pages_read Progress.distance_km Progress.completed_count
       Progress.tasks Progress.tg_id].
  split_and!; [| | |done].
  - destruct Hp as [Hp | (pages & -> & Hr)]; [by destruct (Body.pages_read body)|].
    eauto.
  - destruct Hd as [Hd | (d & -> & Hr)]; [by destruct (Body.distance_km body)|].
    eauto.
  - by destruct (default_to (JObj []) (Body.tasks body)).
Qed.

Lemma Forall_upsert (P : Progress.t → Prop) row rows :
  P row → Forall P rows → Forall P (upsert row rows).
Proof.
  intros Hrow. induction 1 as [|r rows Hr Hrows IH]; cbn [upsert].
  - by constructor.
  - destruct (_ && _); by constructor.
Qed.

(** X8. Submissions keep the record store in order: when it holds one
    well-formed record per user and day, it still does after a
    successful submission. *)
Theorem submission_keeps_store_invariant (st st' : Store) (body : Body.t)
    (response : Submission.t) :
  unique_keys st →
  Forall well_formed_record (daily_progress st) →
  submitDailyProgress st body = Ok (response, st') →
  unique_keys st' ∧ Forall well_formed_record (daily_progress st').
Proof.
  intros Hkeys Hwf (tg & u & _ & Hpos & _ & _ & Hv & _ & -> & _)%submitDailyProgress_inv.
  split.
  - by apply upsert_NoDup.
  - apply Forall_upsert; [|done]. by apply saved_record_well_formed.
Qed.

Lemma diary_store_unique_keys : unique_keys diary_store.
Proof.
  unfold unique_keys. apply (bool_decide_unpack _). vm_compute. exact I.
Qed.

Lemma submission_keeps_store_invariant_witness :
  unique_keys diary_store
  ∧ Forall well_formed_record (daily_progress diary_store)
  ∧ ∃ response st',
      submitDailyProgress diary_store resubmission_body = Ok (response, st')
      ∧ unique_keys st'
      ∧ Forall well_formed_record (daily_progress st').
Proof.
  pose proof diary_store_unique_keys as Hkeys.
  assert (Hwf : Forall well_formed_record (daily_progress diary_store)).
  { repeat constructor; cbn; try lia; try done;
      eexists; (split; [reflexivity|]); (lia || done). }
  split; [exact Hkeys|]. split; [exact Hwf|].
  destruct (submitDailyProgress diary_store resubmission_body)
    as [[response st']|e] eqn:E; [|vm_compute in E; discriminate E].
  exists response, st'. split; [reflexivity|].
  exact (submission_keeps_store_invariant diary_store st' resubmission_body
           response Hkeys Hwf E).
Defined.

Lemma filter_key_eq (tgId day : Z) (rows : list Progress.t) :
  filter (λ r, Progress.tg_id r = tgId ∧ Progress.date r = day) rows
  = filter (λ r, row_key r = (tgId, day)) rows.
Proof.
  apply list_filter_iff. intros r. unfold row_key. split.
  - by intros [-> ->].
  - by intros [= -> ->].
Qed.

Lemma saved_record_key st body telegramId :
  row_key (saved_record st body telegramId)
  = (telegramId, submission_day st body).
Proof. done. Qed.

(** X9. A submission replaces the record of its user and day, or adds it
    when there was none: afterwards the store holds exactly one record
    for that user and day, it carries the answer's count and time, and
    the number of records has grown by one for a new day only. *)
Theorem submission_saves_one_record (st st' : Store) (body : Body.t)
    (response : Submission.t) (telegramId : Z) :
  unique_keys st →
  submitDailyProgress st body = Ok (response, st') →
  parseInt (Body.tg_id body) = Int telegramId →
  (∃ saved,
     filter (λ r, Progress.tg_id r = telegramId
                  ∧ Progress.date r = submission_day st body)
            (daily_progress st') = [saved]
     ∧ Progress.completed_count saved = Some (Submission.total_points response)
     ∧ Progress.pages_read saved
       = Some (TodayData.pages_read (Submission.today_data response))
     ∧ Progress.distance_km saved
       = Some (TodayData.distance_km (Submission.today_data response))
     ∧ Progress.submission_time saved = Submission.submission_time response)
  ∧ length (daily_progress st')
    = if bool_decide ((telegramId, submission_day st body)
                      ∈ row_key <$> daily_progress st)
      then length (daily_progress st)
      else S (length (daily_progress st)).
Proof.
  intros Hkeys (tg & u & Htg & _ & _ & _ & _ & _ & -> & ->)%submitDailyProgress_inv
    Hid.
  rewrite Hid in Htg. injection Htg as <-.
  cbn [daily_progress]. split.
  - exists (saved_record st body telegramId).
    rewrite filter_key_eq, <- saved_record_key.
    rewrite upsert_same by done. done.
  - by rewrite upsert_length, saved_record_key.
Qed.

Lemma submission_saves_one_record_witness :
  ∃ response st',
    submitDailyProgress diary_store resubmission_body = Ok (response, st')
    ∧ length (daily_progress st') = 2%nat
    ∧ ∃ saved,
        filter (λ r, Progress.tg_id r = 1 ∧ Progress.date r = 19723)
               (daily_progress st') = [saved]
        ∧ Progress.completed_count saved = Some 1.
Proof.
  pose proof diary_store_unique_keys as Hkeys.
  destruct (submitDailyProgress diary_store resubmission_body)
    as [[response st']|e] eqn:E; [|vm_compute in E; discriminate E].
  exists response, st'. split; [reflexivity|].
  destruct (submission_saves_one_record diary_store st' resubmission_body
              response 1 Hkeys E eq_refl)
    as [(saved & Hsaved & Hcount & _) Hlen].
  split; [exact Hlen|].
  exists saved. split; [exact Hsaved|].
  rewrite Hcount. f_equal.
  assert (Hr : Ok (response, st')
               = submitDailyProgress diary_store resubmission_body)
    by (symmetry; exact E).
  vm_compute in Hr. by injection Hr as -> _.
Defined.

Lemma upsert_filter_other_user row rows (other : Z) :
  other ≠ Progress.tg_id row →
  filter (λ r, Progress.tg_id r = other) (upsert row rows)
  = filter (λ r, Progress.tg_id r = other) rows.
Proof.
  intros Hne. induction rows as [|r rows IH].
  - cbn [upsert]. by rewrite filter_cons_False by done.
  - rewrite upsert_cons.
    destruct (bool_decide_reflect (row_key r = row_key row)) as [Hk|Hk].
    + injection Hk as Ht _.
      by rewrite !filter_cons_False by congruence.
    + destruct (decide (Progress.tg_id r = other)).
      * by rewrite !(filter_cons_True _ r), IH.
      * by rewrite !(filter_cons_False _ r), IH.
Qed.

(** X10. A submission touches nothing besides the record of its user and
    day: the users, the clock and every other record stay as they were,
    in their order, and the all-time totals of every other user are
    what they were. *)
Theorem submission_leaves_the_rest (st st' : Store) (body : Body.t)
    (response : Submission.t) (telegramId : Z) :
  submitDailyProgress st body = Ok (response, st') →
  parseInt (Body.tg_id body) = Int telegramId →
  users st' = users st
  ∧ clock st' = clock st
  ∧ filter (λ r, row_key r ≠ (telegramId, submission_day st body))
           (daily_progress st')
    = filter (λ r, row_key r ≠ (telegramId, submission_day st body))
             (daily_progress st)
  ∧ ∀ other, other ≠ telegramId →
      getUserAllTimeStats st' other = getUserAllTimeStats st other
      ∧ getUserByTelegramId st' other = getUserByTelegramId st other.
Proof.
  intros (tg & u & Htg & _ & _ & _ & _ & _ & -> & _)%submitDailyProgress_inv Hid.
  rewrite Hid in Htg. injection Htg as <-.
  cbn [users clock daily_progress]. split_and!; [done | done | |].
  - rewrite <- saved_record_key. apply upsert_other.
  - intros other Hne. split; [|done].
    unfold getUserAllTimeStats, executeQuery. cbn [failing daily_progress].
    by rewrite upsert_filter_other_user.
Qed.

Lemma submission_leaves_the_rest_witness :
  ∃ response st',
    submitDailyProgress diary_store resubmission_body = Ok (response, st')
    ∧ users st' = users diary_store
    ∧ getUserAllTimeStats st' 2 = getUserAllTimeStats diary_store 2.
Proof.
  destruct (submitDailyProgress diary_store resubmission_body)
    as [[response st']|e] eqn:E; [|vm_compute in E; discriminate E].
  exists response, st'. split; [reflexivity|].
  destruct (submission_leaves_the_rest diary_store st' resubmission_body
              response 1 E eq_refl) as (Hu & _ & _ & Hother).
  split; [exact Hu|]. apply (Hother 2). discriminate.
Defined.

(** ** Reading a submitted day back *)

(** X11. What a user has submitted for a day is what [getDailyTasks] shows
    for that day afterwards: the day counts as submitted, with the task
    map, the inputs, the count, the pages, the distance and the time of
    the submission. *)
Theorem submitted_day_reads_back (st st' : Store) (body : Body.t)
    (response : Submission.t) :
  unique_keys st →
  failing st "SELECT_DAILY_PROGRESS" = false →
  submitDailyProgress st body = Ok (response, st') →
  ∃ day,
    getDailyTasks st' (Body.tg_id body) (Date (submission_day st body)) = Ok day
    ∧ DailyTasks.date day = submission_day st body
    ∧ DailyTasks.is_submitted_today day = true
    ∧ DailyTasks.tasks day = fields_of (Body.tasks body)
    ∧ DailyTasks.task_inputs day = fields_of (Body.task_inputs body)
    ∧ DailyTasks.completed_count day = Submission.total_points response
    ∧ DailyTasks.pages_read day
      = TodayData.pages_read (Submission.today_data response)
    ∧ DailyTasks.distance_km day
      = TodayData.distance_km (Submission.today_data response)
    ∧ DailyTasks.submission_time day
      = Some (Submission.submission_time response).
Proof.
  intros Hkeys Hread
    (tg & u & Htg & Hpos & Hu & Hs & _ & _ & -> & ->)%submitDailyProgress_inv.
  unfold getDailyTasks. cbn zeta. rewrite Htg.
  destruct (Z.leb_spec tg 0) as [|_]; [lia|].
  cbn [throw_if mbind Result_bind ToIntegerOrInfinity].
  change (getUserByTelegramId (mkStore _ _ _ _) tg)
    with (getUserByTelegramId st tg).
  rewrite Hu. cbn [mbind Result_bind]. rewrite Hs.
  cbn [String.eqb APP_CONSTANTS.USER_STATUS_APPROVED].
  rewrite ?String.eqb_refl. cbn [negb throw_if mbind Result_bind].
  unfold getDailyProgress, executeQuery.
  cbn [failing daily_progress default from_option id]. rewrite Hread.
  rewrite filter_key_eq, <- (saved_record_key st body tg).
  rewrite upsert_same by done.
  cbn [single mbind Result_bind mret Result_ret].
  eexists. split; [reflexivity|].
  cbn. split_and!; try done.
  - by destruct (Body.tasks body).
  - by destruct (Body.task_inputs body).
Qed.

Lemma submitted_day_reads_back_witness :
  ∃ response st' day,
    submitDailyProgress diary_store resubmission_body = Ok (response, st')
    ∧ getDailyTasks st' (JStr "1") (Date 19723) = Ok day
    ∧ DailyTasks.is_submitted_today day = true
    ∧ DailyTasks.tasks day = [("1", JBool true); ("2", JBool false)].
Proof.
  destruct (submitDailyProgress diary_store resubmission_body)
    as [[response st']|e] eqn:E; [|vm_compute in E; discriminate E].
  destruct (submitted_day_reads_back diary_store st' resubmission_body
              response diary_store_unique_keys eq_refl E)
    as (day & Hday & _ & Hsub & Htasks & _).
  exists response, st', day. split; [reflexivity|].
  split; [exact Hday|]. split; [exact Hsub | exact Htasks].
Defined.

(** ** A first submission and the totals *)

Lemma upsert_new row rows :
  row_key row ∉ row_key <$> rows → upsert row rows = rows ++ [row].
Proof.
  induction rows as [|r rows IH]; [done|].
  rewrite fmap_cons, not_elem_of_cons. intros [Hr Hrows].
  rewrite upsert_cons, bool_decide_eq_false_2 by congruence.
  by rewrite IH.
Qed.

(** The all-time totals of a user after a record for a new day is
    saved. *)
Lemma getUserAllTimeStats_new_record (st : Store) (row : Progress.t)
    (before : AllTimeStats.t) :
  row_key row ∉ row_key <$> daily_progress st →
  getUserAllTimeStats st (Progress.tg_id row) = Ok before →
  getUserAllTimeStats
    (mkStore (users st) (upsert row (daily_progress st)) (clock st) (failing st))
    (Progress.tg_id row)
  = Ok {|
      AllTimeStats.total_points :=
        AllTimeStats.total_points before + or_zero (Progress.completed_count row);
      AllTimeStats.total_pages :=
        AllTimeStats.total_pages before + or_zero (Progress.pages_read row);
      AllTimeStats.total_distance :=
        fadd (AllTimeStats.total_distance before)
             (or_zeroQ (Progress.distance_km row));
      AllTimeStats.total_days := AllTimeStats.total_days before + 1
    |}.
Proof.
  intros Hnew. unfold getUserAllTimeStats, executeQuery.
  cbn [failing daily_progress].
  destruct (failing st "SELECT_USER_ALL_STATS"); [done|].
  cbn [mbind Result_bind mret Result_ret]. intros [= <-].
  rewrite upsert_new by done.
  rewrite filter_app, filter_cons_True, filter_nil by done.
  rewrite !fold_left_app, length_app. cbn [fold_left length].
  f_equal. f_equal. cbn [AllTimeStats.total_days]. lia.
Qed.



(** ** Badges and achievement scores *)

Lemma calculateAchievementScore_app l1 l2 :
  calculateAchievementScore (l1 ++ l2)
  = calculateAchievementScore l1 + calculateAchievementScore l2.
Proof.
  unfold calculateAchievementScore.
  rewrite !(fold_left_Zsum (λ a, rarity_score (Achievement.rarity a))).
  rewrite map_app. induction l1 as [|a l1 IH]; cbn [map app Zsum] in *; lia.
Qed.

Ltac qle_cases :=
  repeat match goal with
         | |- context [Qle_bool ?a ?b] =>
             let E := fresh "E" in
             destruct (Qle_bool a b) eqn:E;
             [apply Qle_bool_iff in E
             |apply not_true_iff_false in E; rewrite Qle_bool_iff in E]
         end.

Ltac leb_cases :=
  repeat match goal with
         | |- context [Z.leb ?a ?b] => destruct (Z.leb_spec a b)
         end.

Ltac badge_facts :=
  first [ lia | exfalso; lra
        | split; [vm_compute; discriminate | cbn [length]; lia]
        | split; [cbn [length]; lia | split; vm_compute; discriminate] ].

(** One category: at most one badge, worth 25 to 100 points. *)
Lemma category_badges_range (stats : UserStats.t) (badges : list Achievement.t) :
  badges ∈ [points_badges stats; reading_badges stats;
            fitness_badges stats; consistency_badges stats] →
  (length badges ≤ 1)%nat
  ∧ 25 * Z.of_nat (length badges) ≤ calculateAchievementScore badges
    ≤ 100 * Z.of_nat (length badges).
Proof.
  rewrite !elem_of_cons, elem_of_nil.
  intros [-> | [-> | [-> | [-> | []]]]];
    unfold points_badges, reading_badges, fitness_badges, consistency_badges;
    leb_cases; qle_cases; badge_facts.
Qed.

Lemma points_badges_range (stats : UserStats.t) :
  calculateAchievementScore (points_badges stats) ≤ 50.
Proof.
  unfold points_badges. leb_cases; vm_compute; discriminate.
Qed.

(** One category: more of its statistic gives no fewer badges and no
    lower score. *)
Lemma category_badges_mono (stats stats' : UserStats.t) :
  no_less_active stats stats' →
  Forall2 (λ badges badges',
             calculateAchievementScore badges ≤ calculateAchievementScore badges'
             ∧ (length badges ≤ length badges')%nat)
    [points_badges stats; reading_badges stats;
     fitness_badges stats; consistency_badges stats]
    [points_badges stats'; reading_badges stats';
     fitness_badges stats'; consistency_badges stats'].
Proof.
  intros (Hp & Hr & Hf & Hd).
  constructor; [|constructor; [|constructor; [|constructor; [|constructor]]]];
    unfold points_badges, reading_badges, fitness_badges, consistency_badges;
    leb_cases; qle_cases; badge_facts.
Qed.

(** X13. The achievement score is bounded by the number of badges: there are
    at most four badges, one per category; each is worth 25 to 100
    points and the one for points 50 at most, so that no score exceeds
    350. *)
Theorem achievement_score_bounds (stats : UserStats.t) :
  0 ≤ badge_count stats ≤ 4
  ∧ 25 * badge_count stats ≤ badge_score stats ≤ 100 * badge_count stats
  ∧ badge_score stats ≤ 350.
Proof.
  unfold badge_count, badge_score.
  rewrite calculateUserAchievements_eq, !calculateAchievementScore_app,
    !length_app.
  pose proof (category_badges_range stats (points_badges stats)) as Hp.
  pose proof (category_badges_range stats (reading_badges stats)) as Hr.
  pose proof (category_badges_range stats (fitness_badges stats)) as Hf.
  pose proof (category_badges_range stats (consistency_badges stats)) as Hd.
  pose proof (points_badges_range stats) as Hp50.
  rewrite !elem_of_cons in Hp, Hr, Hf, Hd.
  destruct Hp as [Hp1 Hp2]; [tauto|]. destruct Hr as [Hr1 Hr2]; [tauto|].
  destruct Hf as [Hf1 Hf2]; [tauto|]. destruct Hd as [Hd1 Hd2]; [tauto|].
  lia.
Qed.

(** X14. A user with no less of each total has no fewer badges and no lower
    achievement score. *)
Theorem achievement_score_monotone (stats stats' : UserStats.t) :
  no_less_active stats stats' →
  badge_score stats ≤ badge_score stats'
  ∧ badge_count stats ≤ badge_count stats'.
Proof.
  intros H%category_badges_mono. unfold badge_count, badge_score.
  rewrite !calculateUserAchievements_eq, !calculateAchievementScore_app,
    !length_app.
  apply Forall2_cons in H as [[Hp1 Hp2] H].
  apply Forall2_cons in H as [[Hr1 Hr2] H].
  apply Forall2_cons in H as [[Hf1 Hf2] H].
  apply Forall2_cons in H as [[Hd1 Hd2] _].
  lia.
Qed.

Lemma achievement_score_monotone_witness :
  badge_score (UserStats.mk 120 0 0%Q 8) ≤ badge_score (UserStats.mk 500 100 0%Q 8)
  ∧ badge_count (UserStats.mk 120 0 0%Q 8) ≤ badge_count (UserStats.mk 500 100 0%Q 8).
Proof.
  apply (achievement_score_monotone (UserStats.mk 120 0 0%Q 8)
           (UserStats.mk 500 100 0%Q 8)).
  unfold no_less_active. cbn. split_and!; try lia. apply Qle_refl.
Defined.

(** ** The order of the achievement leaderboard *)

Lemma StronglySorted_take {A} (R : A → A → Prop) (n : nat) (l : list A) :
  StronglySorted R l → StronglySorted R (take n l).
Proof.
  intros H. rewrite <- (take_drop n l) in H.
  by apply StronglySorted_app_1_l in H.
Qed.

Lemma achievers_sorted (achievers : list Achiever.t) :
  StronglySorted
    (λ a b, Achiever.achievement_score b ≤ Achiever.achievement_score a)
    (Array_sort (λ a b, inject_Z (Achiever.achievement_score b
                                  - Achiever.achievement_score a))
                achievers).
Proof.
  apply Array_sort_sorted.
  - intros x y H. apply Qle_bool_iff in H.
    change 0%Q with (inject_Z 0) in H. rewrite <- Zle_Qle in H. lia.
  - intros x y H. apply not_true_iff_false in H.
    rewrite Qle_bool_iff in H.
    change 0%Q with (inject_Z 0) in H. rewrite <- Zle_Qle in H. lia.
  - intros x y z ??. lia.
Qed.

(** X15. The achievement leaderboard lists users of the candidate pool,
    each once, by achievement score, highest first, with the ranks 1,
    2, 3, ...; it has [limit] entries unless the pool is smaller; every
    entry shows the name, the score and the number of the badges that
    the totals of its user earn, and the first three of these badges;
    and no user of the pool who is left out has a higher score than a
    listed one. *)
Theorem achievement_leaderboard_order (st : Store) (limit : option JsValue)
    (L : Z) (response : AchievementResponse.t) :
  parseInt (default (JNum 50) limit) = Int L →
  0 ≤ L →
  getAchievementLeaderboard st limit = Ok response →
  let listing := AchievementResponse.achievement_leaderboard response in
  let pool := candidate_pool st L in
  StronglySorted (λ score score', score' ≤ score)
                 (TopAchiever.achievement_score <$> listing)
  ∧ (∀ i e, listing !! i = Some e → TopAchiever.rank e = Z.of_nat i + 1)
  ∧ Z.of_nat (length listing)
    = Z.min L (AchievementResponse.total_participants response)
  ∧ NoDup (TopAchiever.tg_id <$> listing)
  ∧ Forall (λ e,
      ∃ p, p ∈ pool
           ∧ TopAchiever.tg_id e = Participant.tg_id p
           ∧ TopAchiever.name e = Participant.name p
           ∧ TopAchiever.achievement_score e = badge_score (participant_stats p)
           ∧ TopAchiever.achievement_count e = badge_count (participant_stats p)
           ∧ TopAchiever.top_achievements e
             = take 3 (calculateUserAchievements (participant_stats p)))
      listing
  ∧ ∀ p e, p ∈ pool →
           Participant.tg_id p ∉ TopAchiever.tg_id <$> listing →
           e ∈ listing →
           badge_score (participant_stats p) ≤ TopAchiever.achievement_score e.
Proof.
  intros HL HL0. unfold getAchievementLeaderboard. cbn zeta.
  rewrite HL, getLeaderboardData_eq. cbn zeta.
  destruct (failing st "SELECT_LEADERBOARD_DATA"); [done|].
  destruct (failing st "SELECT_LEADERBOARD_USERS"); [done|].
  cbn [mbind Result_bind mret Result_ret Options.period Options.type
       Options.limit default from_option id mul ToIntegerOrInfinity].
  intros [= <-].
  cbn [AchievementResponse.achievement_leaderboard
       AchievementResponse.total_participants].
  rewrite (Array_slice_0_nonneg (full_leaderboard st "all" "overall")) by lia.
  replace (L * 2) with (2 * L) by lia. fold (candidate_pool st L).
  set (pool := candidate_pool st L).
  set (entries := with_rank (sortKey_of "overall") pool).
  rewrite Array_slice_0_nonneg by done.
  match goal with
  | |- context [Array_sort ?cmp (map ?g entries)] =>
      pose proof (achievers_sorted (map g entries)) as Hsorted;
      pose proof (Array_sort_perm cmp (map g entries)) as Hperm;
      set (achiever := g) in *;
      set (sorted := Array_sort cmp (map achiever entries)) in *
  end.
  assert (Hpool : NoDup (Participant.tg_id <$> pool)).
  { unfold pool, candidate_pool. rewrite fmap_take.
    eapply sublist_NoDup; [apply sorted_leaderboard_NoDup | apply sublist_take]. }
  assert (Hids : (Entry.tg_id ∘ Achiever.user) <$> sorted
                 ≡ₚ Participant.tg_id <$> pool).
  { rewrite Hperm. change (map achiever entries) with (achiever <$> entries).
    rewrite <- list_fmap_compose.
    pose proof (with_rank_users (sortKey_of "overall") pool) as Husers.
    fold entries in Husers. rewrite <- Husers.
    by rewrite <- list_fmap_compose. }
  assert (Hfrom : ∀ a, a ∈ sorted →
            ∃ u, u ∈ entries ∧ a = achiever u ∧ Entry.user u ∈ pool).
  { intros a Ha. rewrite Hperm in Ha.
    apply list_elem_of_fmap in Ha as (u & -> & Hu).
    exists u. split; [done|]. split; [done|].
    by apply with_rank_elem in Hu as [? _]. }
  match goal with
  | |- context [imap ?f (take ?n sorted)] =>
      set (shown := f) in *; set (k := n) in *
  end.
  assert (Hlisted : TopAchiever.tg_id <$> imap shown (take k sorted)
                    = (Entry.tg_id ∘ Achiever.user) <$> take k sorted).
  { apply list_eq. intros i.
    rewrite !list_lookup_fmap, list_lookup_imap.
    by destruct (take k sorted !! i). }
  split_and!.
  - assert (TopAchiever.achievement_score <$> imap shown (take k sorted)
            = Achiever.achievement_score <$> take k sorted) as ->.
    { apply list_eq. intros i.
      rewrite !list_lookup_fmap, list_lookup_imap.
      by destruct (take k sorted !! i). }
    eapply StronglySorted_fmap; [|apply StronglySorted_take, Hsorted].
    done.
  - intros i e. rewrite list_lookup_imap.
    destruct (take k sorted !! i); [|done]. by intros [= <-].
  - rewrite length_imap, length_take. unfold sorted.
    rewrite Array_sort_length, length_map. lia.
  - rewrite Hlisted, fmap_take.
    eapply sublist_NoDup; [|apply sublist_take]. by rewrite Hids.
  - apply Forall_forall. intros e [i Hi]%list_elem_of_lookup.
    rewrite list_lookup_imap in Hi.
    destruct (take k sorted !! i) as [a|] eqn:Ha; [|done].
    injection Hi as <-.
    apply list_elem_of_lookup_2, elem_of_take in Ha as (j & Ha & _).
    apply list_elem_of_lookup_2, Hfrom in Ha as (u & _ & -> & Hu).
    exists (Entry.user u). split; [done|].
    unfold shown, achiever, badge_score, badge_count.
    cbn [TopAchiever.tg_id TopAchiever.name TopAchiever.achievement_score
         TopAchiever.achievement_count TopAchiever.top_achievements
         Achiever.user Achiever.achievements Achiever.achievement_score
         Achiever.achievement_count].
    split_and!; try done.
    by rewrite Array_slice_0_nonneg by lia.
  - intros p e Hp Hout [i Hi]%list_elem_of_lookup.
    rewrite list_lookup_imap in Hi.
    destruct (take k sorted !! i) as [a|] eqn:Ha; [|done].
    injection Hi as <-. apply list_elem_of_lookup_2 in Ha.
    assert (∃ u, u ∈ entries ∧ Entry.user u = p) as (u & Hu & <-).
    { rewrite <- (with_rank_users (sortKey_of "overall") pool) in Hp.
      apply list_elem_of_fmap in Hp as (u & -> & Hu). by exists u. }
    assert (achiever u ∈ sorted) as Hin.
    { rewrite Hperm. by apply list_elem_of_fmap_2. }
    rewrite <- (take_drop k sorted) in Hin, Hsorted.
    apply elem_of_app in Hin as [Hin | Hin].
    + exfalso. apply Hout. rewrite Hlisted.
      apply list_elem_of_fmap. by exists (achiever u).
    + exact (StronglySorted_app_1_elem_of _ _ _ _ _ Hsorted Ha Hin).
Qed.

Lemma achievement_leaderboard_order_witness :
  ∃ response,
    getAchievementLeaderboard reader_store (Some (JStr "2")) = Ok response
    ∧ StronglySorted (λ score score', score' ≤ score)
        (TopAchiever.achievement_score
           <$> AchievementResponse.achievement_leaderboard response)
    ∧ Z.of_nat (length (AchievementResponse.achievement_leaderboard response))
      = Z.min 2 (AchievementResponse.total_participants response)
    ∧ (TopAchiever.tg_id <$> AchievementResponse.achievement_leaderboard response
       = [3; 1]
       → ∀ e, e ∈ AchievementResponse.achievement_leaderboard response →
              0 ≤ TopAchiever.achievement_score e).
Proof.
  destruct (getAchievementLeaderboard reader_store (Some (JStr "2")))
    as [response|e] eqn:E; [|vm_compute in E; discriminate E].
  destruct (achievement_leaderboard_order reader_store (Some (JStr "2")) 2
              response eq_refl ltac:(lia) E)
    as (Hsorted & _ & Hlen & _ & _ & Hbest).
  exists response. split; [reflexivity|]. split; [exact Hsorted|].
  split; [exact Hlen|].
  intros Hlisted e He.
  apply (Hbest (Participant.mk 2 "Vali" None false 8 0 0%Q 1) e); [| |exact He].
  - apply (list_elem_of_lookup_2 _ 1). vm_compute. reflexivity.
  - rewrite Hlisted. apply (bool_decide_unpack _). vm_compute. exact I.
Defined.

(** ** The badges of a profile *)

(** The seven steps of [calculateAchievements], one after the other. *)
Lemma profile_badges_eq now stats :
  profile_badges now stats
  = badge_if (7 <=? AllTimeStats.total_days stats) "week_warrior"
    ++ badge_if (30 <=? AllTimeStats.total_days stats) "month_master"
    ++ badge_if (100 <=? AllTimeStats.total_pages stats) "bookworm"
    ++ badge_if (1000 <=? AllTimeStats.total_pages stats) "library_master"
    ++ badge_if (Qle_bool 50 (AllTimeStats.total_distance stats)) "runner"
    ++ badge_if (Qle_bool 200 (AllTimeStats.total_distance stats)) "marathon_hero"
    ++ badge_if (100 <=? AllTimeStats.total_points stats) "point_collector".
Proof.
  unfold profile_badges, calculateAchievements. cbn zeta.
  destruct (7 <=? _), (30 <=? _), (100 <=? AllTimeStats.total_pages _),
    (1000 <=? _), (Qle_bool 50 _), (Qle_bool 200 _),
    (100 <=? AllTimeStats.total_points _); reflexivity.
Qed.

Lemma badge_if_sublist (met met' : bool) (id : string) :
  (met = true → met' = true) → badge_if met id `sublist_of` badge_if met' id.
Proof.
  destruct met, met'; cbn [badge_if]; intros Hmet; try done.
  - by specialize (Hmet eq_refl).
  - apply sublist_nil_l.
Qed.

Lemma Zleb_mono (k a b : Z) : a ≤ b → (k <=? a) = true → (k <=? b) = true.
Proof. rewrite !Z.leb_le. lia. Qed.

Lemma Qle_bool_mono (k a b : Q) :
  (a <= b)%Q → Qle_bool k a = true → Qle_bool k b = true.
Proof. rewrite !Qle_bool_iff. intros ??. by apply Qle_trans with a. Qed.

(** The badges of the profile depend on the thresholds reached. *)
Lemma profile_badges_thresholds now now' stats stats' :
  AllTimeStats.total_points stats ≤ AllTimeStats.total_points stats' →
  AllTimeStats.total_pages stats ≤ AllTimeStats.total_pages stats' →
  (∀ bound, bound ∈ [50%Q; 200%Q] →
            Qle_bool bound (AllTimeStats.total_distance stats) = true →
            Qle_bool bound (AllTimeStats.total_distance stats') = true) →
  AllTimeStats.total_days stats ≤ AllTimeStats.total_days stats' →
  profile_badges now stats `sublist_of` profile_badges now' stats'.
Proof.
  intros Hp Hr Hf Hd. rewrite !profile_badges_eq.
  repeat apply sublist_app;
    apply badge_if_sublist;
    first [ by apply Zleb_mono
          | apply Hf; repeat constructor ].
Qed.

Lemma profile_badges_mono now now' stats stats' :
  totals_no_less stats stats' →
  profile_badges now stats `sublist_of` profile_badges now' stats'.
Proof.
  intros (Hp & Hr & Hf & Hd).
  apply profile_badges_thresholds; try done.
  intros bound _. by apply Qle_bool_mono.
Qed.

(** X16. Growing totals never cost a badge of the profile: each of the seven
    badges is awarded on its own threshold, so the badges of a user are
    among those of any user with no smaller totals, in the same order. *)
Theorem profile_badges_never_lost (now now' : Z) (stats stats' : AllTimeStats.t) :
  totals_no_less stats stats' →
  profile_badges now stats `sublist_of` profile_badges now' stats'
  ∧ (length (calculateAchievements now stats)
     ≤ length (calculateAchievements now' stats'))%nat.
Proof.
  intros H%(profile_badges_mono now now'). split; [done|].
  apply sublist_length in H. unfold profile_badges in H.
  by rewrite !length_fmap in H.
Qed.

Lemma profile_badges_never_lost_witness :
  profile_badges 0 (AllTimeStats.mk 120 0 0%Q 8)
    `sublist_of` profile_badges 5 (AllTimeStats.mk 120 1000 0%Q 30)
  ∧ (length (calculateAchievements 0 (AllTimeStats.mk 120 0 0%Q 8))
     ≤ length (calculateAchievements 5 (AllTimeStats.mk 120 1000 0%Q 30)))%nat.
Proof.
  apply (profile_badges_never_lost 0 5 (AllTimeStats.mk 120 0 0%Q 8)
           (AllTimeStats.mk 120 1000 0%Q 30)).
  unfold totals_no_less. cbn. split_and!; try lia. apply Qle_refl.
Defined.

Lemma length_badge_if met id :
  length (badge_if met id) = if met then 1%nat else 0%nat.
Proof. by destruct met. Qed.

Lemma elem_of_badge_if met id x : x ∈ badge_if met id ↔ met = true ∧ x = id.
Proof.
  destruct met; cbn [badge_if].
  - rewrite list_elem_of_singleton. split; [by intros -> | by intros [_ ->]].
  - rewrite elem_of_nil. split; [done | by intros [[=] _]].
Qed.

Ltac no_such_badge :=
  let H := fresh in
  intros H;
  repeat match goal with
         | H : _ ∨ _ |- _ => destruct H as [H|H]
         | H : _ ∧ _ |- _ => destruct H as [? ?]
         end; congruence.

(** The tiered calculator awards a badge in a category exactly when the
    lowest threshold of the category is met. *)
Lemma tiered_category_length (stats : AllTimeStats.t) :
  length (points_badges (as_user_stats stats))
  = length (badge_if (100 <=? AllTimeStats.total_points stats) "point_collector")
  ∧ length (reading_badges (as_user_stats stats))
    = length (badge_if (100 <=? AllTimeStats.total_pages stats) "bookworm")
  ∧ length (fitness_badges (as_user_stats stats))
    = length (badge_if (Qle_bool 50 (AllTimeStats.total_distance stats)) "runner")
  ∧ length (consistency_badges (as_user_stats stats))
    = length (badge_if (7 <=? AllTimeStats.total_days stats) "week_warrior").
Proof.
  unfold points_badges, reading_badges, fitness_badges, consistency_badges,
    as_user_stats.
  cbn [UserStats.total_points UserStats.total_pages UserStats.total_distance
       UserStats.days_count].
  split_and!; leb_cases; qle_cases;
    first [reflexivity | lia | exfalso; lra].
Qed.

(** X17. The two calculators on the same totals: the profile lists at most
    seven badges and never fewer than the tiered calculator awards, and
    the second badge of a ladder never comes without the first. *)
Theorem profile_badges_and_tiers (now : Z) (stats : AllTimeStats.t) :
  let profile := profile_badges now stats in
  let tiered := calculateUserAchievements (as_user_stats stats) in
  (length tiered ≤ length profile ≤ 7)%nat
  ∧ ("month_master" ∈ profile → "week_warrior" ∈ profile)
  ∧ ("library_master" ∈ profile → "bookworm" ∈ profile)
  ∧ ("marathon_hero" ∈ profile → "runner" ∈ profile).
Proof.
  cbn zeta. rewrite profile_badges_eq, calculateUserAchievements_eq.
  destruct (tiered_category_length stats) as (Hp & Hr & Hf & Hd).
  split; [|split_and!].
  - rewrite !length_app, Hp, Hr, Hf, Hd, !length_badge_if.
    destruct (7 <=? _), (30 <=? _), (100 <=? AllTimeStats.total_pages _),
      (1000 <=? _), (Qle_bool 50 _), (Qle_bool 200 _),
      (100 <=? AllTimeStats.total_points _); lia.
  - rewrite !elem_of_app, !elem_of_badge_if.
    destruct (Z.leb_spec 30 (AllTimeStats.total_days stats));
      [left; split; [|done]; apply Z.leb_le; lia | no_such_badge].
  - rewrite !elem_of_app, !elem_of_badge_if.
    destruct (Z.leb_spec 1000 (AllTimeStats.total_pages stats));
      [right; right; left; split; [|done]; apply Z.leb_le; lia
      | no_such_badge].
  - rewrite !elem_of_app, !elem_of_badge_if.
    destruct (Qle_bool 200 (AllTimeStats.total_distance stats)) eqn:E;
      [|no_such_badge].
    do 4 right. left. split; [|done].
    apply Qle_bool_iff in E. apply Qle_bool_iff.
    eapply Qle_trans; [|exact E]. done.
Qed.

Lemma getUserAchievements_Ok st tg_id answer :
  getUserAchievements st tg_id = Ok answer →
  ∃ telegramId user stats,
    parseInt tg_id = Int telegramId
    ∧ 0 < telegramId
    ∧ getUserByTelegramId st telegramId = Ok (Some user)
    ∧ User.status user = "approved"
    ∧ getUserAllTimeStats st telegramId = Ok stats
    ∧ answer = {|
        UserAchievements.achievements := calculateAchievements (clock st) stats;
        UserAchievements.total_achievements :=
          Z.of_nat (length (calculateAchievements (clock st) stats));
        UserAchievements.user_stats := stats
      |}.
Proof.
  unfold getUserAchievements. cbn zeta.
  destruct (parseInt tg_id) as [|telegramId]; [done|].
  destruct (Z.leb_spec telegramId 0); cbn [throw_if mbind Result_bind];
    [done|].
  destruct (getUserByTelegramId st _) as [[user|]|] eqn:Eu;
    cbn [mbind Result_bind]; [|done..].
  destruct (String.eqb_spec (User.status user) APP_CONSTANTS.USER_STATUS_APPROVED)
    as [Hs|]; cbn [negb throw_if mbind Result_bind]; [|done].
  cbn [ToIntegerOrInfinity].
  destruct (getUserAllTimeStats st telegramId) as [stats|] eqn:Es;
    cbn [mbind Result_bind mret Result_ret]; [|done].
  intros [= <-]. exists telegramId, user, stats. split_and!; done.
Qed.

Lemma getUserAchievements_approved st tg_id telegramId user stats :
  parseInt tg_id = Int telegramId →
  0 < telegramId →
  getUserByTelegramId st telegramId = Ok (Some user) →
  User.status user = "approved" →
  getUserAllTimeStats st telegramId = Ok stats →
  getUserAchievements st tg_id = Ok {|
    UserAchievements.achievements := calculateAchievements (clock st) stats;
    UserAchievements.total_achievements :=
      Z.of_nat (length (calculateAchievements (clock st) stats));
    UserAchievements.user_stats := stats
  |}.
Proof.
  intros Htg Hpos Hu Hs Hstats. unfold getUserAchievements. cbn zeta.
  rewrite Htg. destruct (Z.leb_spec telegramId 0) as [|_]; [lia|].
  cbn [throw_if mbind Result_bind ToIntegerOrInfinity].
  rewrite Hu. cbn [mbind Result_bind]. rewrite Hs.
  cbn [String.eqb APP_CONSTANTS.USER_STATUS_APPROVED].
  rewrite ?String.eqb_refl. cbn [negb throw_if mbind Result_bind].
  by rewrite Hstats.
Qed.

(** X18. A first submission for a day costs no badge: the profile of the
    user lists afterwards every badge it listed before, in the same
    order. *)
Theorem first_submission_keeps_badges (st st' : Store) (body : Body.t)
    (response : Submission.t) (telegramId : Z) (before : UserAchievements.t) :
  submitDailyProgress st body = Ok (response, st') →
  parseInt (Body.tg_id body) = Int telegramId →
  (telegramId, submission_day st body) ∉ row_key <$> daily_progress st →
  getUserAchievements st (Body.tg_id body) = Ok before →
  ∃ after,
    getUserAchievements st' (Body.tg_id body) = Ok after
    ∧ UserAchievement.id <$> UserAchievements.achievements before
      `sublist_of` UserAchievement.id <$> UserAchievements.achievements after
    ∧ UserAchievements.total_achievements before
      ≤ UserAchievements.total_achievements after.
Proof.
  intros Hsubmit Hid Hnew
    (tg & user & stats & Htg & Hpos & Hu & Hs & Hstats & ->)%getUserAchievements_Ok.
  rewrite Hid in Htg. injection Htg as <-.
  apply submitDailyProgress_inv in Hsubmit
    as (tg & u & Htg & _ & _ & _ & Hv & _ & Hst' & Hresponse).
  rewrite Hid in Htg. injection Htg as <-.
  rewrite <- saved_record_key in Hnew.
  pose proof (getUserAllTimeStats_new_record st
                (saved_record st body telegramId) stats Hnew Hstats) as Hstats'.
  rewrite <- Hst' in Hstats'.
  assert (Hu' : getUserByTelegramId st' telegramId = Ok (Some user))
    by (rewrite Hst'; exact Hu).
  pose proof (getUserAchievements_approved st' _ telegramId user _
                Hid Hpos Hu' Hs Hstats') as Hafter.
  eexists. split; [exact Hafter|].
  assert (clock st' = clock st) as -> by by rewrite Hst'.
  clear Hafter Hstats' Hresponse.
  cbn [UserAchievements.achievements UserAchievements.total_achievements clock].
  match goal with
  | |- context [calculateAchievements _ (AllTimeStats.mk ?p ?r ?d ?n)] =>
      assert (profile_badges (clock st) stats
              `sublist_of` profile_badges (clock st) (AllTimeStats.mk p r d n))
        as Hsub
  end.
  { destruct (saved_record_well_formed st body telegramId Hpos Hv)
      as ((pages & [= <-] & Hpages & _) & (d & [= <-] & Hd & _) & _ & _).
    pose proof (true_entries_bounds (default_to (JObj []) (Body.tasks body))).
    unfold saved_record.
    apply profile_badges_thresholds;
      cbn [AllTimeStats.total_points AllTimeStats.total_pages
           AllTimeStats.total_distance AllTimeStats.total_days
           Progress.completed_count Progress.pages_read Progress.distance_km
           or_zero or_zeroQ]; try lia.
    intros bound Hbound. rewrite !Qle_bool_iff. intros Hreached.
    apply fadd_reaches; [|done..].
    apply elem_of_cons in Hbound as [->|Hbound]; [reflexivity|].
    apply list_elem_of_singleton in Hbound as ->. reflexivity. }
  split; [exact Hsub|].
  apply sublist_length in Hsub. unfold profile_badges in Hsub.
  rewrite !length_fmap in Hsub. lia.
Qed.

Lemma first_submission_keeps_badges_witness :
  ∃ response st' before after,
    submitDailyProgress three_users_store first_day_body = Ok (response, st')
    ∧ getUserAchievements three_users_store (JNum 3) = Ok before
    ∧ getUserAchievements st' (JNum 3) = Ok after
    ∧ UserAchievements.total_achievements before
      ≤ UserAchievements.total_achievements after.
Proof.
  destruct (submitDailyProgress three_users_store first_day_body)
    as [[response st']|e] eqn:E; [|vm_compute in E; discriminate E].
  destruct (getUserAchievements three_users_store (JNum 3))
    as [before|e] eqn:Eb; [|vm_compute in Eb; discriminate Eb].
  assert (Hnew : (3, submission_day three_users_store first_day_body)
                 ∉ row_key <$> daily_progress three_users_store).
  { apply (bool_decide_unpack _). vm_compute. exact I. }
  destruct (first_submission_keeps_badges three_users_store st' first_day_body
              response 3 before E eq_refl Hnew Eb) as (after & Ha & _ & Hle).
  exists response, st', before, after.
  split; [reflexivity|]. split; [reflexivity|]. split; [exact Ha | exact Hle].
Defined.

(** ** The top performers *)

Lemma StronglySorted_imap {A B} (R : A → A → Prop) (R' : B → B → Prop)
    (f : nat → A → B) (l : list A) :
  (∀ i j x y, R x y → R' (f i x) (f j y)) →
  StronglySorted R l → StronglySorted R' (imap f l).
Proof.
  intros Hf Hl. revert f Hf.
  induction Hl as [|x l Hl IH Hx]; intros f Hf; [constructor|].
  rewrite imap_cons. constructor.
  - apply IH. intros i j. apply Hf.
  - apply Forall_forall. intros y [i Hi]%list_elem_of_lookup.
    rewrite list_lookup_imap in Hi.
    destruct (l !! i) as [z|] eqn:Hz; [|done]. injection Hi as <-.
    apply Hf. rewrite Forall_forall in Hx.
    by eapply Hx, list_elem_of_lookup_2.
Qed.

(** A list of top performers built from the entries of a leaderboard
    whose key is the score shown. *)
Lemma performers_well_ranked (score : Participant.t → Q) (key : string)
    (page : list Participant.t) :
  (∀ p, score p = Participant.get p key) →
  descending (λ p, Participant.get p key) page →
  well_ranked
    (map (λ user, Performer.mk (Entry.tg_id user)
                    (Participant.name (Entry.user user))
                    (score (Entry.user user))
                    (Participant.photo_url (Entry.user user))
                    (Entry.rank user))
         (with_rank key page)).
Proof.
  intros Hscore Hpage. unfold with_rank.
  change (map ?f ?l) with (f <$> l). rewrite fmap_imap. split.
  - eapply StronglySorted_imap; [|exact Hpage].
    intros i j x y Hxy. cbn. by rewrite !Hscore.
  - intros i e. rewrite list_lookup_imap.
    destruct (page !! i); [|done]. by intros [= <-].
Qed.

Lemma performers_ids (score : Participant.t → Q) (key : string)
    (page : list Participant.t) :
  Performer.tg_id
    <$> map (λ user, Performer.mk (Entry.tg_id user)
                       (Participant.name (Entry.user user))
                       (score (Entry.user user))
                       (Participant.photo_url (Entry.user user))
                       (Entry.rank user))
            (with_rank key page)
  = Participant.tg_id <$> page.
Proof.
  change (map ?f ?l) with (f <$> l). apply list_eq. intros i.
  unfold with_rank. rewrite !list_lookup_fmap, list_lookup_imap.
  by destruct (page !! i).
Qed.

Lemma full_leaderboard_perm st period type type' :
  full_leaderboard st period type ≡ₚ full_leaderboard st period type'.
Proof.
  unfold full_leaderboard. by rewrite !sorted_leaderboard_eq, !Array_sort_perm.
Qed.

(** X19. The three lists of the top performers are each in non-increasing
    order of the score they show, with the ranks 1, 2, 3, ..., and of
    the same length: the limit, or the number of participants when it
    is smaller. When the limit covers all participants the lists hold
    the same users. The request fails only when a query of the
    leaderboard does. *)
Theorem top_performers_lists (st : Store) (period : option string)
    (limit : option JsValue) (L : Z) :
  parseInt (default (JNum 10) limit) = Int L →
  0 ≤ L →
  match getTopPerformers st period limit with
  | Ok response =>
      Forall (λ l, well_ranked l
                   ∧ Z.of_nat (length l)
                     = Z.min L (Z.of_nat (participants st (default "all" period))))
        [TopPerformers.overall response; TopPerformers.reading response;
         TopPerformers.distance response]
      ∧ (Z.of_nat (participants st (default "all" period)) ≤ L →
         Performer.tg_id <$> TopPerformers.reading response
           ≡ₚ Performer.tg_id <$> TopPerformers.overall response
         ∧ Performer.tg_id <$> TopPerformers.distance response
             ≡ₚ Performer.tg_id <$> TopPerformers.overall response)
  | Err _ =>
      failing st "SELECT_LEADERBOARD_DATA" = true
      ∨ failing st "SELECT_LEADERBOARD_USERS" = true
  end.
Proof.
  intros HL HL0. unfold getTopPerformers. cbn zeta.
  rewrite HL, !getLeaderboardData_eq. cbn zeta.
  destruct (failing st "SELECT_LEADERBOARD_DATA"); [by left|].
  destruct (failing st "SELECT_LEADERBOARD_USERS"); [by right|].
  cbn [mbind Result_bind mret Result_ret Options.period Options.type
       Options.limit default from_option id ToIntegerOrInfinity
       TopPerformers.overall TopPerformers.reading TopPerformers.distance].
  rewrite !Array_slice_0_nonneg by done.
  set (period' := match period with Some p => p | None => "all" end).
  split.
  - assert (Hlen : ∀ type,
              Z.of_nat (length (take (Z.to_nat L)
                                     (full_leaderboard st period' type)))
              = Z.min L (Z.of_nat (participants st period'))).
    { intros type. rewrite length_take, full_leaderboard_length. lia. }
    apply Forall_cons_2; [|apply Forall_cons_2; [|apply Forall_cons_2;
                                                   [|apply Forall_nil_2]]];
      (split; [|by rewrite length_map, with_rank_length, Hlen]).
    + apply (performers_well_ranked
               (λ p, inject_Z (Participant.total_points p)));
        [done | apply StronglySorted_take, sorted_leaderboard_descending].
    + apply (performers_well_ranked
               (λ p, inject_Z (Participant.total_pages p)));
        [done | apply StronglySorted_take, sorted_leaderboard_descending].
    + apply (performers_well_ranked Participant.total_distance);
        [done | apply StronglySorted_take, sorted_leaderboard_descending].
  - intros Hall.
    rewrite (performers_ids (λ p, inject_Z (Participant.total_points p))),
      (performers_ids (λ p, inject_Z (Participant.total_pages p))),
      (performers_ids Participant.total_distance).
    rewrite !take_ge by (rewrite full_leaderboard_length; lia).
    split; apply fmap_Permutation, full_leaderboard_perm.
Qed.

Lemma top_performers_lists_witness :
  ∃ response,
    getTopPerformers reader_store None (Some (JStr "2")) = Ok response
    ∧ well_ranked (TopPerformers.reading response)
    ∧ Z.of_nat (length (TopPerformers.reading response)) = 2.
Proof.
  pose proof (top_performers_lists reader_store None (Some (JStr "2")) 2
                eq_refl ltac:(lia)) as H.
  destruct (getTopPerformers reader_store None (Some (JStr "2")))
    as [response|e] eqn:E; [|vm_compute in E; discriminate E].
  exists response. split; [reflexivity|].
  destruct H as [H _].
  apply Forall_cons in H as [_ H]. apply Forall_cons in H as [[Hr Hlen] _].
  split; [exact Hr|]. rewrite Hlen. reflexivity.
Defined.

(** ** The rate limit *)

Lemma Map_get_set_eq requests k v : Map_get (Map_set requests k v) k = Some v.
Proof.
  induction requests as [|[k' v'] rest IH]; cbn [Map_set Map_get].
  - by rewrite String.eqb_refl.
  - destruct (String.eqb_spec k' k) as [->|Hne]; cbn [Map_get].
    + by rewrite String.eqb_refl.
    + by destruct (String.eqb_spec k' k).
Qed.

Lemma Map_get_set_ne requests k k' v :
  k ≠ k' → Map_get (Map_set requests k v) k' = Map_get requests k'.
Proof.
  intros Hne. induction requests as [|[k0 v0] rest IH]; cbn [Map_set Map_get].
  - by destruct (String.eqb_spec k k').
  - destruct (String.eqb_spec k0 k) as [->|Hk]; cbn [Map_get].
    + by destruct (String.eqb_spec k k').
    + by rewrite IH.
Qed.

Lemma Map_get_None requests k : Map_get requests k = None ↔ k ∉ requests.*1.
Proof.
  induction requests as [|[k' v'] rest IH]; cbn [Map_get].
  - split; [intros _; apply not_elem_of_nil | done].
  - rewrite fmap_cons, not_elem_of_cons. cbn [fst].
    destruct (String.eqb_spec k' k) as [->|Hne].
    + split; [done | by intros [[] _]].
    + rewrite IH. split; [by intros ? | by intros [_ ?]].
Qed.

Lemma Map_get_Some_elem requests k v :
  Map_get requests k = Some v → (k, v) ∈ requests.
Proof.
  induction requests as [|[k' v'] rest IH]; [done|]. cbn [Map_get].
  destruct (String.eqb_spec k' k) as [->|].
  - intros [= ->]. left.
  - intros H. right. by apply IH.
Qed.

Lemma Map_set_keys requests k v :
  (Map_set requests k v).*1
  = if bool_decide (k ∈ requests.*1) then requests.*1 else requests.*1 ++ [k].
Proof.
  induction requests as [|[k' v'] rest IH]; cbn [Map_set].
  - by rewrite bool_decide_eq_false_2 by apply not_elem_of_nil.
  - rewrite !fmap_cons. cbn [fst].
    destruct (String.eqb_spec k' k) as [->|Hne].
    + by rewrite bool_decide_eq_true_2 by left.
    + rewrite fmap_cons, IH. cbn [fst]. case_bool_decide as Hin.
      * by rewrite bool_decide_eq_true_2 by by right.
      * rewrite bool_decide_eq_false_2; [done|].
        rewrite not_elem_of_cons. split; [congruence | done].
Qed.

Lemma Map_set_NoDup requests k v :
  NoDup requests.*1 → NoDup (Map_set requests k v).*1.
Proof.
  intros Hnd. rewrite Map_set_keys. case_bool_decide; [done|].
  apply NoDup_app. split_and!; [done | | apply NoDup_singleton].
  by intros x Hx ->%list_elem_of_singleton.
Qed.

Lemma Map_set_Forall (P : string * ClientData.t → Prop) requests k v :
  (∀ k', P (k', v)) → Forall P requests → Forall P (Map_set requests k v).
Proof.
  intros Hv. induction 1 as [|[k' v'] rest Hx Hrest IH]; cbn [Map_set].
  - by constructor.
  - destruct (String.eqb k' k); by constructor.
Qed.

(** Cleaning the map keeps the entries whose window has not expired. *)
Lemma Map_get_clean (windowMs now : Z) requests k :
  NoDup requests.*1 →
  Map_get (filter (λ entry, ¬ (now - ClientData.firstRequest entry.2 > windowMs))
                  requests) k
  = match Map_get requests k with
    | Some data =>
        if bool_decide (now - ClientData.firstRequest data > windowMs)
        then None else Some data
    | None => None
    end.
Proof.
  induction requests as [|[k' v'] rest IH]; [done|].
  rewrite fmap_cons. cbn [fst]. intros [Hk Hnd]%NoDup_cons.
  cbn [Map_get]. destruct (String.eqb_spec k' k) as [->|Hne].
  - case_bool_decide as Hold.
    + rewrite filter_cons_False by (cbn; lia). rewrite IH by done.
      apply Map_get_None in Hk. by rewrite Hk.
    + rewrite filter_cons_True by (cbn; lia). cbn [Map_get].
      by rewrite String.eqb_refl.
  - destruct (decide (now - ClientData.firstRequest v' > windowMs)).
    + rewrite filter_cons_False by (cbn; lia). by apply IH.
    + rewrite filter_cons_True by (cbn; lia). cbn [Map_get].
      destruct (String.eqb_spec k' k); [done|]. by apply IH.
Qed.

Lemma clean_NoDup (windowMs now : Z) (requests : RequestMap) :
  NoDup requests.*1 →
  NoDup (filter (λ entry, ¬ (now - ClientData.firstRequest entry.2 > windowMs))
                requests).*1.
Proof.
  intros Hnd. eapply sublist_NoDup; [exact Hnd|].
  apply fmap_sublist, sublist_filter.
Qed.

(** One request: the answer is the one of the window the request falls
    in, the count of that window is raised unless the limit is reached,
    and the live entries of the other clients stay as they are. *)
Lemma validateRateLimit_step (maxRequests windowMs : Z) requests ip now :
  0 ≤ windowMs →
  NoDup requests.*1 →
  let window := window_at windowMs requests (clientId_of ip) now in
  let served := ClientData.count window in
  let start := ClientData.firstRequest window in
  let after := (validateRateLimit maxRequests windowMs requests ip now).2 in
  (validateRateLimit maxRequests windowMs requests ip now).1
  = (if bool_decide (served >= maxRequests)
     then RateLimitError maxRequests 0 (start + windowMs)
     else RateNext maxRequests (maxRequests - served - 1) (start + windowMs))
  ∧ Map_get after (clientId_of ip)
    = Some (ClientData.mk (if bool_decide (served >= maxRequests)
                           then served else served + 1) start)
  ∧ now - start ≤ windowMs
  ∧ NoDup after.*1
  ∧ (∀ k, k ≠ clientId_of ip →
       Map_get after k
       = match Map_get requests k with
         | Some data =>
             if bool_decide (now - ClientData.firstRequest data > windowMs)
             then None else Some data
         | None => None
         end)
  ∧ (Forall (λ entry, 0 ≤ ClientData.count entry.2 ≤ maxRequests) requests →
     0 ≤ maxRequests →
     Forall (λ entry, 0 ≤ ClientData.count entry.2 ≤ maxRequests) after).
Proof.
  intros Hw Hnd. cbn zeta. unfold validateRateLimit, window_at. cbn zeta.
  set (clientId := clientId_of ip).
  set (live := filter _ requests).
  pose proof (clean_NoDup windowMs now requests Hnd) as Hlive. fold live in Hlive.
  pose proof (λ k, Map_get_clean windowMs now requests k Hnd) as Hget.
  fold live in Hget.
  assert (Hbound :
    Forall (λ entry, 0 ≤ ClientData.count entry.2 ≤ maxRequests) requests →
    Forall (λ entry, 0 ≤ ClientData.count entry.2 ≤ maxRequests) live).
  { intros H. apply Forall_forall. intros x [_ Hx]%list_elem_of_filter.
    rewrite Forall_forall in H. by apply H. }
  rewrite (Hget clientId).
  destruct (Map_get requests clientId) as [[n f]|] eqn:Eget;
    cbn [ClientData.firstRequest ClientData.count];
    [case_bool_decide as Hold|];
    cbn [ClientData.firstRequest ClientData.count].
  - (* an expired entry: a new window *)
    rewrite bool_decide_eq_false_2 by lia.
    cbn [ClientData.firstRequest ClientData.count].
    case_bool_decide; cbn [fst snd ClientData.firstRequest ClientData.count];
      (split_and!;
       [f_equal; lia | by rewrite ?Map_get_set_eq | lia
       | by repeat apply Map_set_NoDup
       | intros k Hk; by rewrite ?Map_get_set_ne by done
       | intros Hb Hmax; repeat apply Map_set_Forall;
         [intros; cbn; lia.. | by apply Hbound]]).
  - (* a live entry *)
    assert (Hlget : Map_get live clientId = Some (ClientData.mk n f))
      by by rewrite Hget, Eget, bool_decide_eq_false_2.
    rewrite bool_decide_eq_false_2 by done.
    cbn [ClientData.firstRequest ClientData.count].
    case_bool_decide; cbn [fst snd ClientData.firstRequest ClientData.count];
      (split_and!;
       [f_equal; lia | by rewrite ?Map_get_set_eq | lia
       | by repeat apply Map_set_NoDup
       | intros k Hk; by rewrite ?Map_get_set_ne by done
       | intros Hb Hmax; specialize (Hbound Hb)]).
    + done.
    + apply Map_set_Forall; [|done]. intros ?. cbn.
      rewrite Forall_forall in Hb.
      pose proof (Map_get_Some_elem _ _ _ Eget) as Hin.
      specialize (Hb _ Hin). cbn in Hb. lia.
  - (* no entry: a new window *)
    rewrite bool_decide_eq_false_2 by lia.
    cbn [ClientData.firstRequest ClientData.count].
    case_bool_decide; cbn [fst snd ClientData.firstRequest ClientData.count];
      (split_and!;
       [f_equal; lia | by rewrite ?Map_get_set_eq | lia
       | by repeat apply Map_set_NoDup
       | intros k Hk; by rewrite ?Map_get_set_ne by done
       | intros Hb Hmax; repeat apply Map_set_Forall;
         [intros; cbn; lia.. | by apply Hbound]]).
Qed.

Lemma rate_limit_requests_window (maxRequests windowMs : Z) ip times :
  0 ≤ windowMs →
  ∀ requests now served start,
    NoDup requests.*1 →
    window_at windowMs requests (clientId_of ip) now
    = ClientData.mk served start →
    Forall (λ t, t - start ≤ windowMs) times →
    (rate_limit_requests maxRequests windowMs requests ip (now :: times)).1
    = imap (λ i _, answer_in_window maxRequests windowMs start
                     (served + Z.of_nat i))
           (now :: times).
Proof.
  intros Hw. induction times as [|t times IH];
    intros requests now served start Hnd Hwindow Htimes.
  - cbn [rate_limit_requests].
    destruct (validateRateLimit_step maxRequests windowMs requests ip now
                Hw Hnd) as (Hresult & _).
    rewrite Hwindow in Hresult.
    cbn [ClientData.count ClientData.firstRequest] in Hresult.
    destruct (validateRateLimit _ _ requests ip now) as [result after].
    cbn [fst snd imap] in *. subst result. f_equal.
    unfold answer_in_window. rewrite Z.add_0_r.
    do 2 case_bool_decide; (done || lia).
  - apply Forall_cons in Htimes as [Ht Htimes].
    destruct (validateRateLimit_step maxRequests windowMs requests ip now
                Hw Hnd) as (Hresult & Hafter & _ & Hnd' & _).
    rewrite Hwindow in Hresult, Hafter.
    cbn [ClientData.count ClientData.firstRequest] in Hresult, Hafter.
    change (rate_limit_requests maxRequests windowMs requests ip
              (now :: t :: times))
      with (let '(result, requests) :=
              validateRateLimit maxRequests windowMs requests ip now in
            let '(results, requests) :=
              rate_limit_requests maxRequests windowMs requests ip
                (t :: times) in
            (result :: results, requests)).
    destruct (validateRateLimit _ _ requests ip now) as [result after].
    cbn [fst snd] in Hresult, Hafter, Hnd'.
    assert (Hwindow' :
      window_at windowMs after (clientId_of ip) t
      = ClientData.mk (if bool_decide (served >= maxRequests)
                       then served else served + 1) start).
    { unfold window_at. rewrite Hafter.
      cbn [ClientData.firstRequest]. by rewrite bool_decide_eq_false_2 by lia. }
    specialize (IH after t _ start Hnd' Hwindow' Htimes).
    destruct (rate_limit_requests _ _ after ip (t :: times))
      as [results after'].
    cbn [fst snd] in IH |- *. rewrite IH, Hresult.
    rewrite (imap_cons _ now). f_equal.
    + unfold answer_in_window. rewrite Z.add_0_r.
      do 2 case_bool_decide; (done || lia).
    + apply imap_ext. intros i x _. unfold answer_in_window. cbn.
      case_bool_decide.
      * rewrite !bool_decide_eq_false_2 by lia. done.
      * do 2 case_bool_decide; try lia; f_equal; lia.
Qed.

(** X20. One window of a client: from the first request of a client that has
    no live window, the requests within [windowMs] of it are answered
    in turn, the first [maxRequests] of them with [next()] and a
    remaining count that goes down to 0, all later ones with the rate
    limit error, and all with the same reset time. *)
Theorem rate_limit_window (maxRequests windowMs : Z) (requests : RequestMap)
    (ip : option string) (now : Z) (times : list Z) :
  0 ≤ windowMs →
  NoDup requests.*1 →
  (∀ data, Map_get requests (clientId_of ip) = Some data →
           now - ClientData.firstRequest data > windowMs) →
  Forall (λ t, t - now ≤ windowMs) times →
  (rate_limit_requests maxRequests windowMs requests ip (now :: times)).1
  = imap (λ i _, answer_in_window maxRequests windowMs now (Z.of_nat i))
         (now :: times).
Proof.
  intros Hw Hnd Hnew Htimes.
  rewrite (rate_limit_requests_window maxRequests windowMs ip times Hw
             requests now 0 now Hnd); [done | | done].
  unfold window_at.
  destruct (Map_get requests (clientId_of ip)) as [data|] eqn:E; [|done].
  by rewrite bool_decide_eq_true_2 by by apply Hnew.
Qed.

Lemma rate_limit_window_witness :
  (rate_limit_requests 2 60000 [("10.0.0.1", ClientData.mk 2 0)]
     (Some "10.0.0.1") [70000; 70001; 130000]).1
  = [RateNext 2 1 130000; RateNext 2 0 130000; RateLimitError 2 0 130000].
Proof.
  rewrite (rate_limit_window 2 60000 [("10.0.0.1", ClientData.mk 2 0)]
             (Some "10.0.0.1") 70000 [70001; 130000]).
  - reflexivity.
  - lia.
  - apply (bool_decide_unpack _). vm_compute. exact I.
  - intros data [= <-]. cbn. lia.
  - repeat constructor; lia.
Defined.

(** X21. The requests of one client change nothing for another: a later
    request of another address gets the answer it would have got
    without them. *)
Theorem rate_limit_clients_independent (maxRequests windowMs : Z)
    (requests : RequestMap) (ip ip' : option string) (now now' : Z) :
  0 ≤ windowMs →
  NoDup requests.*1 →
  clientId_of ip ≠ clientId_of ip' →
  now ≤ now' →
  (validateRateLimit maxRequests windowMs
     (validateRateLimit maxRequests windowMs requests ip now).2 ip' now').1
  = (validateRateLimit maxRequests windowMs requests ip' now').1.
Proof.
  intros Hw Hnd Hne Hnow.
  destruct (validateRateLimit_step maxRequests windowMs requests ip now Hw Hnd)
    as (_ & _ & _ & Hnd' & Hother & _).
  destruct (validateRateLimit_step maxRequests windowMs requests ip' now' Hw Hnd)
    as (-> & _).
  destruct (validateRateLimit_step maxRequests windowMs _ ip' now' Hw Hnd')
    as (-> & _).
  assert (window_at windowMs
            (validateRateLimit maxRequests windowMs requests ip now).2
            (clientId_of ip') now'
          = window_at windowMs requests (clientId_of ip') now') as ->; [|done].
  unfold window_at. rewrite (Hother _ (not_eq_sym Hne)).
  destruct (Map_get requests (clientId_of ip')) as [data|]; [|done].
  case_bool_decide; [|done]. by rewrite bool_decide_eq_true_2 by lia.
Qed.

Lemma rate_limit_clients_independent_witness :
  (validateRateLimit 1 60000
     (validateRateLimit 1 60000 [] (Some "10.0.0.1") 5).2 None 7).1
  = (validateRateLimit 1 60000 [] None 7).1.
Proof.
  apply (rate_limit_clients_independent 1 60000 [] (Some "10.0.0.1") None 5 7).
  - lia.
  - constructor.
  - discriminate.
  - lia.
Defined.

(** X22. The limiter keeps its map in order: one entry per client, no count
    below 0 or above [maxRequests]; and the remaining count it reports
    is never negative. *)
Theorem rate_limit_counts_bounded (maxRequests windowMs : Z)
    (requests : RequestMap) (ip : option string) (now : Z) :
  0 ≤ windowMs →
  0 ≤ maxRequests →
  counts_bounded maxRequests requests →
  counts_bounded maxRequests
    (validateRateLimit maxRequests windowMs requests ip now).2
  ∧ match (validateRateLimit maxRequests windowMs requests ip now).1 with
    | RateNext limit remaining _ =>
        limit = maxRequests ∧ 0 ≤ remaining < maxRequests
    | RateLimitError limit remaining _ =>
        limit = maxRequests ∧ remaining = 0
    end.
Proof.
  intros Hw Hmax [Hnd Hb].
  destruct (validateRateLimit_step maxRequests windowMs requests ip now Hw Hnd)
    as (-> & _ & _ & Hnd' & _ & Hb').
  split; [split; [done | by apply Hb']|].
  assert (0 ≤ ClientData.count
                (window_at windowMs requests (clientId_of ip) now)) as Hserved.
  { unfold window_at.
    destruct (Map_get requests (clientId_of ip)) as [data|] eqn:E; [|done].
    case_bool_decide; [done|].
    rewrite Forall_forall in Hb.
    by destruct (Hb _ (Map_get_Some_elem _ _ _ E)). }
  case_bool_decide; split; (done || lia).
Qed.

Lemma rate_limit_counts_bounded_witness :
  counts_bounded 2 (validateRateLimit 2 60000 [("10.0.0.1", ClientData.mk 2 0)]
                      (Some "10.0.0.1") 100).2.
Proof.
  apply (rate_limit_counts_bounded 2 60000 [("10.0.0.1", ClientData.mk 2 0)]
           (Some "10.0.0.1") 100).
  - lia.
  - lia.
  - split; [apply (bool_decide_unpack _); vm_compute; exact I|].
    repeat constructor; cbn; lia.
Defined.

(** ** Statistics of a leaderboard in any order *)

Lemma StronglySorted_lookup_le {A} (R : A → A → Prop) (l : list A) i j x y :
  (∀ x, R x x) →
  StronglySorted R l → (i ≤ j)%nat →
  l !! i = Some x → l !! j = Some y → R x y.
Proof.
  intros Hrefl Hl. revert i j.
  induction Hl as [|z l Hl IH Hz]; intros i j Hij Hi Hj; [done|].
  destruct i as [|i], j as [|j]; cbn in Hi, Hj; try lia.
  - injection Hi as <-. injection Hj as <-. apply Hrefl.
  - injection Hi as <-. rewrite Forall_forall in Hz.
    by eapply Hz, list_elem_of_lookup_2.
  - apply (IH i j); [lia | done..].
Qed.

(** X23. The analyzer sorts the scores itself: on any non-empty leaderboard,
    in whatever order, the median is not above the top-10-percent
    threshold, which is not above the most active score; the three are
    scores of the leaderboard and the last one is the greatest. *)
Theorem leaderboard_stats_any_order (leaderboardData : list Entry.t) :
  leaderboardData ≠ [] →
  let scores := map Entry.score leaderboardData in
  let stats := calculateLeaderboardStats leaderboardData in
  ∃ median threshold top,
    LeaderboardStats.median_points stats = Some median
    ∧ LeaderboardStats.top_10_percent_threshold stats = Some threshold
    ∧ LeaderboardStats.most_active_score stats = Some top
    ∧ (median <= threshold)%Q ∧ (threshold <= top)%Q
    ∧ median ∈ scores ∧ threshold ∈ scores ∧ is_max top scores.
Proof.
  intros Hne scores stats. set (n := length leaderboardData).
  assert (0 < n)%nat as Hn.
  { subst n. destruct leaderboardData; [done | simpl; lia]. }
  subst stats. unfold calculateLeaderboardStats.
  destruct (Nat.eqb_spec (length leaderboardData) 0) as [H0|_];
    [fold n in H0; lia|].
  fold n. fold scores.
  cbn [LeaderboardStats.median_points LeaderboardStats.top_10_percent_threshold
       LeaderboardStats.most_active_score].
  rewrite Math_floor_half, Math_floor_tenth.
  pose proof (descending_sort (λ x : Q, x) scores) as Hsorted.
  pose proof (Array_sort_perm (λ a b : Q, (b - a)%Q) scores) as Hperm.
  change (Array_sort (λ a b : Q, (b - a)%Q) scores)
    with (Array_sort (λ a b : Q, ((λ x : Q, x) b - (λ x : Q, x) a)%Q) scores)
    in Hperm |- *.
  set (sorted := Array_sort _ scores) in *.
  assert (length sorted = n) as Hlen.
  { by rewrite Hperm; unfold scores; rewrite length_map. }
  destruct (lookup_lt_is_Some_2 sorted (n / 2)) as [median Hm].
  { rewrite Hlen. apply Nat.div_lt; lia. }
  destruct (lookup_lt_is_Some_2 sorted (n / 10)) as [threshold Ht].
  { rewrite Hlen. apply Nat.div_lt; lia. }
  destruct sorted as [|x r] eqn:E; [simpl in Hlen; lia|].
  destruct (fold_Qmax_is_max r x) as [Hin Hmax].
  exists median, threshold, (fold_left Qmax r x).
  split_and!; try done.
  - apply (StronglySorted_lookup_le (λ a b : Q, (b <= a)%Q) (x :: r)
             (n / 10) (n / 2) threshold median);
      [intros ?; apply Qle_refl | exact Hsorted | | done..].
    apply Nat.div_le_compat_l. lia.
  - rewrite Forall_forall in Hmax. by eapply Hmax, list_elem_of_lookup_2.
  - rewrite <- Hperm. by eapply list_elem_of_lookup_2.
  - rewrite <- Hperm. by eapply list_elem_of_lookup_2.
  - split; [by rewrite <- Hperm | by rewrite <- Hperm].
Qed.

Lemma leaderboard_stats_any_order_witness :
  ∃ median threshold top,
    LeaderboardStats.median_points
      (calculateLeaderboardStats (leaderboard_of_scores [5; 250; 60])) = Some median
    ∧ LeaderboardStats.top_10_percent_threshold
        (calculateLeaderboardStats (leaderboard_of_scores [5; 250; 60]))
      = Some threshold
    ∧ LeaderboardStats.most_active_score
        (calculateLeaderboardStats (leaderboard_of_scores [5; 250; 60])) = Some top
    ∧ (median <= threshold)%Q ∧ (threshold <= top)%Q.
Proof.
  destruct (leaderboard_stats_any_order (leaderboard_of_scores [5; 250; 60])
              ltac:(discriminate))
    as (median & threshold & top & Hm & Ht & Htop & H1 & H2 & _).
  exists median, threshold, top. split_and!; assumption.
Defined.
